(** * Anchor test-mode orchestration: power profiling + solo ranging

    A shallow embedding of [sketch_ppk2_merged_accuracy.ino] (ESP32 + DWM1000
    anchor firmware).  The sketch's global variables become one record, every
    function of the sketch becomes a function on that record, and every call
    into the board or the radio libraries is appended to a trace.

    Conventions
    - [unsigned long] and [int] are 32 bits wide on the ESP32: values are kept
      in [Z] and wrapped where the sketch computes on them ([int] increments
      wrap in two's complement, as the compiled code does).
    - [pulseFrequency], [dataRate] and [preambleLength] only ever hold the
      library constants they are initialised with and are left out.
    - [millis()] is the microsecond clock divided by 1000, truncated to an
      [unsigned long]; the clock moves in [delay]/[delayMicroseconds] and
      between the events the environment delivers.
    - the DW1000 / DW1000Ranging / U8g2 libraries are outside the sketch:
      their calls are recorded, and the callbacks the ranging library fires
      from [DW1000Ranging.loop()] are an input of that call. *)

From Stdlib Require Import ZArith List Bool String Ascii Lia.
Import ListNotations.
Local Open Scope string_scope.
Local Open Scope Z_scope.

(** ** Machine integers *)

Definition wrap_ulong (z : Z) : Z := z mod 2 ^ 32.
Definition wrap_uint8 (z : Z) : Z := z mod 2 ^ 8.
Definition INT_MAX : Z := 2 ^ 31 - 1.
Definition INT_MIN : Z := - 2 ^ 31.
Definition wrap_int (z : Z) : Z := (z + 2 ^ 31) mod 2 ^ 32 - 2 ^ 31.

(** ** Pins and lookup tables *)

Definition PPK2_TX_PIN : Z := 25.
Definition PPK2_RX_PIN : Z := 26.
Definition HIGH : bool := true.
Definition LOW : bool := false.

Definition channelMap : list Z := [0; 1; 2; 3; 4; 5; 7].
Definition antennaDelays : list Z :=
  [16534; 16525; 16517; 16531; 16383; 16534; 16534; 16401].

(** A read of a C array: [None] is a read outside the table. *)
Definition array_read (tbl : list Z) (i : Z) : option Z :=
  if i <? 0 then None else nth_error tbl (Z.to_nat i).

(** The value a read delivers to the code that follows it. *)
Definition fetched (r : option Z) : Z :=
  match r with Some v => v | None => 0 end.

Definition RANGING_IDLE_DURATION : Z := 1000.
Definition debounceDelay : Z := 300.
Definition oledInterval : Z := 200.

(** ** Enumerations *)

Inductive TestMode :=
| MODE_NONE | MODE_IDLE_TEST | MODE_RX_TEST | MODE_TX_TEST
| MODE_RANGING_TEST | MODE_SLEEP_CYCLE | MODE_AUTO_SEQUENCE.

Inductive AnchorState := STATE_IDLE | STATE_ACTIVE.

Inductive SequenceStep :=
| SEQ_RX_1 | SEQ_IDLE_1 | SEQ_TX | SEQ_IDLE_2
| SEQ_RX_2 | SEQ_IDLE_3 | SEQ_SLEEP | SEQ_COMPLETE.

Definition TestMode_eqb (a b : TestMode) : bool :=
  match a, b with
  | MODE_NONE, MODE_NONE | MODE_IDLE_TEST, MODE_IDLE_TEST
  | MODE_RX_TEST, MODE_RX_TEST | MODE_TX_TEST, MODE_TX_TEST
  | MODE_RANGING_TEST, MODE_RANGING_TEST
  | MODE_SLEEP_CYCLE, MODE_SLEEP_CYCLE
  | MODE_AUTO_SEQUENCE, MODE_AUTO_SEQUENCE => true
  | _, _ => false
  end.

Definition AnchorState_eqb (a b : AnchorState) : bool :=
  match a, b with
  | STATE_IDLE, STATE_IDLE | STATE_ACTIVE, STATE_ACTIVE => true
  | _, _ => false
  end.

(** Position of a step in the enumeration. *)
Definition step_index (q : SequenceStep) : Z :=
  match q with
  | SEQ_RX_1 => 0 | SEQ_IDLE_1 => 1 | SEQ_TX => 2 | SEQ_IDLE_2 => 3
  | SEQ_RX_2 => 4 | SEQ_IDLE_3 => 5 | SEQ_SLEEP => 6 | SEQ_COMPLETE => 7
  end.

(** ** External world *)

(** What the ranging library hands to [newRange]/[newDevice]: the float range
    is carried as its 32-bit pattern, the six timestamps as integers. *)
Record DW1000Device := {
  getShortAddress : Z;
  getRange : Z;
  timePollSent : Z;
  timePollReceived : Z;
  timePollAckSent : Z;
  timePollAckReceived : Z;
  timeRangeSent : Z;
  timeRangeReceived : Z
}.

Inductive Text :=
| Lit (s : string)
| Fmt (fmt : string) (args : list Z).

Inductive Event :=
| DigitalWrite (pin : Z) (level : bool)
| Delay (ms : Z)
| DelayMicroseconds (us : Z)
| SerialPrintln (line : string)
| SerialPrintf (fmt : string) (args : list Z)
| Call (api : string) (args : list Z)
| UpdateOLED (line1 : string) (line2 : Text).

(** ** The sketch's globals, the clock, the two marker pins and the trace
    (most recent event first). *)

Record State := {
  configOption : Z;
  channel : Z;
  currentTestMode : TestMode;
  usingRangingLayer : bool;
  currentState : AnchorState;
  sleepStartTime : Z;
  sleepDuration : Z;
  inDeepSleep : bool;
  lastTxTime : Z;
  txInterval : Z;
  txInProgress : bool;
  currentSequenceStep : SequenceStep;
  sequenceStepStartTime : Z;
  autoSequenceActive : bool;
  rangingTestTargetCount : Z;
  rangingTestCurrentCount : Z;
  rangingTestActive : bool;
  pin25PulseCount : Z;
  pin26PulseCount : Z;
  rangingSequenceStartTime : Z;
  rangingIdlePeriodActive : bool;
  lastButtonState : bool;
  lastDebounceTime : Z;
  lastOledUpdate : Z;
  clock_us : Z;
  ppk2_tx_level : bool;
  ppk2_rx_level : bool;
  trace : list Event
}.

(** Assignment to one global. *)
Definition set_configOption (v : Z) (s : State) : State :=
  {| configOption := v; channel := channel s; currentTestMode := currentTestMode s;
     usingRangingLayer := usingRangingLayer s; currentState := currentState s; sleepStartTime :=
     sleepStartTime s; sleepDuration := sleepDuration s; inDeepSleep := inDeepSleep s; lastTxTime
     := lastTxTime s; txInterval := txInterval s; txInProgress := txInProgress s;
     currentSequenceStep := currentSequenceStep s; sequenceStepStartTime := sequenceStepStartTime
     s; autoSequenceActive := autoSequenceActive s; rangingTestTargetCount :=
     rangingTestTargetCount s; rangingTestCurrentCount := rangingTestCurrentCount s;
     rangingTestActive := rangingTestActive s; pin25PulseCount := pin25PulseCount s;
     pin26PulseCount := pin26PulseCount s; rangingSequenceStartTime := rangingSequenceStartTime
     s; rangingIdlePeriodActive := rangingIdlePeriodActive s; lastButtonState := lastButtonState
     s; lastDebounceTime := lastDebounceTime s; lastOledUpdate := lastOledUpdate s; clock_us :=
     clock_us s; ppk2_tx_level := ppk2_tx_level s; ppk2_rx_level := ppk2_rx_level s; trace :=
     trace s |}.
Definition set_channel (v : Z) (s : State) : State :=
  {| configOption := configOption s; channel := v; currentTestMode := currentTestMode s;
     usingRangingLayer := usingRangingLayer s; currentState := currentState s; sleepStartTime :=
     sleepStartTime s; sleepDuration := sleepDuration s; inDeepSleep := inDeepSleep s; lastTxTime
     := lastTxTime s; txInterval := txInterval s; txInProgress := txInProgress s;
     currentSequenceStep := currentSequenceStep s; sequenceStepStartTime := sequenceStepStartTime
     s; autoSequenceActive := autoSequenceActive s; rangingTestTargetCount :=
     rangingTestTargetCount s; rangingTestCurrentCount := rangingTestCurrentCount s;
     rangingTestActive := rangingTestActive s; pin25PulseCount := pin25PulseCount s;
     pin26PulseCount := pin26PulseCount s; rangingSequenceStartTime := rangingSequenceStartTime
     s; rangingIdlePeriodActive := rangingIdlePeriodActive s; lastButtonState := lastButtonState
     s; lastDebounceTime := lastDebounceTime s; lastOledUpdate := lastOledUpdate s; clock_us :=
     clock_us s; ppk2_tx_level := ppk2_tx_level s; ppk2_rx_level := ppk2_rx_level s; trace :=
     trace s |}.
Definition set_currentTestMode (v : TestMode) (s : State) : State :=
  {| configOption := configOption s; channel := channel s; currentTestMode := v;
     usingRangingLayer := usingRangingLayer s; currentState := currentState s; sleepStartTime :=
     sleepStartTime s; sleepDuration := sleepDuration s; inDeepSleep := inDeepSleep s; lastTxTime
     := lastTxTime s; txInterval := txInterval s; txInProgress := txInProgress s;
     currentSequenceStep := currentSequenceStep s; sequenceStepStartTime := sequenceStepStartTime
     s; autoSequenceActive := autoSequenceActive s; rangingTestTargetCount :=
     rangingTestTargetCount s; rangingTestCurrentCount := rangingTestCurrentCount s;
     rangingTestActive := rangingTestActive s; pin25PulseCount := pin25PulseCount s;
     pin26PulseCount := pin26PulseCount s; rangingSequenceStartTime := rangingSequenceStartTime
     s; rangingIdlePeriodActive := rangingIdlePeriodActive s; lastButtonState := lastButtonState
     s; lastDebounceTime := lastDebounceTime s; lastOledUpdate := lastOledUpdate s; clock_us :=
     clock_us s; ppk2_tx_level := ppk2_tx_level s; ppk2_rx_level := ppk2_rx_level s; trace :=
     trace s |}.
Definition set_usingRangingLayer (v : bool) (s : State) : State :=
  {| configOption := configOption s; channel := channel s; currentTestMode := currentTestMode
     s; usingRangingLayer := v; currentState := currentState s; sleepStartTime := sleepStartTime
     s; sleepDuration := sleepDuration s; inDeepSleep := inDeepSleep s; lastTxTime := lastTxTime
     s; txInterval := txInterval s; txInProgress := txInProgress s; currentSequenceStep :=
     currentSequenceStep s; sequenceStepStartTime := sequenceStepStartTime s; autoSequenceActive
     := autoSequenceActive s; rangingTestTargetCount := rangingTestTargetCount s;
     rangingTestCurrentCount := rangingTestCurrentCount s; rangingTestActive := rangingTestActive
     s; pin25PulseCount := pin25PulseCount s; pin26PulseCount := pin26PulseCount s;
     rangingSequenceStartTime := rangingSequenceStartTime s; rangingIdlePeriodActive :=
     rangingIdlePeriodActive s; lastButtonState := lastButtonState s; lastDebounceTime :=
     lastDebounceTime s; lastOledUpdate := lastOledUpdate s; clock_us := clock_us s;
     ppk2_tx_level := ppk2_tx_level s; ppk2_rx_level := ppk2_rx_level s; trace := trace s |}.
Definition set_currentState (v : AnchorState) (s : State) : State :=
  {| configOption := configOption s; channel := channel s; currentTestMode := currentTestMode
     s; usingRangingLayer := usingRangingLayer s; currentState := v; sleepStartTime :=
     sleepStartTime s; sleepDuration := sleepDuration s; inDeepSleep := inDeepSleep s; lastTxTime
     := lastTxTime s; txInterval := txInterval s; txInProgress := txInProgress s;
     currentSequenceStep := currentSequenceStep s; sequenceStepStartTime := sequenceStepStartTime
     s; autoSequenceActive := autoSequenceActive s; rangingTestTargetCount :=
     rangingTestTargetCount s; rangingTestCurrentCount := rangingTestCurrentCount s;
     rangingTestActive := rangingTestActive s; pin25PulseCount := pin25PulseCount s;
     pin26PulseCount := pin26PulseCount s; rangingSequenceStartTime := rangingSequenceStartTime
     s; rangingIdlePeriodActive := rangingIdlePeriodActive s; lastButtonState := lastButtonState
     s; lastDebounceTime := lastDebounceTime s; lastOledUpdate := lastOledUpdate s; clock_us :=
     clock_us s; ppk2_tx_level := ppk2_tx_level s; ppk2_rx_level := ppk2_rx_level s; trace :=
     trace s |}.
Definition set_sleepStartTime (v : Z) (s : State) : State :=
  {| configOption := configOption s; channel := channel s; currentTestMode := currentTestMode
     s; usingRangingLayer := usingRangingLayer s; currentState := currentState s; sleepStartTime
     := v; sleepDuration := sleepDuration s; inDeepSleep := inDeepSleep s; lastTxTime :=
     lastTxTime s; txInterval := txInterval s; txInProgress := txInProgress s;
     currentSequenceStep := currentSequenceStep s; sequenceStepStartTime := sequenceStepStartTime
     s; autoSequenceActive := autoSequenceActive s; rangingTestTargetCount :=
     rangingTestTargetCount s; rangingTestCurrentCount := rangingTestCurrentCount s;
     rangingTestActive := rangingTestActive s; pin25PulseCount := pin25PulseCount s;
     pin26PulseCount := pin26PulseCount s; rangingSequenceStartTime := rangingSequenceStartTime
     s; rangingIdlePeriodActive := rangingIdlePeriodActive s; lastButtonState := lastButtonState
     s; lastDebounceTime := lastDebounceTime s; lastOledUpdate := lastOledUpdate s; clock_us :=
     clock_us s; ppk2_tx_level := ppk2_tx_level s; ppk2_rx_level := ppk2_rx_level s; trace :=
     trace s |}.
Definition set_sleepDuration (v : Z) (s : State) : State :=
  {| configOption := configOption s; channel := channel s; currentTestMode := currentTestMode
     s; usingRangingLayer := usingRangingLayer s; currentState := currentState s; sleepStartTime
     := sleepStartTime s; sleepDuration := v; inDeepSleep := inDeepSleep s; lastTxTime :=
     lastTxTime s; txInterval := txInterval s; txInProgress := txInProgress s;
     currentSequenceStep := currentSequenceStep s; sequenceStepStartTime := sequenceStepStartTime
     s; autoSequenceActive := autoSequenceActive s; rangingTestTargetCount :=
     rangingTestTargetCount s; rangingTestCurrentCount := rangingTestCurrentCount s;
     rangingTestActive := rangingTestActive s; pin25PulseCount := pin25PulseCount s;
     pin26PulseCount := pin26PulseCount s; rangingSequenceStartTime := rangingSequenceStartTime
     s; rangingIdlePeriodActive := rangingIdlePeriodActive s; lastButtonState := lastButtonState
     s; lastDebounceTime := lastDebounceTime s; lastOledUpdate := lastOledUpdate s; clock_us :=
     clock_us s; ppk2_tx_level := ppk2_tx_level s; ppk2_rx_level := ppk2_rx_level s; trace :=
     trace s |}.
Definition set_inDeepSleep (v : bool) (s : State) : State :=
  {| configOption := configOption s; channel := channel s; currentTestMode := currentTestMode
     s; usingRangingLayer := usingRangingLayer s; currentState := currentState s; sleepStartTime
     := sleepStartTime s; sleepDuration := sleepDuration s; inDeepSleep := v; lastTxTime :=
     lastTxTime s; txInterval := txInterval s; txInProgress := txInProgress s;
     currentSequenceStep := currentSequenceStep s; sequenceStepStartTime := sequenceStepStartTime
     s; autoSequenceActive := autoSequenceActive s; rangingTestTargetCount :=
     rangingTestTargetCount s; rangingTestCurrentCount := rangingTestCurrentCount s;
     rangingTestActive := rangingTestActive s; pin25PulseCount := pin25PulseCount s;
     pin26PulseCount := pin26PulseCount s; rangingSequenceStartTime := rangingSequenceStartTime
     s; rangingIdlePeriodActive := rangingIdlePeriodActive s; lastButtonState := lastButtonState
     s; lastDebounceTime := lastDebounceTime s; lastOledUpdate := lastOledUpdate s; clock_us :=
     clock_us s; ppk2_tx_level := ppk2_tx_level s; ppk2_rx_level := ppk2_rx_level s; trace :=
     trace s |}.
Definition set_lastTxTime (v : Z) (s : State) : State :=
  {| configOption := configOption s; channel := channel s; currentTestMode := currentTestMode
     s; usingRangingLayer := usingRangingLayer s; currentState := currentState s; sleepStartTime
     := sleepStartTime s; sleepDuration := sleepDuration s; inDeepSleep := inDeepSleep s;
     lastTxTime := v; txInterval := txInterval s; txInProgress := txInProgress s;
     currentSequenceStep := currentSequenceStep s; sequenceStepStartTime := sequenceStepStartTime
     s; autoSequenceActive := autoSequenceActive s; rangingTestTargetCount :=
     rangingTestTargetCount s; rangingTestCurrentCount := rangingTestCurrentCount s;
     rangingTestActive := rangingTestActive s; pin25PulseCount := pin25PulseCount s;
     pin26PulseCount := pin26PulseCount s; rangingSequenceStartTime := rangingSequenceStartTime
     s; rangingIdlePeriodActive := rangingIdlePeriodActive s; lastButtonState := lastButtonState
     s; lastDebounceTime := lastDebounceTime s; lastOledUpdate := lastOledUpdate s; clock_us :=
     clock_us s; ppk2_tx_level := ppk2_tx_level s; ppk2_rx_level := ppk2_rx_level s; trace :=
     trace s |}.
Definition set_txInterval (v : Z) (s : State) : State :=
  {| configOption := configOption s; channel := channel s; currentTestMode := currentTestMode
     s; usingRangingLayer := usingRangingLayer s; currentState := currentState s; sleepStartTime
     := sleepStartTime s; sleepDuration := sleepDuration s; inDeepSleep := inDeepSleep s;
     lastTxTime := lastTxTime s; txInterval := v; txInProgress := txInProgress s;
     currentSequenceStep := currentSequenceStep s; sequenceStepStartTime := sequenceStepStartTime
     s; autoSequenceActive := autoSequenceActive s; rangingTestTargetCount :=
     rangingTestTargetCount s; rangingTestCurrentCount := rangingTestCurrentCount s;
     rangingTestActive := rangingTestActive s; pin25PulseCount := pin25PulseCount s;
     pin26PulseCount := pin26PulseCount s; rangingSequenceStartTime := rangingSequenceStartTime
     s; rangingIdlePeriodActive := rangingIdlePeriodActive s; lastButtonState := lastButtonState
     s; lastDebounceTime := lastDebounceTime s; lastOledUpdate := lastOledUpdate s; clock_us :=
     clock_us s; ppk2_tx_level := ppk2_tx_level s; ppk2_rx_level := ppk2_rx_level s; trace :=
     trace s |}.
Definition set_txInProgress (v : bool) (s : State) : State :=
  {| configOption := configOption s; channel := channel s; currentTestMode := currentTestMode
     s; usingRangingLayer := usingRangingLayer s; currentState := currentState s; sleepStartTime
     := sleepStartTime s; sleepDuration := sleepDuration s; inDeepSleep := inDeepSleep s;
     lastTxTime := lastTxTime s; txInterval := txInterval s; txInProgress := v;
     currentSequenceStep := currentSequenceStep s; sequenceStepStartTime := sequenceStepStartTime
     s; autoSequenceActive := autoSequenceActive s; rangingTestTargetCount :=
     rangingTestTargetCount s; rangingTestCurrentCount := rangingTestCurrentCount s;
     rangingTestActive := rangingTestActive s; pin25PulseCount := pin25PulseCount s;
     pin26PulseCount := pin26PulseCount s; rangingSequenceStartTime := rangingSequenceStartTime
     s; rangingIdlePeriodActive := rangingIdlePeriodActive s; lastButtonState := lastButtonState
     s; lastDebounceTime := lastDebounceTime s; lastOledUpdate := lastOledUpdate s; clock_us :=
     clock_us s; ppk2_tx_level := ppk2_tx_level s; ppk2_rx_level := ppk2_rx_level s; trace :=
     trace s |}.
Definition set_currentSequenceStep (v : SequenceStep) (s : State) : State :=
  {| configOption := configOption s; channel := channel s; currentTestMode := currentTestMode
     s; usingRangingLayer := usingRangingLayer s; currentState := currentState s; sleepStartTime
     := sleepStartTime s; sleepDuration := sleepDuration s; inDeepSleep := inDeepSleep s;
     lastTxTime := lastTxTime s; txInterval := txInterval s; txInProgress := txInProgress s;
     currentSequenceStep := v; sequenceStepStartTime := sequenceStepStartTime s;
     autoSequenceActive := autoSequenceActive s; rangingTestTargetCount := rangingTestTargetCount
     s; rangingTestCurrentCount := rangingTestCurrentCount s; rangingTestActive :=
     rangingTestActive s; pin25PulseCount := pin25PulseCount s; pin26PulseCount :=
     pin26PulseCount s; rangingSequenceStartTime := rangingSequenceStartTime s;
     rangingIdlePeriodActive := rangingIdlePeriodActive s; lastButtonState := lastButtonState s;
     lastDebounceTime := lastDebounceTime s; lastOledUpdate := lastOledUpdate s; clock_us :=
     clock_us s; ppk2_tx_level := ppk2_tx_level s; ppk2_rx_level := ppk2_rx_level s; trace :=
     trace s |}.
Definition set_sequenceStepStartTime (v : Z) (s : State) : State :=
  {| configOption := configOption s; channel := channel s; currentTestMode := currentTestMode
     s; usingRangingLayer := usingRangingLayer s; currentState := currentState s; sleepStartTime
     := sleepStartTime s; sleepDuration := sleepDuration s; inDeepSleep := inDeepSleep s;
     lastTxTime := lastTxTime s; txInterval := txInterval s; txInProgress := txInProgress s;
     currentSequenceStep := currentSequenceStep s; sequenceStepStartTime := v; autoSequenceActive
     := autoSequenceActive s; rangingTestTargetCount := rangingTestTargetCount s;
     rangingTestCurrentCount := rangingTestCurrentCount s; rangingTestActive := rangingTestActive
     s; pin25PulseCount := pin25PulseCount s; pin26PulseCount := pin26PulseCount s;
     rangingSequenceStartTime := rangingSequenceStartTime s; rangingIdlePeriodActive :=
     rangingIdlePeriodActive s; lastButtonState := lastButtonState s; lastDebounceTime :=
     lastDebounceTime s; lastOledUpdate := lastOledUpdate s; clock_us := clock_us s;
     ppk2_tx_level := ppk2_tx_level s; ppk2_rx_level := ppk2_rx_level s; trace := trace s |}.
Definition set_autoSequenceActive (v : bool) (s : State) : State :=
  {| configOption := configOption s; channel := channel s; currentTestMode := currentTestMode
     s; usingRangingLayer := usingRangingLayer s; currentState := currentState s; sleepStartTime
     := sleepStartTime s; sleepDuration := sleepDuration s; inDeepSleep := inDeepSleep s;
     lastTxTime := lastTxTime s; txInterval := txInterval s; txInProgress := txInProgress s;
     currentSequenceStep := currentSequenceStep s; sequenceStepStartTime := sequenceStepStartTime
     s; autoSequenceActive := v; rangingTestTargetCount := rangingTestTargetCount s;
     rangingTestCurrentCount := rangingTestCurrentCount s; rangingTestActive := rangingTestActive
     s; pin25PulseCount := pin25PulseCount s; pin26PulseCount := pin26PulseCount s;
     rangingSequenceStartTime := rangingSequenceStartTime s; rangingIdlePeriodActive :=
     rangingIdlePeriodActive s; lastButtonState := lastButtonState s; lastDebounceTime :=
     lastDebounceTime s; lastOledUpdate := lastOledUpdate s; clock_us := clock_us s;
     ppk2_tx_level := ppk2_tx_level s; ppk2_rx_level := ppk2_rx_level s; trace := trace s |}.
Definition set_rangingTestTargetCount (v : Z) (s : State) : State :=
  {| configOption := configOption s; channel := channel s; currentTestMode := currentTestMode
     s; usingRangingLayer := usingRangingLayer s; currentState := currentState s; sleepStartTime
     := sleepStartTime s; sleepDuration := sleepDuration s; inDeepSleep := inDeepSleep s;
     lastTxTime := lastTxTime s; txInterval := txInterval s; txInProgress := txInProgress s;
     currentSequenceStep := currentSequenceStep s; sequenceStepStartTime := sequenceStepStartTime
     s; autoSequenceActive := autoSequenceActive s; rangingTestTargetCount := v;
     rangingTestCurrentCount := rangingTestCurrentCount s; rangingTestActive := rangingTestActive
     s; pin25PulseCount := pin25PulseCount s; pin26PulseCount := pin26PulseCount s;
     rangingSequenceStartTime := rangingSequenceStartTime s; rangingIdlePeriodActive :=
     rangingIdlePeriodActive s; lastButtonState := lastButtonState s; lastDebounceTime :=
     lastDebounceTime s; lastOledUpdate := lastOledUpdate s; clock_us := clock_us s;
     ppk2_tx_level := ppk2_tx_level s; ppk2_rx_level := ppk2_rx_level s; trace := trace s |}.
Definition set_rangingTestCurrentCount (v : Z) (s : State) : State :=
  {| configOption := configOption s; channel := channel s; currentTestMode := currentTestMode
     s; usingRangingLayer := usingRangingLayer s; currentState := currentState s; sleepStartTime
     := sleepStartTime s; sleepDuration := sleepDuration s; inDeepSleep := inDeepSleep s;
     lastTxTime := lastTxTime s; txInterval := txInterval s; txInProgress := txInProgress s;
     currentSequenceStep := currentSequenceStep s; sequenceStepStartTime := sequenceStepStartTime
     s; autoSequenceActive := autoSequenceActive s; rangingTestTargetCount :=
     rangingTestTargetCount s; rangingTestCurrentCount := v; rangingTestActive :=
     rangingTestActive s; pin25PulseCount := pin25PulseCount s; pin26PulseCount :=
     pin26PulseCount s; rangingSequenceStartTime := rangingSequenceStartTime s;
     rangingIdlePeriodActive := rangingIdlePeriodActive s; lastButtonState := lastButtonState s;
     lastDebounceTime := lastDebounceTime s; lastOledUpdate := lastOledUpdate s; clock_us :=
     clock_us s; ppk2_tx_level := ppk2_tx_level s; ppk2_rx_level := ppk2_rx_level s; trace :=
     trace s |}.
Definition set_rangingTestActive (v : bool) (s : State) : State :=
  {| configOption := configOption s; channel := channel s; currentTestMode := currentTestMode
     s; usingRangingLayer := usingRangingLayer s; currentState := currentState s; sleepStartTime
     := sleepStartTime s; sleepDuration := sleepDuration s; inDeepSleep := inDeepSleep s;
     lastTxTime := lastTxTime s; txInterval := txInterval s; txInProgress := txInProgress s;
     currentSequenceStep := currentSequenceStep s; sequenceStepStartTime := sequenceStepStartTime
     s; autoSequenceActive := autoSequenceActive s; rangingTestTargetCount :=
     rangingTestTargetCount s; rangingTestCurrentCount := rangingTestCurrentCount s;
     rangingTestActive := v; pin25PulseCount := pin25PulseCount s; pin26PulseCount :=
     pin26PulseCount s; rangingSequenceStartTime := rangingSequenceStartTime s;
     rangingIdlePeriodActive := rangingIdlePeriodActive s; lastButtonState := lastButtonState s;
     lastDebounceTime := lastDebounceTime s; lastOledUpdate := lastOledUpdate s; clock_us :=
     clock_us s; ppk2_tx_level := ppk2_tx_level s; ppk2_rx_level := ppk2_rx_level s; trace :=
     trace s |}.
Definition set_pin25PulseCount (v : Z) (s : State) : State :=
  {| configOption := configOption s; channel := channel s; currentTestMode := currentTestMode
     s; usingRangingLayer := usingRangingLayer s; currentState := currentState s; sleepStartTime
     := sleepStartTime s; sleepDuration := sleepDuration s; inDeepSleep := inDeepSleep s;
     lastTxTime := lastTxTime s; txInterval := txInterval s; txInProgress := txInProgress s;
     currentSequenceStep := currentSequenceStep s; sequenceStepStartTime := sequenceStepStartTime
     s; autoSequenceActive := autoSequenceActive s; rangingTestTargetCount :=
     rangingTestTargetCount s; rangingTestCurrentCount := rangingTestCurrentCount s;
     rangingTestActive := rangingTestActive s; pin25PulseCount := v; pin26PulseCount :=
     pin26PulseCount s; rangingSequenceStartTime := rangingSequenceStartTime s;
     rangingIdlePeriodActive := rangingIdlePeriodActive s; lastButtonState := lastButtonState s;
     lastDebounceTime := lastDebounceTime s; lastOledUpdate := lastOledUpdate s; clock_us :=
     clock_us s; ppk2_tx_level := ppk2_tx_level s; ppk2_rx_level := ppk2_rx_level s; trace :=
     trace s |}.
Definition set_pin26PulseCount (v : Z) (s : State) : State :=
  {| configOption := configOption s; channel := channel s; currentTestMode := currentTestMode
     s; usingRangingLayer := usingRangingLayer s; currentState := currentState s; sleepStartTime
     := sleepStartTime s; sleepDuration := sleepDuration s; inDeepSleep := inDeepSleep s;
     lastTxTime := lastTxTime s; txInterval := txInterval s; txInProgress := txInProgress s;
     currentSequenceStep := currentSequenceStep s; sequenceStepStartTime := sequenceStepStartTime
     s; autoSequenceActive := autoSequenceActive s; rangingTestTargetCount :=
     rangingTestTargetCount s; rangingTestCurrentCount := rangingTestCurrentCount s;
     rangingTestActive := rangingTestActive s; pin25PulseCount := pin25PulseCount s;
     pin26PulseCount := v; rangingSequenceStartTime := rangingSequenceStartTime s;
     rangingIdlePeriodActive := rangingIdlePeriodActive s; lastButtonState := lastButtonState s;
     lastDebounceTime := lastDebounceTime s; lastOledUpdate := lastOledUpdate s; clock_us :=
     clock_us s; ppk2_tx_level := ppk2_tx_level s; ppk2_rx_level := ppk2_rx_level s; trace :=
     trace s |}.
Definition set_rangingSequenceStartTime (v : Z) (s : State) : State :=
  {| configOption := configOption s; channel := channel s; currentTestMode := currentTestMode
     s; usingRangingLayer := usingRangingLayer s; currentState := currentState s; sleepStartTime
     := sleepStartTime s; sleepDuration := sleepDuration s; inDeepSleep := inDeepSleep s;
     lastTxTime := lastTxTime s; txInterval := txInterval s; txInProgress := txInProgress s;
     currentSequenceStep := currentSequenceStep s; sequenceStepStartTime := sequenceStepStartTime
     s; autoSequenceActive := autoSequenceActive s; rangingTestTargetCount :=
     rangingTestTargetCount s; rangingTestCurrentCount := rangingTestCurrentCount s;
     rangingTestActive := rangingTestActive s; pin25PulseCount := pin25PulseCount s;
     pin26PulseCount := pin26PulseCount s; rangingSequenceStartTime := v; rangingIdlePeriodActive
     := rangingIdlePeriodActive s; lastButtonState := lastButtonState s; lastDebounceTime :=
     lastDebounceTime s; lastOledUpdate := lastOledUpdate s; clock_us := clock_us s;
     ppk2_tx_level := ppk2_tx_level s; ppk2_rx_level := ppk2_rx_level s; trace := trace s |}.
Definition set_rangingIdlePeriodActive (v : bool) (s : State) : State :=
  {| configOption := configOption s; channel := channel s; currentTestMode := currentTestMode
     s; usingRangingLayer := usingRangingLayer s; currentState := currentState s; sleepStartTime
     := sleepStartTime s; sleepDuration := sleepDuration s; inDeepSleep := inDeepSleep s;
     lastTxTime := lastTxTime s; txInterval := txInterval s; txInProgress := txInProgress s;
     currentSequenceStep := currentSequenceStep s; sequenceStepStartTime := sequenceStepStartTime
     s; autoSequenceActive := autoSequenceActive s; rangingTestTargetCount :=
     rangingTestTargetCount s; rangingTestCurrentCount := rangingTestCurrentCount s;
     rangingTestActive := rangingTestActive s; pin25PulseCount := pin25PulseCount s;
     pin26PulseCount := pin26PulseCount s; rangingSequenceStartTime := rangingSequenceStartTime
     s; rangingIdlePeriodActive := v; lastButtonState := lastButtonState s; lastDebounceTime :=
     lastDebounceTime s; lastOledUpdate := lastOledUpdate s; clock_us := clock_us s;
     ppk2_tx_level := ppk2_tx_level s; ppk2_rx_level := ppk2_rx_level s; trace := trace s |}.
Definition set_lastButtonState (v : bool) (s : State) : State :=
  {| configOption := configOption s; channel := channel s; currentTestMode := currentTestMode
     s; usingRangingLayer := usingRangingLayer s; currentState := currentState s; sleepStartTime
     := sleepStartTime s; sleepDuration := sleepDuration s; inDeepSleep := inDeepSleep s;
     lastTxTime := lastTxTime s; txInterval := txInterval s; txInProgress := txInProgress s;
     currentSequenceStep := currentSequenceStep s; sequenceStepStartTime := sequenceStepStartTime
     s; autoSequenceActive := autoSequenceActive s; rangingTestTargetCount :=
     rangingTestTargetCount s; rangingTestCurrentCount := rangingTestCurrentCount s;
     rangingTestActive := rangingTestActive s; pin25PulseCount := pin25PulseCount s;
     pin26PulseCount := pin26PulseCount s; rangingSequenceStartTime := rangingSequenceStartTime
     s; rangingIdlePeriodActive := rangingIdlePeriodActive s; lastButtonState := v;
     lastDebounceTime := lastDebounceTime s; lastOledUpdate := lastOledUpdate s; clock_us :=
     clock_us s; ppk2_tx_level := ppk2_tx_level s; ppk2_rx_level := ppk2_rx_level s; trace :=
     trace s |}.
Definition set_lastDebounceTime (v : Z) (s : State) : State :=
  {| configOption := configOption s; channel := channel s; currentTestMode := currentTestMode
     s; usingRangingLayer := usingRangingLayer s; currentState := currentState s; sleepStartTime
     := sleepStartTime s; sleepDuration := sleepDuration s; inDeepSleep := inDeepSleep s;
     lastTxTime := lastTxTime s; txInterval := txInterval s; txInProgress := txInProgress s;
     currentSequenceStep := currentSequenceStep s; sequenceStepStartTime := sequenceStepStartTime
     s; autoSequenceActive := autoSequenceActive s; rangingTestTargetCount :=
     rangingTestTargetCount s; rangingTestCurrentCount := rangingTestCurrentCount s;
     rangingTestActive := rangingTestActive s; pin25PulseCount := pin25PulseCount s;
     pin26PulseCount := pin26PulseCount s; rangingSequenceStartTime := rangingSequenceStartTime
     s; rangingIdlePeriodActive := rangingIdlePeriodActive s; lastButtonState := lastButtonState
     s; lastDebounceTime := v; lastOledUpdate := lastOledUpdate s; clock_us := clock_us s;
     ppk2_tx_level := ppk2_tx_level s; ppk2_rx_level := ppk2_rx_level s; trace := trace s |}.
Definition set_lastOledUpdate (v : Z) (s : State) : State :=
  {| configOption := configOption s; channel := channel s; currentTestMode := currentTestMode
     s; usingRangingLayer := usingRangingLayer s; currentState := currentState s; sleepStartTime
     := sleepStartTime s; sleepDuration := sleepDuration s; inDeepSleep := inDeepSleep s;
     lastTxTime := lastTxTime s; txInterval := txInterval s; txInProgress := txInProgress s;
     currentSequenceStep := currentSequenceStep s; sequenceStepStartTime := sequenceStepStartTime
     s; autoSequenceActive := autoSequenceActive s; rangingTestTargetCount :=
     rangingTestTargetCount s; rangingTestCurrentCount := rangingTestCurrentCount s;
     rangingTestActive := rangingTestActive s; pin25PulseCount := pin25PulseCount s;
     pin26PulseCount := pin26PulseCount s; rangingSequenceStartTime := rangingSequenceStartTime
     s; rangingIdlePeriodActive := rangingIdlePeriodActive s; lastButtonState := lastButtonState
     s; lastDebounceTime := lastDebounceTime s; lastOledUpdate := v; clock_us := clock_us s;
     ppk2_tx_level := ppk2_tx_level s; ppk2_rx_level := ppk2_rx_level s; trace := trace s |}.
Definition set_clock_us (v : Z) (s : State) : State :=
  {| configOption := configOption s; channel := channel s; currentTestMode := currentTestMode
     s; usingRangingLayer := usingRangingLayer s; currentState := currentState s; sleepStartTime
     := sleepStartTime s; sleepDuration := sleepDuration s; inDeepSleep := inDeepSleep s;
     lastTxTime := lastTxTime s; txInterval := txInterval s; txInProgress := txInProgress s;
     currentSequenceStep := currentSequenceStep s; sequenceStepStartTime := sequenceStepStartTime
     s; autoSequenceActive := autoSequenceActive s; rangingTestTargetCount :=
     rangingTestTargetCount s; rangingTestCurrentCount := rangingTestCurrentCount s;
     rangingTestActive := rangingTestActive s; pin25PulseCount := pin25PulseCount s;
     pin26PulseCount := pin26PulseCount s; rangingSequenceStartTime := rangingSequenceStartTime
     s; rangingIdlePeriodActive := rangingIdlePeriodActive s; lastButtonState := lastButtonState
     s; lastDebounceTime := lastDebounceTime s; lastOledUpdate := lastOledUpdate s; clock_us :=
     v; ppk2_tx_level := ppk2_tx_level s; ppk2_rx_level := ppk2_rx_level s; trace := trace s |}.
Definition set_ppk2_tx_level (v : bool) (s : State) : State :=
  {| configOption := configOption s; channel := channel s; currentTestMode := currentTestMode
     s; usingRangingLayer := usingRangingLayer s; currentState := currentState s; sleepStartTime
     := sleepStartTime s; sleepDuration := sleepDuration s; inDeepSleep := inDeepSleep s;
     lastTxTime := lastTxTime s; txInterval := txInterval s; txInProgress := txInProgress s;
     currentSequenceStep := currentSequenceStep s; sequenceStepStartTime := sequenceStepStartTime
     s; autoSequenceActive := autoSequenceActive s; rangingTestTargetCount :=
     rangingTestTargetCount s; rangingTestCurrentCount := rangingTestCurrentCount s;
     rangingTestActive := rangingTestActive s; pin25PulseCount := pin25PulseCount s;
     pin26PulseCount := pin26PulseCount s; rangingSequenceStartTime := rangingSequenceStartTime
     s; rangingIdlePeriodActive := rangingIdlePeriodActive s; lastButtonState := lastButtonState
     s; lastDebounceTime := lastDebounceTime s; lastOledUpdate := lastOledUpdate s; clock_us :=
     clock_us s; ppk2_tx_level := v; ppk2_rx_level := ppk2_rx_level s; trace := trace s |}.
Definition set_ppk2_rx_level (v : bool) (s : State) : State :=
  {| configOption := configOption s; channel := channel s; currentTestMode := currentTestMode
     s; usingRangingLayer := usingRangingLayer s; currentState := currentState s; sleepStartTime
     := sleepStartTime s; sleepDuration := sleepDuration s; inDeepSleep := inDeepSleep s;
     lastTxTime := lastTxTime s; txInterval := txInterval s; txInProgress := txInProgress s;
     currentSequenceStep := currentSequenceStep s; sequenceStepStartTime := sequenceStepStartTime
     s; autoSequenceActive := autoSequenceActive s; rangingTestTargetCount :=
     rangingTestTargetCount s; rangingTestCurrentCount := rangingTestCurrentCount s;
     rangingTestActive := rangingTestActive s; pin25PulseCount := pin25PulseCount s;
     pin26PulseCount := pin26PulseCount s; rangingSequenceStartTime := rangingSequenceStartTime
     s; rangingIdlePeriodActive := rangingIdlePeriodActive s; lastButtonState := lastButtonState
     s; lastDebounceTime := lastDebounceTime s; lastOledUpdate := lastOledUpdate s; clock_us :=
     clock_us s; ppk2_tx_level := ppk2_tx_level s; ppk2_rx_level := v; trace := trace s |}.
Definition set_trace (v : list Event) (s : State) : State :=
  {| configOption := configOption s; channel := channel s; currentTestMode := currentTestMode
     s; usingRangingLayer := usingRangingLayer s; currentState := currentState s; sleepStartTime
     := sleepStartTime s; sleepDuration := sleepDuration s; inDeepSleep := inDeepSleep s;
     lastTxTime := lastTxTime s; txInterval := txInterval s; txInProgress := txInProgress s;
     currentSequenceStep := currentSequenceStep s; sequenceStepStartTime := sequenceStepStartTime
     s; autoSequenceActive := autoSequenceActive s; rangingTestTargetCount :=
     rangingTestTargetCount s; rangingTestCurrentCount := rangingTestCurrentCount s;
     rangingTestActive := rangingTestActive s; pin25PulseCount := pin25PulseCount s;
     pin26PulseCount := pin26PulseCount s; rangingSequenceStartTime := rangingSequenceStartTime
     s; rangingIdlePeriodActive := rangingIdlePeriodActive s; lastButtonState := lastButtonState
     s; lastDebounceTime := lastDebounceTime s; lastOledUpdate := lastOledUpdate s; clock_us :=
     clock_us s; ppk2_tx_level := ppk2_tx_level s; ppk2_rx_level := ppk2_rx_level s; trace := v
     |}.

(** ** Board primitives *)

Definition millis (s : State) : Z := wrap_ulong (clock_us s / 1000).

Definition emit (e : Event) (s : State) : State := set_trace (e :: trace s) s.

Definition call (api : string) (args : list Z) (s : State) : State :=
  emit (Call api args) s.

Definition digitalWrite (pin : Z) (level : bool) (s : State) : State :=
  let s := if pin =? PPK2_TX_PIN then set_ppk2_tx_level level s else s in
  let s := if pin =? PPK2_RX_PIN then set_ppk2_rx_level level s else s in
  emit (DigitalWrite pin level) s.

Definition delay (ms : Z) (s : State) : State :=
  emit (Delay ms) (set_clock_us (clock_us s + 1000 * ms) s).

Definition delayMicroseconds (us : Z) (s : State) : State :=
  emit (DelayMicroseconds us) (set_clock_us (clock_us s + us) s).

Definition Serial_println (line : string) (s : State) : State :=
  emit (SerialPrintln line) s.

Definition Serial_printf (fmt : string) (args : list Z) (s : State) : State :=
  emit (SerialPrintf fmt args) s.

Definition updateOLED (line1 : string) (line2 : Text) (s : State) : State :=
  emit (UpdateOLED line1 line2) s.

Definition b2z (b : bool) : Z := if b then 1 else 0.

(** ** Mode initialization *)

Definition getAntennaDelayForChannel (ch : Z) : option Z :=
  if ch <=? 7 then array_read antennaDelays ch else Some 16534.

(** The conditional expression [applyChannelConfiguration] assigns to
    [channel]. *)
Definition channelForConfig (opt : Z) : option Z :=
  if opt <=? 6 then array_read channelMap opt else Some 5.

Definition applyChannelConfiguration (s : State) : State :=
  let s := set_channel (fetched (channelForConfig (configOption s))) s in
  let s := call "SPI.end" [] s in
  let s := call "SPI.begin" [18; 19; 23] s in
  let s := call "DW1000.reset" [] s in
  let s := delay 5 s in
  let s := call "DW1000Ranging.initCommunication" [27; 17; 34] s in
  let antennaDelay := fetched (getAntennaDelayForChannel (channel s)) in
  let s := call "DW1000.setAntennaDelay" [antennaDelay] s in
  let s := call "DW1000Ranging.attachNewRange" [] s in
  let s := call "DW1000Ranging.attachNewDevice" [] s in
  let s := call "DW1000Ranging.attachInactiveDevice" [] s in
  let s := call "DW1000Ranging.startAsAnchor" [] s in
  let s := call "DW1000.setChannel" [channel s] s in
  let s := call "DW1000.commitConfiguration" [] s in
  let s := call "DW1000.attachReceiveTimestampAvailableHandler" [] s in
  let s := set_usingRangingLayer true s in
  Serial_printf "Channel %d configured with antenna delay %d\n"
    [channel s; antennaDelay] s.

Definition initializeDirectMode (s : State) : State :=
  if usingRangingLayer s then
    let s := Serial_println "MODE: Direct control initialized" s in
    let s := call "DW1000.reset" [] s in
    let s := delay 5 s in
    let s := call "DW1000.begin" [34; 27] s in
    let s := call "DW1000.select" [17] s in
    let s := call "DW1000.attachSentHandler" [] s in
    let s := call "DW1000.attachReceivedHandler" [] s in
    let s := call "DW1000.attachReceiveTimeoutHandler" [] s in
    let s := call "DW1000.attachReceiveFailedHandler" [] s in
    let s := call "DW1000.newConfiguration" [] s in
    let s := call "DW1000.setDefaults" [] s in
    let s := call "DW1000.setChannel" [channel s] s in
    let antennaDelay := fetched (getAntennaDelayForChannel (channel s)) in
    let s := call "DW1000.setAntennaDelay" [antennaDelay] s in
    let s := call "DW1000.enableMode" [] s in
    let s := call "DW1000.commitConfiguration" [] s in
    set_usingRangingLayer false s
  else s.

Definition initializeRangingMode (s : State) : State :=
  if negb (usingRangingLayer s) then
    let s := Serial_println "MODE: Ranging protocol initialized" s in
    let s := applyChannelConfiguration s in
    set_usingRangingLayer true s
  else s.

Definition stopAllTests (s : State) : State :=
  let s := set_currentTestMode MODE_NONE s in
  let s := set_currentState STATE_IDLE s in
  let s := set_inDeepSleep false s in
  let s := set_txInProgress false s in
  let s := set_rangingTestActive false s in
  let s := set_rangingIdlePeriodActive false s in
  let s := set_autoSequenceActive false s in
  let s := digitalWrite PPK2_TX_PIN LOW s in
  let s := digitalWrite PPK2_RX_PIN LOW s in
  if usingRangingLayer s then
    let s := call "DW1000.newReceive" [] s in
    let s := call "DW1000.receivePermanently" [1] s in
    call "DW1000.startReceive" [] s
  else initializeRangingMode s.

(** ** Power profiling handlers (attached to the radio driver in direct mode) *)

Definition handleSentPowerProfile (s : State) : State :=
  let s := digitalWrite PPK2_TX_PIN LOW s in
  set_txInProgress false s.

Definition handleReceivedPowerProfile (s : State) : State :=
  if TestMode_eqb (currentTestMode s) MODE_RX_TEST then
    let s := call "DW1000.newReceive" [] s in
    call "DW1000.startReceive" [] s
  else s.

Definition handleReceiveTimeoutPowerProfile (s : State) : State :=
  if TestMode_eqb (currentTestMode s) MODE_RX_TEST then
    let s := call "DW1000.newReceive" [] s in
    call "DW1000.startReceive" [] s
  else s.

Definition handleReceiveFailedPowerProfile (s : State) : State :=
  if TestMode_eqb (currentTestMode s) MODE_RX_TEST then
    let s := call "DW1000.newReceive" [] s in
    call "DW1000.startReceive" [] s
  else s.

(** ** Solo ranging handlers *)

(** The guard shared by the two ranging callbacks. *)
Definition rangingLive (s : State) : bool :=
  TestMode_eqb (currentTestMode s) MODE_RANGING_TEST
  && AnchorState_eqb (currentState s) STATE_ACTIVE
  && rangingTestActive s.

Definition handleTimestampAvailable (s : State) : State :=
  if rangingLive s then
    let s := digitalWrite PPK2_TX_PIN HIGH s in
    let s := delayMicroseconds 50 s in
    let s := digitalWrite PPK2_TX_PIN LOW s in
    set_pin25PulseCount (wrap_int (pin25PulseCount s + 1)) s
  else s.

Definition stopRangingTest (s : State) : State :=
  let s := set_rangingTestActive false s in
  let s := set_rangingIdlePeriodActive false s in
  let s := set_currentState STATE_IDLE s in
  let s := set_currentTestMode MODE_IDLE_TEST s in
  let s := Serial_printf "STOP_TEST|T:%lums\n" [millis s] s in
  let s := digitalWrite PPK2_TX_PIN HIGH s in
  let s := digitalWrite PPK2_RX_PIN HIGH s in
  let s := delay 20 s in
  let s := digitalWrite PPK2_TX_PIN LOW s in
  let s := digitalWrite PPK2_RX_PIN LOW s in
  let s := delay 20 s in
  let s := initializeDirectMode s in
  let s := call "DW1000.idle" [] s in
  let s := call "DW1000.clearInterrupts" [] s in
  let s := call "DW1000.receivePermanently" [0] s in
  Serial_println "RANGING_TEST: Complete - entered idle mode" s.

Definition RANGE_RECORD : string :=
  "#%d:%.2fm|P25:%d|P26:%d|T:%lu|TS:%lld,%lld,%lld,%lld,%lld,%lld\n".
Definition TEST_COMPLETE : string :=
  "TEST_COMPLETE|Total:P25=%d,P26=%d,Time=%lums\n".

(** [device] is what [DW1000Ranging.getDistantDevice()] returns. *)
Definition newRange (device : option DW1000Device) (s : State) : State :=
  match device with
  | None => s
  | Some d =>
    let range := getRange d in
    if rangingLive s then
      let s := set_pin26PulseCount (wrap_int (pin26PulseCount s + 1)) s in
      let s := set_rangingTestCurrentCount
                 (wrap_int (rangingTestCurrentCount s + 1)) s in
      let s := digitalWrite PPK2_RX_PIN HIGH s in
      let s := delayMicroseconds 2000 s in
      let s := digitalWrite PPK2_RX_PIN LOW s in
      let s := Serial_printf RANGE_RECORD
                 [rangingTestCurrentCount s; range; pin25PulseCount s;
                  pin26PulseCount s; millis s;
                  timePollSent d; timePollReceived d; timePollAckSent d;
                  timePollAckReceived d; timeRangeSent d; timeRangeReceived d] s in
      if rangingTestTargetCount s <=? rangingTestCurrentCount s then
        let s := Serial_printf TEST_COMPLETE
                   [pin25PulseCount s; pin26PulseCount s; millis s] s in
        stopRangingTest s
      else s
    else s
  end.

Definition newDevice (device : option DW1000Device) (s : State) : State :=
  match device with
  | Some d => Serial_printf "DEV_ADD:%X|T:%lums\n" [getShortAddress d; millis s] s
  | None => s
  end.

Definition inactiveDevice (device : option DW1000Device) (s : State) : State :=
  match device with
  | Some d => Serial_printf "DEV_LOST:%X|T:%lums\n" [getShortAddress d; millis s] s
  | None => s
  end.

(** The handlers the sketch attaches to the two libraries. *)
Inductive Callback :=
| OnSent
| OnReceived
| OnReceiveTimeout
| OnReceiveFailed
| OnTimestampAvailable
| OnNewRange (device : option DW1000Device)
| OnNewDevice (device : option DW1000Device)
| OnInactiveDevice (device : option DW1000Device).

Definition fire (cb : Callback) (s : State) : State :=
  match cb with
  | OnSent => handleSentPowerProfile s
  | OnReceived => handleReceivedPowerProfile s
  | OnReceiveTimeout => handleReceiveTimeoutPowerProfile s
  | OnReceiveFailed => handleReceiveFailedPowerProfile s
  | OnTimestampAvailable => handleTimestampAvailable s
  | OnNewRange d => newRange d s
  | OnNewDevice d => newDevice d s
  | OnInactiveDevice d => inactiveDevice d s
  end.

(** [DW1000Ranging.loop()]: the library polls the radio and fires, in order,
    the callbacks [cbs] that are due. *)
Definition DW1000Ranging_loop (cbs : list Callback) (s : State) : State :=
  fold_left (fun s cb => fire cb s) cbs (call "DW1000Ranging.loop" [] s).

(** ** Power test implementations *)

Definition startIdleTest (s : State) : State :=
  let s := Serial_println "IDLE_TEST: Starting - measuring idle power" s in
  let s := initializeDirectMode s in
  let s := call "DW1000.idle" [] s in
  let s := call "DW1000.clearInterrupts" [] s in
  let s := call "DW1000.receivePermanently" [0] s in
  let s := set_currentTestMode MODE_IDLE_TEST s in
  Serial_println "IDLE_TEST: Active - minimal power mode" s.

Definition startRxTest (s : State) : State :=
  let s := Serial_println "RX_TEST: Starting - measuring RX power" s in
  let s := initializeDirectMode s in
  let s := call "DW1000.newReceive" [] s in
  let s := call "DW1000.setDefaults" [] s in
  let s := call "DW1000.receivePermanently" [0] s in
  let s := call "DW1000.startReceive" [] s in
  let s := digitalWrite PPK2_RX_PIN HIGH s in
  let s := set_currentTestMode MODE_RX_TEST s in
  Serial_println "RX_TEST: Active - listening continuously" s.

Definition startTxTest (s : State) : State :=
  let s := Serial_printf "TX_TEST: Active - TX every %dms\n" [txInterval s] s in
  let s := initializeDirectMode s in
  let s := call "DW1000.idle" [] s in
  let s := set_lastTxTime (millis s) s in
  set_currentTestMode MODE_TX_TEST s.

Definition startSleepTest (s : State) : State :=
  let s := Serial_printf
             "SLEEP_CYCLE: Starting for %lums - entering deep sleep\n"
             [sleepDuration s] s in
  let s := stopAllTests s in
  let s := call "DW1000.clearInterrupts" [] s in
  let s := call "DW1000.idle" [] s in
  let s := set_sleepStartTime (millis s) s in
  let s := call "Serial.flush" [] s in
  let s := updateOLED "SLEEP_CYCLE" (Lit "Sleeping...") s in
  let s := delay 100 s in
  let s := call "DW1000.deepSleep" [] s in
  let s := set_inDeepSleep true s in
  let s := set_currentTestMode MODE_SLEEP_CYCLE s in
  Serial_println "SLEEP_CYCLE: Active - measuring ultra-low power" s.

Definition startAutoSequence (s : State) : State :=
  let s := Serial_printf "AUTO: Starting power sequence on CH%d\n" [channel s] s in
  let s := set_currentSequenceStep SEQ_RX_1 s in
  let s := set_sequenceStepStartTime (millis s) s in
  let s := set_autoSequenceActive true s in
  let s := set_currentTestMode MODE_AUTO_SEQUENCE s in
  let s := Serial_println "AUTO: Step 1/7 - RX_TEST (2sec)" s in
  let s := initializeDirectMode s in
  let s := call "DW1000.newReceive" [] s in
  let s := call "DW1000.setDefaults" [] s in
  let s := call "DW1000.receivePermanently" [0] s in
  let s := call "DW1000.startReceive" [] s in
  digitalWrite PPK2_RX_PIN HIGH s.

(** ** Test handlers *)

Definition handleTxTest (s : State) : State :=
  let s :=
    if (txInterval s <=? wrap_ulong (millis s - lastTxTime s))
       && negb (txInProgress s) then
      let s := digitalWrite PPK2_TX_PIN HIGH s in
      let s := call "DW1000.newTransmit" [] s in
      let s := call "DW1000.setDefaults" [] s in
      let s := call "DW1000.setData" [100] s in
      let s := set_txInProgress true s in
      let s := call "DW1000.startTransmit" [] s in
      set_lastTxTime (millis s) s
    else s in
  if negb (txInProgress s) && (10 <? wrap_ulong (millis s - lastTxTime s)) then
    call "DW1000.idle" [] s
  else s.

Definition handleSleepTest (s : State) : State :=
  if inDeepSleep s then
    if sleepDuration s <=? wrap_ulong (millis s - sleepStartTime s) then
      let s := Serial_println "SLEEP_CYCLE: Complete - chip reinitialized" s in
      let s := call "DW1000.spiWakeup" [] s in
      let s := delay 10 s in
      let s := applyChannelConfiguration s in
      let s := set_inDeepSleep false s in
      set_currentTestMode MODE_NONE s
    else s
  else
    if sleepDuration s <=? wrap_ulong (millis s - sleepStartTime s) then
      let s := set_currentTestMode MODE_NONE s in
      Serial_println "SLEEP_CYCLE: Complete" s
    else s.

(** ** Auto sequence handler *)

Definition handleAutoSequence (s : State) : State :=
  if negb (autoSequenceActive s) then s else
  let elapsed := wrap_ulong (millis s - sequenceStepStartTime s) in
  match currentSequenceStep s with
  | SEQ_RX_1 =>
    if 2000 <=? elapsed then
      let s := digitalWrite PPK2_RX_PIN LOW s in
      let s := Serial_println "AUTO: Step 2/7 - IDLE_TEST (4sec)" s in
      let s := call "DW1000.idle" [] s in
      let s := call "DW1000.clearInterrupts" [] s in
      let s := call "DW1000.receivePermanently" [0] s in
      let s := set_currentSequenceStep SEQ_IDLE_1 s in
      set_sequenceStepStartTime (millis s) s
    else s
  | SEQ_IDLE_1 =>
    if 4000 <=? elapsed then
      let s := Serial_println "AUTO: Step 3/7 - TX_TEST (3sec, 500ms interval)" s in
      let s := call "DW1000.idle" [] s in
      let s := set_txInterval 500 s in
      let s := set_lastTxTime (millis s) s in
      let s := set_currentSequenceStep SEQ_TX s in
      set_sequenceStepStartTime (millis s) s
    else s
  | SEQ_TX =>
    let s :=
      if (txInterval s <=? wrap_ulong (millis s - lastTxTime s))
         && negb (txInProgress s) then
        let s := digitalWrite PPK2_TX_PIN HIGH s in
        let s := call "DW1000.newTransmit" [] s in
        let s := call "DW1000.setDefaults" [] s in
        let s := call "DW1000.setData" [100] s in
        let s := set_txInProgress true s in
        let s := call "DW1000.startTransmit" [] s in
        set_lastTxTime (millis s) s
      else s in
    let s :=
      if negb (txInProgress s) && (10 <? wrap_ulong (millis s - lastTxTime s)) then
        call "DW1000.idle" [] s
      else s in
    if 3000 <=? elapsed then
      let s := Serial_println "AUTO: Step 4/7 - IDLE_TEST (2sec)" s in
      let s := call "DW1000.idle" [] s in
      let s := call "DW1000.clearInterrupts" [] s in
      let s := call "DW1000.receivePermanently" [0] s in
      let s := set_currentSequenceStep SEQ_IDLE_2 s in
      set_sequenceStepStartTime (millis s) s
    else s
  | SEQ_IDLE_2 =>
    if 2000 <=? elapsed then
      let s := Serial_println "AUTO: Step 5/7 - RX_TEST (4sec)" s in
      let s := call "DW1000.newReceive" [] s in
      let s := call "DW1000.setDefaults" [] s in
      let s := call "DW1000.receivePermanently" [0] s in
      let s := call "DW1000.startReceive" [] s in
      let s := digitalWrite PPK2_RX_PIN HIGH s in
      let s := set_currentSequenceStep SEQ_RX_2 s in
      set_sequenceStepStartTime (millis s) s
    else s
  | SEQ_RX_2 =>
    if 4000 <=? elapsed then
      let s := digitalWrite PPK2_RX_PIN LOW s in
      let s := Serial_println "AUTO: Step 6/7 - IDLE_TEST (2sec)" s in
      let s := call "DW1000.idle" [] s in
      let s := call "DW1000.clearInterrupts" [] s in
      let s := call "DW1000.receivePermanently" [0] s in
      let s := set_currentSequenceStep SEQ_IDLE_3 s in
      set_sequenceStepStartTime (millis s) s
    else s
  | SEQ_IDLE_3 =>
    if 2000 <=? elapsed then
      let s := Serial_println "AUTO: Step 7/7 - SLEEP_CYCLE (3000ms)" s in
      let s := call "DW1000.clearInterrupts" [] s in
      let s := call "DW1000.idle" [] s in
      let s := set_sleepStartTime (millis s) s in
      let s := set_sleepDuration 3000 s in
      let s := call "Serial.flush" [] s in
      let s := delay 100 s in
      let s := call "DW1000.deepSleep" [] s in
      let s := set_inDeepSleep true s in
      let s := set_currentSequenceStep SEQ_SLEEP s in
      set_sequenceStepStartTime (millis s) s
    else s
  | SEQ_SLEEP =>
    if inDeepSleep s then
      if sleepDuration s <=? wrap_ulong (millis s - sleepStartTime s) then
        let s := Serial_println "AUTO: Sleep complete - reinitializing" s in
        let s := call "DW1000.spiWakeup" [] s in
        let s := delay 10 s in
        let s := applyChannelConfiguration s in
        let s := set_inDeepSleep false s in
        set_currentSequenceStep SEQ_COMPLETE s
      else s
    else s
  | SEQ_COMPLETE =>
    let s := Serial_println "AUTO: Sequence complete" s in
    let s := set_autoSequenceActive false s in
    set_currentTestMode MODE_NONE s
  end.

(** ** Solo ranging test implementation *)

Definition startRangingTest (count : Z) (s : State) : State :=
  let s := Serial_printf "RANGING_TEST: Starting %d cycles - idle phase\n" [count] s in
  let s := initializeDirectMode s in
  let s := call "DW1000.idle" [] s in
  let s := call "DW1000.clearInterrupts" [] s in
  let s := call "DW1000.receivePermanently" [0] s in
  let s := set_rangingTestTargetCount count s in
  let s := set_rangingTestCurrentCount 0 s in
  let s := set_pin25PulseCount 0 s in
  let s := set_pin26PulseCount 0 s in
  let s := set_rangingSequenceStartTime (millis s) s in
  let s := set_rangingIdlePeriodActive true s in
  let s := set_rangingTestActive false s in
  let s := set_currentTestMode MODE_RANGING_TEST s in
  set_currentState STATE_IDLE s.

Definition handleRangingTest (cbs : list Callback) (s : State) : State :=
  if rangingIdlePeriodActive s then
    if RANGING_IDLE_DURATION <=? wrap_ulong (millis s - rangingSequenceStartTime s) then
      let s := Serial_println "RANGING: Active start" s in
      let s := initializeRangingMode s in
      let s := digitalWrite PPK2_TX_PIN HIGH s in
      let s := digitalWrite PPK2_RX_PIN HIGH s in
      let s := delay 20 s in
      let s := digitalWrite PPK2_TX_PIN LOW s in
      let s := digitalWrite PPK2_RX_PIN LOW s in
      let s := delay 20 s in
      let s := Serial_printf "START_TEST|Target:%d|T:%lums\n"
                 [rangingTestTargetCount s; millis s] s in
      let s := set_rangingIdlePeriodActive false s in
      let s := set_rangingTestActive true s in
      let s := set_currentState STATE_ACTIVE s in
      Serial_println "RANGING_TEST: Active - waiting for tag" s
    else s
  else
    if AnchorState_eqb (currentState s) STATE_ACTIVE && rangingTestActive s then
      DW1000Ranging_loop cbs s
    else s.

(** ** Arduino [String] operations used by the command parser *)

Definition code (c : ascii) : Z := Z.of_nat (nat_of_ascii c).

Definition isspace (c : ascii) : bool :=
  (code c =? 32) || ((9 <=? code c) && (code c <=? 13)).

Definition isdigit (c : ascii) : bool := (48 <=? code c) && (code c <=? 57).

Fixpoint skip_spaces (t : string) : string :=
  match t with
  | String c r => if isspace c then skip_spaces r else t
  | EmptyString => EmptyString
  end.

(** [String::trim]: leading and trailing white space removed. *)
Definition trim (t : string) : string :=
  let back := list_ascii_of_string (skip_spaces t) in
  let kept := list_ascii_of_string
                (skip_spaces (string_of_list_ascii (rev back))) in
  string_of_list_ascii (rev kept).

(** [String::indexOf(c)]: position of the first [c], if any. *)
Fixpoint indexOf (c : ascii) (t : string) : option nat :=
  match t with
  | EmptyString => None
  | String a r =>
    if Ascii.eqb a c then Some 0%nat else option_map S (indexOf c r)
  end.

(** [String::substring(from)]. *)
Fixpoint substringFrom (from : nat) (t : string) : string :=
  match from, t with
  | O, _ => t
  | S k, String _ r => substringFrom k r
  | S _, EmptyString => EmptyString
  end.

Fixpoint digits_value (acc : Z) (t : string) : Z :=
  match t with
  | String c r => if isdigit c then digits_value (10 * acc + (code c - 48)) r else acc
  | EmptyString => acc
  end.

Definition clamp_long (z : Z) : Z := Z.max INT_MIN (Z.min INT_MAX z).

(** [String::toInt] is [atol]: white space, an optional sign, decimal digits;
    0 when there is no digit; saturating at the ends of a 32-bit [long]. *)
Definition toInt (t : string) : Z :=
  match skip_spaces t with
  | String "-" r => clamp_long (- digits_value 0 r)
  | String "+" r => clamp_long (digits_value 0 r)
  | u => clamp_long (digits_value 0 u)
  end.

(** The command name and [arg1] as [parseCommand] splits them. *)
Definition commandName (cmd : string) : string :=
  match indexOf " " cmd with
  | Some firstSpace => substring 0 firstSpace cmd
  | None => cmd
  end.

Definition commandArg (cmd : string) : Z :=
  match indexOf " " cmd with
  | Some firstSpace => toInt (substringFrom (S firstSpace) cmd)
  | None => 0
  end.

(** ** User interface *)

Definition parseCommand (cmd : string) (s : State) : State :=
  let command := commandName cmd in
  let arg1 := commandArg cmd in
  let s := stopAllTests s in
  if String.eqb command "IDLE_TEST" then startIdleTest s
  else if String.eqb command "RX_TEST" then startRxTest s
  else if String.eqb command "TX_TEST" then
    let s := set_txInterval (if 0 <? arg1 then arg1 else 50) s in
    startTxTest s
  else if String.eqb command "RANGING_TEST" then
    if 0 <? arg1 then startRangingTest arg1 s
    else Serial_println "Usage: RANGING_TEST <count>" s
  else if String.eqb command "SLEEP_CYCLE" then
    let s := set_sleepDuration (if 0 <? arg1 then arg1 else 5000) s in
    startSleepTest s
  else if String.eqb command "auto" then startAutoSequence s
  else if String.eqb command "STOP_TEST" then Serial_println "All tests stopped." s
  else Serial_println "Unknown command." s.

(** [reading] is what [digitalRead(BUTTON_PIN)] returns. *)
Definition handleButtonPress (reading : bool) (s : State) : State :=
  let s :=
    if negb reading && lastButtonState s
       && (debounceDelay <? wrap_ulong (millis s - lastDebounceTime s)) then
      let s :=
        if TestMode_eqb (currentTestMode s) MODE_NONE then
          let s := set_configOption (wrap_uint8 (configOption s + 1)) s in
          let s := if 6 <? configOption s then set_configOption 1 s else s in
          applyChannelConfiguration s
        else s in
      set_lastDebounceTime (millis s) s
    else s in
  set_lastButtonState reading s.

(** ** Display management *)

Definition updateOledDisplay (s : State) : State :=
  let s := set_lastOledUpdate (millis s) s in
  match currentTestMode s with
  | MODE_NONE => updateOLED "Ready" (Fmt "CH: %d" [channel s]) s
  | MODE_IDLE_TEST => updateOLED "IDLE_TEST" (Lit "Min Power Mode") s
  | MODE_RX_TEST => updateOLED "RX_TEST" (Lit "RX Active") s
  | MODE_TX_TEST => updateOLED "TX_TEST" (Fmt "TX Every %lums" [txInterval s]) s
  | MODE_RANGING_TEST =>
    updateOLED "RANGING_TEST"
      (Fmt "%d/%d ranges" [rangingTestCurrentCount s; rangingTestTargetCount s]) s
  | MODE_SLEEP_CYCLE =>
    updateOLED "SLEEP_CYCLE" (Lit (if inDeepSleep s then "Deep Sleep" else "Complete")) s
  | MODE_AUTO_SEQUENCE => updateOLED "AUTO_SEQ" (Fmt "CH: %d AUTO" [channel s]) s
  end.

(** ** Main program loop

    One iteration: [reading] is the button level, [line] the line
    [Serial.readStringUntil] delivers when one is available, [cbs] the
    callbacks the ranging library fires if its [loop()] is reached. *)
Definition loop (reading : bool) (line : option string) (cbs : list Callback)
    (s : State) : State :=
  let s := handleButtonPress reading s in
  let s := match line with
           | Some cmd => parseCommand (trim cmd) s
           | None => s
           end in
  let s := match currentTestMode s with
           | MODE_NONE => if usingRangingLayer s then DW1000Ranging_loop cbs s else s
           | MODE_TX_TEST => handleTxTest s
           | MODE_RANGING_TEST => handleRangingTest cbs s
           | MODE_SLEEP_CYCLE => handleSleepTest s
           | MODE_AUTO_SEQUENCE => handleAutoSequence s
           | MODE_IDLE_TEST | MODE_RX_TEST => s
           end in
  if oledInterval <? wrap_ulong (millis s - lastOledUpdate s)
  then updateOledDisplay s else s.

(** ** System initialization *)

(** The globals as their initializers leave them, at time 0. *)
Definition power_on : State := {|
  configOption := 1; channel := 1;
  currentTestMode := MODE_NONE; usingRangingLayer := false;
  currentState := STATE_IDLE;
  sleepStartTime := 0; sleepDuration := 0; inDeepSleep := false;
  lastTxTime := 0; txInterval := 50; txInProgress := false;
  currentSequenceStep := SEQ_RX_1; sequenceStepStartTime := 0;
  autoSequenceActive := false;
  rangingTestTargetCount := 0; rangingTestCurrentCount := 0;
  rangingTestActive := false;
  pin25PulseCount := 0; pin26PulseCount := 0;
  rangingSequenceStartTime := 0; rangingIdlePeriodActive := false;
  lastButtonState := HIGH; lastDebounceTime := 0; lastOledUpdate := 0;
  clock_us := 0; ppk2_tx_level := LOW; ppk2_rx_level := LOW;
  trace := []
|}.

Definition setup (s : State) : State :=
  let s := call "Serial.begin" [115200] s in
  let s := delay 2000 s in
  let s := call "pinMode" [13] s in
  let s := call "pinMode" [PPK2_TX_PIN] s in
  let s := call "pinMode" [PPK2_RX_PIN] s in
  let s := digitalWrite PPK2_TX_PIN LOW s in
  let s := digitalWrite PPK2_RX_PIN LOW s in
  let s := call "pinMode" [32] s in
  let s := digitalWrite 32 LOW s in
  let s := call "pinMode" [33] s in
  let s := digitalWrite 33 LOW s in
  let s := call "Wire.begin" [22; 21] s in
  let s := call "display.begin" [] s in
  let s := call "display.setFont" [] s in
  let s := updateOLED "Power + Ranging" (Lit "Initializing...") s in
  let s := call "SPI.begin" [18; 19; 23] s in
  let s := applyChannelConfiguration s in
  let s := Serial_println "\n=== UWB Power Profiling + Solo Ranging ===" s in
  let s := Serial_println "Power Tests:" s in
  let s := Serial_println "  IDLE_TEST           - Measure idle state power" s in
  let s := Serial_println "  RX_TEST             - Measure receiver power" s in
  let s := Serial_println "  TX_TEST [delay_ms]  - Measure periodic TX power" s in
  let s := Serial_println "  SLEEP_CYCLE <ms>    - Measure deep sleep power" s in
  let s := Serial_println "  auto                - Automated power sequence" s in
  let s := Serial_println "Solo Ranging:" s in
  let s := Serial_println "  RANGING_TEST <count> - Controlled ranging with GPIO markers" s in
  let s := Serial_println "  STOP_TEST           - Stop current test" s in
  let s := Serial_println "  Button: Change channel (1,2,3,4,5,7)" s in
  updateOLED "Ready" (Fmt "CH: %d" [channel s]) s.

Definition booted : State := setup power_on.

(** ** The firmware driven by its environment *)

Inductive Input :=
| Elapse (us : N)
| Interrupt (cb : Callback)
| Iteration (reading : bool) (line : option string) (cbs : list Callback).

Definition step (s : State) (i : Input) : State :=
  match i with
  | Elapse us => set_clock_us (clock_us s + Z.of_N us) s
  | Interrupt cb => fire cb s
  | Iteration reading line cbs => loop reading line cbs s
  end.

Definition run (inputs : list Input) (s : State) : State :=
  fold_left step inputs s.

(** An input that carries no command line. *)
Definition silent (i : Input) : Prop :=
  match i with
  | Iteration _ (Some _) _ => False
  | _ => True
  end.

(** * Vocabulary of the properties *)

(** Events appended between [s] and a later [s'], most recent first. *)
Definition emitted (s s' : State) : list Event :=
  firstn (List.length (trace s') - List.length (trace s)) (trace s').

(** The synchronisation marker at a ranging phase boundary, in the order it
    is driven: both pins high, 20 ms, both pins low, 20 ms. *)
Definition boundaryPulse : list Event :=
  [DigitalWrite PPK2_TX_PIN HIGH; DigitalWrite PPK2_RX_PIN HIGH; Delay 20;
   DigitalWrite PPK2_TX_PIN LOW; DigitalWrite PPK2_RX_PIN LOW; Delay 20].


(** Reachable states and a device handle, used as concrete inputs. *)
Definition sampleDevice : DW1000Device :=
  {| getShortAddress := 125; getRange := 1065353216;
     timePollSent := 10; timePollReceived := 20; timePollAckSent := 30;
     timePollAckReceived := 40; timeRangeSent := 50; timeRangeReceived := 60 |}.

(** After [IDLE_TEST]: the radio is under direct control. *)
Definition directIdle : State :=
  run [Iteration HIGH (Some "IDLE_TEST") []] booted.

(** A ranging session of two exchanges, past its settle period, none done. *)
Definition activeSession : State :=
  run [Iteration HIGH (Some "RANGING_TEST 2") []; Elapse 1000000;
       Iteration HIGH None []] booted.

(** A session of one exchange run to completion, then [STOP_TEST]. *)
Definition afterSession : State :=
  run [Iteration HIGH (Some "RANGING_TEST 1") []; Elapse 1000000;
       Iteration HIGH None [];
       Iteration HIGH None [OnTimestampAvailable; OnNewRange (Some sampleDevice)];
       Iteration HIGH (Some "STOP_TEST") []] booted.

(** [tr] is [base] with the events [evs] put in front of it. *)
Inductive extends (base : list Event) : list Event -> list Event -> Prop :=
| extends_nil : extends base [] base
| extends_cons e evs tr :
    extends base evs tr -> extends base (e :: evs) (e :: tr).

(** The command names [parseCommand] compares against. *)
Definition recognizedCommands : list string :=
  ["IDLE_TEST"; "RX_TEST"; "TX_TEST"; "RANGING_TEST"; "SLEEP_CYCLE"; "auto";
   "STOP_TEST"].

(** The per-step durations of the data model, in milliseconds. *)
Definition stepDuration (q : SequenceStep) : Z :=
  match q with
  | SEQ_RX_1 => 2000 | SEQ_IDLE_1 => 4000 | SEQ_TX => 3000 | SEQ_IDLE_2 => 2000
  | SEQ_RX_2 => 4000 | SEQ_IDLE_3 => 2000 | SEQ_SLEEP => 3000 | SEQ_COMPLETE => 0
  end.

(** [elapsed] as [handleAutoSequence] computes it on entry. *)
Definition elapsedInStep (s : State) : Z :=
  wrap_ulong (millis s - sequenceStepStartTime s).

(** What the sleep step waits for. *)
Definition elapsedAsleep (s : State) : Z :=
  wrap_ulong (millis s - sleepStartTime s).

(** The step after [q] in the enumeration's order. *)
Definition nextStep (q : SequenceStep) : SequenceStep :=
  match q with
  | SEQ_RX_1 => SEQ_IDLE_1 | SEQ_IDLE_1 => SEQ_TX | SEQ_TX => SEQ_IDLE_2
  | SEQ_IDLE_2 => SEQ_RX_2 | SEQ_RX_2 => SEQ_IDLE_3 | SEQ_IDLE_3 => SEQ_SLEEP
  | SEQ_SLEEP => SEQ_COMPLETE | SEQ_COMPLETE => SEQ_COMPLETE
  end.

(** Whether a call of the handler leaves the current step. *)
Definition stepDue (s : State) : bool :=
  match currentSequenceStep s with
  | SEQ_SLEEP => inDeepSleep s && (sleepDuration s <=? elapsedAsleep s)
  | SEQ_COMPLETE => false
  | q => stepDuration q <=? elapsedInStep s
  end.

(** The part of the state the auto sequence lives in. *)
Definition autoView (s : State) :=
  (currentTestMode s, autoSequenceActive s, currentSequenceStep s,
   inDeepSleep s, sleepDuration s, sequenceStepStartTime s, sleepStartTime s).

(** What holds along a run of the auto sequence; [k] is a step index already
    reached. *)
Definition AutoInv (k : Z) (s : State) : Prop :=
  k <= step_index (currentSequenceStep s)
  /\ currentTestMode s
     = (if autoSequenceActive s then MODE_AUTO_SEQUENCE else MODE_NONE)
  /\ (autoSequenceActive s = true -> currentSequenceStep s = SEQ_SLEEP ->
      inDeepSleep s = true /\ sleepDuration s = 3000
      /\ wrap_ulong (sequenceStepStartTime s - sleepStartTime s) = 100).


(** The completion summary record of a ranging session. *)
Definition isSummary (e : Event) : bool :=
  match e with
  | SerialPrintf fmt _ => String.eqb fmt TEST_COMPLETE
  | _ => false
  end.

Fixpoint countSummaries (tr : list Event) : Z :=
  match tr with
  | [] => 0
  | e :: rest =>
    if isSummary e then Z.succ (countSummaries rest) else countSummaries rest
  end.

(** Completion summary records written so far. *)
Definition summaryCount (s : State) : Z := countSummaries (trace s).

(** The part of the state the session's outcome is read from. *)
Definition sessionView (s : State) :=
  (currentTestMode s, rangingTestTargetCount s, rangingTestCurrentCount s,
   summaryCount s).

(** A session with target [n], started when [base] summaries had been
    written: still counting below [n] with no new summary, or finished at
    exactly [n] with exactly one. *)
Definition SessionInv (n base : Z) (s : State) : Prop :=
  rangingTestTargetCount s = n
  /\ ((currentTestMode s = MODE_RANGING_TEST
       /\ 0 <= rangingTestCurrentCount s < n /\ summaryCount s = base)
      \/ (currentTestMode s = MODE_IDLE_TEST
          /\ rangingTestCurrentCount s = n /\ summaryCount s = base + 1)).

(** The finished half of [SessionInv]. *)
Definition SessionDone (n base : Z) (s : State) : Prop :=
  currentTestMode s = MODE_IDLE_TEST
  /\ rangingTestCurrentCount s = n /\ summaryCount s = base + 1.

(** The fields the live phase is read from. *)
Definition liveView (s : State) :=
  (currentTestMode s, currentState s, rangingTestActive s,
   rangingIdlePeriodActive s, rangingTestTargetCount s, rangingTestCurrentCount s).

(** The active phase of a session with target [n] and [c] exchanges done. *)
Definition LiveAt (n c : Z) (s : State) : Prop :=
  liveView s = (MODE_RANGING_TEST, STATE_ACTIVE, true, false, n, c).

(** One loop iteration per device, each delivering one computed range. *)
Definition deliveries (reading : bool) (devices : list DW1000Device) : list Input :=
  map (fun d => Iteration reading None [OnNewRange (Some d)]) devices.

(** ** Vocabulary of the whole-program invariants *)

Definition isRxStep (q : SequenceStep) : bool :=
  match q with SEQ_RX_1 | SEQ_RX_2 => true | _ => false end.

Definition isSleepStep (q : SequenceStep) : bool :=
  match q with SEQ_SLEEP => true | _ => false end.

Definition isCompleteStep (q : SequenceStep) : bool :=
  match q with SEQ_COMPLETE => true | _ => false end.

(** The flags and pin levels a test mode governs: AnchorState, ranging
    active, ranging settle, auto-sequence active, deep sleep, RX marker pin,
    TX marker pin, ranging-protocol layer, transmit in progress. *)
Definition phaseFlags (s : State) :=
  (currentState s, rangingTestActive s, rangingIdlePeriodActive s,
   autoSequenceActive s, inDeepSleep s, ppk2_rx_level s, ppk2_tx_level s,
   usingRangingLayer s, txInProgress s).

(** What those flags are in each test mode, between two events. *)
Definition expectedFlags (s : State) :=
  match currentTestMode s with
  | MODE_NONE =>
    (STATE_IDLE, false, false, false, false, LOW, txInProgress s, true,
     txInProgress s)
  | MODE_IDLE_TEST =>
    (STATE_IDLE, false, false, false, false, LOW, LOW, false, false)
  | MODE_RX_TEST =>
    (STATE_IDLE, false, false, false, false, HIGH, LOW, false, false)
  | MODE_TX_TEST =>
    (STATE_IDLE, false, false, false, false, LOW, txInProgress s, false,
     txInProgress s)
  | MODE_RANGING_TEST =>
    (if rangingTestActive s then STATE_ACTIVE else STATE_IDLE,
     rangingTestActive s, negb (rangingTestActive s), false, false, LOW, LOW,
     rangingTestActive s, false)
  | MODE_SLEEP_CYCLE =>
    (STATE_IDLE, false, false, false, true, LOW, LOW, true, false)
  | MODE_AUTO_SEQUENCE =>
    (STATE_IDLE, false, false, true, isSleepStep (currentSequenceStep s),
     isRxStep (currentSequenceStep s), txInProgress s,
     isCompleteStep (currentSequenceStep s), txInProgress s)
  end.

(** The state between two events of any run: the mode governs the flags and
    the marker pins, the configuration index is one of 1..6 with its channel
    applied, and the range-computed pulse count is the completion count. *)
Definition Coherent (s : State) : Prop :=
  phaseFlags s = expectedFlags s
  /\ 1 <= configOption s <= 6
  /\ channel s = fetched (channelForConfig (configOption s))
  /\ pin26PulseCount s = rangingTestCurrentCount s.

(** The state right after stop-all. *)
Definition Stopped (s : State) : Prop :=
  Coherent s /\ currentTestMode s = MODE_NONE /\ txInProgress s = false.

(** The test of [handleButtonPress]: a falling edge of the button, later
    than the debounce delay after the last accepted one. *)
Definition pressAccepted (reading : bool) (s : State) : bool :=
  negb reading && lastButtonState s
  && (debounceDelay <? wrap_ulong (millis s - lastDebounceTime s)).

(** The exit of the transmit step of the auto sequence: what
    [handleAutoSequence] does in [SEQ_TX] once the step's 3000 ms are over. *)
Definition leaveTransmitStep (s : State) : State :=
  let s := Serial_println "AUTO: Step 4/7 - IDLE_TEST (2sec)" s in
  let s := call "DW1000.idle" [] s in
  let s := call "DW1000.clearInterrupts" [] s in
  let s := call "DW1000.receivePermanently" [0] s in
  let s := set_currentSequenceStep SEQ_IDLE_2 s in
  set_sequenceStepStartTime (millis s) s.

(** The two records written when the active phase of a session starts, most
    recent first. *)
Definition startRecords (s : State) (t : Z) : list Event :=
  [SerialPrintln "RANGING_TEST: Active - waiting for tag";
   SerialPrintf "START_TEST|Target:%d|T:%lums\n" [rangingTestTargetCount s; t]].

(** What the timing of the auto sequence is read from. *)
Definition timedView (s : State) := (autoView s, clock_us s).

(** An active auto sequence at step [q] that has been in that step for at
    most 100 ms. *)
Definition Ready (q : SequenceStep) (s : State) : Prop :=
  autoSequenceActive s = true
  /\ currentSequenceStep s = q
  /\ AutoInv 0 s
  /\ exists c g, 0 <= g <= 100
       /\ sequenceStepStartTime s = wrap_ulong (c / 1000)
       /\ clock_us s = c + 1000 * g.

(** Waiting [k] ms, then one loop iteration without a command. *)
Definition tick (reading : bool) (cbs : list Callback) (k : N) : list Input :=
  [Elapse (1000 * k); Iteration reading None cbs].

(** The changes of test mode that do not need a command: none at all, a
    ranging test ending in IdleTest, a sleep test or the auto sequence ending
    in None. *)
Definition quietMove (a b : TestMode) : bool :=
  TestMode_eqb a b
  || match a, b with
     | MODE_RANGING_TEST, MODE_IDLE_TEST
     | MODE_SLEEP_CYCLE, MODE_NONE
     | MODE_AUTO_SEQUENCE, MODE_NONE => true
     | _, _ => false
     end.


(** A call of [DW1000.startTransmit()]. *)
Definition isStartTransmit (e : Event) : bool :=
  match e with
  | Call api _ => String.eqb api "DW1000.startTransmit"
  | _ => false
  end.

Fixpoint countTransmits (tr : list Event) : Z :=
  match tr with
  | [] => 0
  | e :: rest =>
    if isStartTransmit e then Z.succ (countTransmits rest)
    else countTransmits rest
  end.

(** Transmissions started so far. *)
Definition transmitCount (s : State) : Z := countTransmits (trace s).

(** An input that is neither a command nor the radio's sent interrupt. *)
Definition unacknowledged (i : Input) : Prop :=
  match i with
  | Interrupt OnSent => False
  | Iteration _ (Some _) _ => False
  | _ => True
  end.

(** What the pacing of the transmit test is read from. *)
Definition txView (s : State) :=
  (currentTestMode s, txInProgress s, transmitCount s, lastTxTime s,
   txInterval s, clock_us s, ppk2_tx_level s).

(** The test of [handleTxTest]: the interval since the last transmission is
    over and no transmission is in flight. *)
Definition transmitDue (s : State) : bool :=
  (txInterval s <=? wrap_ulong (millis s - lastTxTime s))
  && negb (txInProgress s).

(** A range record carries the completion count as its index (first field)
    and the pin-26 pulse count as its fourth field; [recordOk] says that the
    two agree.  Every other event passes. *)
Definition recordOk (e : Event) : bool :=
  match e with
  | SerialPrintf fmt args =>
    if String.eqb fmt RANGE_RECORD then nth 0 args 0 =? nth 3 args 0 else true
  | _ => true
  end.

Definition RecordsOk (s : State) : Prop :=
  Forall (fun e => recordOk e = true) (trace s).


(** The state the [switch] of [loop] tests: after the button handler and the
    command, if there is one. *)
Definition atSwitch (reading : bool) (line : option string) (s : State) : State :=
  let s := handleButtonPress reading s in
  match line with
  | Some cmd => parseCommand (trim cmd) s
  | None => s
  end.

(** The end of [loop]: the display refresh, when it is due. *)
Definition refreshDisplay (s : State) : State :=
  if oledInterval <? wrap_ulong (millis s - lastOledUpdate s)
  then updateOledDisplay s else s.
(** * Properties *)

Arguments wrap_ulong : simpl never.
Arguments wrap_int : simpl never.
Arguments wrap_uint8 : simpl never.

(** ** Reading the trace *)

Arguments emitted : simpl never.

Lemma emitted_app (s s' : State) (evs : list Event) :
  trace s' = (evs ++ trace s)%list -> emitted s s' = evs.
Proof.
  intros E. unfold emitted. rewrite E, List.length_app.
  replace (List.length evs + List.length (trace s) - List.length (trace s))%nat
    with (List.length evs + 0)%nat by lia.
  rewrite firstn_app_2. simpl. apply app_nil_r.
Qed.

(** ** Lookup tables (C10) *)

Lemma array_read_in_bounds (tbl : list Z) (i : Z) :
  0 <= i < Z.of_nat (List.length tbl) ->
  array_read tbl i = Some (nth (Z.to_nat i) tbl 0).
Proof.
  intros [Hlo Hhi]. unfold array_read.
  destruct (i <? 0) eqn:E; [apply Z.ltb_lt in E; lia|].
  apply nth_error_nth'. lia.
Qed.

(** C10. Both table lookups are total on their 8-bit argument and never leave
    their table: [getAntennaDelayForChannel ch] reads [antennaDelays[ch]] for
    [ch <= 7] (an index below the table's 8 entries) and is 16534 otherwise;
    [applyChannelConfiguration] sets [channel] to [channelMap[configOption]]
    for [configOption <= 6] (an index below the table's 7 entries) and to 5
    otherwise, and the antenna-delay read it then performs on that channel
    succeeds as well. *)
Theorem C10_lookups_total (ch : Z) (s : State) :
  0 <= ch <= 255 -> 0 <= configOption s <= 255 ->
  getAntennaDelayForChannel ch
    = Some (if ch <=? 7 then nth (Z.to_nat ch) antennaDelays 0 else 16534)
  /\ (ch <= 7 -> (Z.to_nat ch < List.length antennaDelays)%nat)
  /\ channelForConfig (configOption s)
     = Some (if configOption s <=? 6
             then nth (Z.to_nat (configOption s)) channelMap 0 else 5)
  /\ (configOption s <= 6 -> (Z.to_nat (configOption s) < List.length channelMap)%nat)
  /\ channel (applyChannelConfiguration s)
     = (if configOption s <=? 6
        then nth (Z.to_nat (configOption s)) channelMap 0 else 5)
  /\ (exists d, getAntennaDelayForChannel (channel (applyChannelConfiguration s))
                = Some d).
Proof.
  intros Hch Hopt.
  assert (A : forall c, 0 <= c <= 255 ->
            getAntennaDelayForChannel c
            = Some (if c <=? 7 then nth (Z.to_nat c) antennaDelays 0 else 16534)).
  { intros c Hc. unfold getAntennaDelayForChannel.
    destruct (c <=? 7) eqn:E; [|reflexivity].
    apply Z.leb_le in E. apply array_read_in_bounds. simpl. lia. }
  assert (B : channelForConfig (configOption s)
              = Some (if configOption s <=? 6
                      then nth (Z.to_nat (configOption s)) channelMap 0 else 5)).
  { unfold channelForConfig.
    destruct (configOption s <=? 6) eqn:E; [|reflexivity].
    apply Z.leb_le in E. apply array_read_in_bounds. simpl. lia. }
  assert (C : channel (applyChannelConfiguration s)
              = (if configOption s <=? 6
                 then nth (Z.to_nat (configOption s)) channelMap 0 else 5)).
  { unfold applyChannelConfiguration. cbn. rewrite B. reflexivity. }
  repeat split.
  - apply A, Hch.
  - simpl. lia.
  - exact B.
  - simpl. lia.
  - exact C.
  - rewrite C. eexists. apply A.
    destruct (configOption s <=? 6) eqn:E; [|lia].
    apply Z.leb_le in E.
    assert (H : configOption s = 0 \/ configOption s = 1 \/ configOption s = 2
                \/ configOption s = 3 \/ configOption s = 4
                \/ configOption s = 5 \/ configOption s = 6) by lia.
    destruct H as [H|[H|[H|[H|[H|[H|H]]]]]]; rewrite H; simpl; lia.
Qed.

Lemma C10_lookups_total_witness :
  getAntennaDelayForChannel 7 = Some 16401
  /\ getAntennaDelayForChannel 200 = Some 16534
  /\ channel (applyChannelConfiguration (set_configOption 6 booted)) = 7
  /\ channel (applyChannelConfiguration (set_configOption 9 booted)) = 5.
Proof.
  assert (R : 0 <= 7 <= 255) by lia.
  assert (R' : 0 <= 200 <= 255) by lia.
  assert (O : 0 <= configOption (set_configOption 6 booted) <= 255) by (simpl; lia).
  assert (O' : 0 <= configOption (set_configOption 9 booted) <= 255) by (simpl; lia).
  split; [exact (proj1 (C10_lookups_total 7 _ R O))|].
  split; [exact (proj1 (C10_lookups_total 200 _ R' O))|].
  split.
  - exact (proj1 (proj2 (proj2 (proj2 (proj2 (C10_lookups_total 7 _ R O)))))).
  - exact (proj1 (proj2 (proj2 (proj2 (proj2 (C10_lookups_total 7 _ R O')))))).
Defined.

(** ** Mode switch adapter (C9) *)

(** C9. Switching to direct mode while the ranging-protocol layer is not
    active changes nothing, switching to ranging-protocol mode while that
    layer is active changes nothing, and each switch applied twice is the
    switch applied once. *)
Theorem C9_mode_switch_idempotent (s : State) :
  (usingRangingLayer s = false -> initializeDirectMode s = s)
  /\ (usingRangingLayer s = true -> initializeRangingMode s = s)
  /\ initializeDirectMode (initializeDirectMode s) = initializeDirectMode s
  /\ initializeRangingMode (initializeRangingMode s) = initializeRangingMode s.
Proof.
  assert (D : forall t, usingRangingLayer t = false -> initializeDirectMode t = t).
  { intros t H. unfold initializeDirectMode. rewrite H. reflexivity. }
  assert (R : forall t, usingRangingLayer t = true -> initializeRangingMode t = t).
  { intros t H. unfold initializeRangingMode. rewrite H. reflexivity. }
  repeat split; auto.
  - apply D. unfold initializeDirectMode.
    destruct (usingRangingLayer s) eqn:E; [reflexivity | exact E].
  - apply R. unfold initializeRangingMode.
    destruct (usingRangingLayer s) eqn:E; [exact E | reflexivity].
Qed.

Lemma C9_mode_switch_idempotent_witness :
  initializeDirectMode directIdle = directIdle
  /\ initializeRangingMode booted = booted.
Proof.
  split.
  - apply (proj1 (C9_mode_switch_idempotent directIdle)). vm_compute. reflexivity.
  - apply (proj1 (proj2 (C9_mode_switch_idempotent booted))). vm_compute. reflexivity.
Defined.

(** ** Ranging callbacks outside the active phase (C8) *)

Lemma rangingLive_false (s : State) :
  currentTestMode s <> MODE_RANGING_TEST
  \/ currentState s <> STATE_ACTIVE
  \/ rangingTestActive s = false ->
  rangingLive s = false.
Proof.
  unfold rangingLive. intros [H | [H | H]].
  - destruct (currentTestMode s); try reflexivity. congruence.
  - destruct (currentState s); [|congruence].
    simpl. rewrite andb_false_r. reflexivity.
  - rewrite H. apply andb_false_r.
Qed.

(** C8. When TestMode is not RangingTest, or AnchorState is not Active, or
    the ranging-test-active flag is false, the timestamp-available callback
    and the range-computed callback (whatever device it is handed) return the
    state they were given: no counter moves, no pin is driven, no record is
    written. *)
Theorem C8_callbacks_gated (s : State) (device : option DW1000Device) :
  currentTestMode s <> MODE_RANGING_TEST
  \/ currentState s <> STATE_ACTIVE
  \/ rangingTestActive s = false ->
  handleTimestampAvailable s = s
  /\ newRange device s = s
  /\ pin25PulseCount (handleTimestampAvailable s) = pin25PulseCount s
  /\ emitted s (handleTimestampAvailable s) = []
  /\ rangingTestCurrentCount (newRange device s) = rangingTestCurrentCount s
  /\ pin25PulseCount (newRange device s) = pin25PulseCount s
  /\ pin26PulseCount (newRange device s) = pin26PulseCount s
  /\ emitted s (newRange device s) = [].
Proof.
  intros H. apply rangingLive_false in H.
  assert (T : handleTimestampAvailable s = s).
  { unfold handleTimestampAvailable. rewrite H. reflexivity. }
  assert (N : newRange device s = s).
  { unfold newRange. destruct device; [rewrite H|]; reflexivity. }
  rewrite T, N. repeat split; apply emitted_app; reflexivity.
Qed.

Lemma C8_callbacks_gated_witness :
  handleTimestampAvailable booted = booted
  /\ newRange (Some sampleDevice) booted = booted.
Proof.
  assert (G : currentTestMode booted <> MODE_RANGING_TEST
              \/ currentState booted <> STATE_ACTIVE
              \/ rangingTestActive booted = false).
  { right. right. vm_compute. reflexivity. }
  split.
  - exact (proj1 (C8_callbacks_gated booted None G)).
  - exact (proj1 (proj2 (C8_callbacks_gated booted (Some sampleDevice) G))).
Defined.

(** ** Starting a ranging session (C5) *)

(** C5. Whatever the state before, [startRangingTest count] with a positive
    [count] leaves the completion count and both pulse counters at 0, keeps
    [count] as the target, records the current [millis()] as the session start,
    and enters the settle phase: TestMode RangingTest, AnchorState Idle, settle
    flag set, active flag clear. *)
Theorem C5_start_resets_counters (count : Z) (s : State) :
  0 < count ->
  let s' := startRangingTest count s in
  rangingTestCurrentCount s' = 0
  /\ pin25PulseCount s' = 0
  /\ pin26PulseCount s' = 0
  /\ rangingTestTargetCount s' = count
  /\ rangingSequenceStartTime s' = millis s'
  /\ rangingIdlePeriodActive s' = true
  /\ rangingTestActive s' = false
  /\ currentTestMode s' = MODE_RANGING_TEST
  /\ currentState s' = STATE_IDLE
  /\ usingRangingLayer s' = false.
Proof.
  intros _ s'. subst s'. unfold startRangingTest, initializeDirectMode.
  cbn. destruct (usingRangingLayer s) eqn:E; cbn; rewrite ?E; repeat split.
Qed.

Lemma C5_start_resets_counters_witness :
  rangingTestCurrentCount (startRangingTest 3 afterSession) = 0
  /\ pin26PulseCount (startRangingTest 3 afterSession) = 0
  /\ rangingTestCurrentCount afterSession = 1.
Proof.
  assert (P : 0 < 3) by lia.
  split; [exact (proj1 (C5_start_resets_counters 3 afterSession P))|].
  split; [exact (proj1 (proj2 (proj2 (C5_start_resets_counters 3 afterSession P))))|].
  vm_compute. reflexivity.
Defined.

(** ** Stop-all (C2, C6) *)

Lemma emitted_ext (s s' : State) (evs : list Event) :
  extends (trace s) evs (trace s') -> emitted s s' = evs.
Proof.
  intros X. apply emitted_app.
  induction X as [|e evs tr _ IH]; [reflexivity|].
  simpl. rewrite IH. reflexivity.
Qed.

Ltac trace_diff := cbn; repeat econstructor.

Lemma stopAllTests_fields (s : State) :
  let s' := stopAllTests s in
  currentTestMode s' = MODE_NONE
  /\ currentState s' = STATE_IDLE
  /\ txInProgress s' = false
  /\ inDeepSleep s' = false
  /\ rangingTestActive s' = false
  /\ rangingIdlePeriodActive s' = false
  /\ autoSequenceActive s' = false
  /\ ppk2_tx_level s' = LOW
  /\ ppk2_rx_level s' = LOW
  /\ usingRangingLayer s' = true.
Proof.
  unfold stopAllTests, initializeRangingMode. cbn.
  destruct (usingRangingLayer s) eqn:E; cbn; rewrite ?E; repeat split.
Qed.

Lemma stopAllTests_counters (s : State) :
  rangingTestCurrentCount (stopAllTests s) = rangingTestCurrentCount s
  /\ pin25PulseCount (stopAllTests s) = pin25PulseCount s
  /\ pin26PulseCount (stopAllTests s) = pin26PulseCount s
  /\ rangingTestTargetCount (stopAllTests s) = rangingTestTargetCount s.
Proof.
  unfold stopAllTests, initializeRangingMode. cbn.
  destruct (usingRangingLayer s); repeat split.
Qed.



(** C2, as the code has it.  For every state, stop-all resets TestMode to
    None and AnchorState to Idle, clears the transmit-in-progress, deep-sleep,
    ranging (active and settle) and auto-sequence flags and drives both marker
    pins low.  It always ends with the ranging-protocol layer active: when
    that layer was already active the radio is put into permanent receive and
    nothing else is sent to it; when direct mode was active the radio is
    switched to ranging-protocol mode by a full channel configuration, so the
    operating-mode flag changes from false to true. *)
Theorem C2_stop_all_ends_in_ranging_mode (s : State) :
  let s' := stopAllTests s in
  currentTestMode s' = MODE_NONE
  /\ currentState s' = STATE_IDLE
  /\ txInProgress s' = false
  /\ inDeepSleep s' = false
  /\ rangingTestActive s' = false
  /\ rangingIdlePeriodActive s' = false
  /\ autoSequenceActive s' = false
  /\ ppk2_tx_level s' = LOW
  /\ ppk2_rx_level s' = LOW
  /\ usingRangingLayer s' = true
  /\ (usingRangingLayer s = true ->
      emitted s s'
      = [Call "DW1000.startReceive" []; Call "DW1000.receivePermanently" [1];
         Call "DW1000.newReceive" [];
         DigitalWrite PPK2_RX_PIN LOW; DigitalWrite PPK2_TX_PIN LOW])
  /\ (usingRangingLayer s = false ->
      s' = initializeRangingMode
             (digitalWrite PPK2_RX_PIN LOW (digitalWrite PPK2_TX_PIN LOW
               (set_autoSequenceActive false (set_rangingIdlePeriodActive false
                 (set_rangingTestActive false (set_txInProgress false
                   (set_inDeepSleep false (set_currentState STATE_IDLE
                     (set_currentTestMode MODE_NONE s)))))))))
      /\ In (Call "DW1000Ranging.startAsAnchor" []) (emitted s s')
      /\ channel s' = fetched (channelForConfig (configOption s))).
Proof.
  intros s'.
  destruct (stopAllTests_fields s)
    as (H1 & H2 & H3 & H4 & H5 & H6 & H7 & H8 & H9 & H10).
  repeat (split; [assumption|]). subst s'. split; intros E.
  - unfold stopAllTests. cbn. rewrite E.
    erewrite emitted_ext by trace_diff. reflexivity.
  - unfold stopAllTests, initializeRangingMode. cbn. rewrite E. cbn.
    split; [reflexivity|]. split; [|reflexivity].
    erewrite emitted_ext by trace_diff. simpl. tauto.
Qed.

Lemma C2_stop_all_ends_in_ranging_mode_witness :
  emitted booted (stopAllTests booted)
  = [Call "DW1000.startReceive" []; Call "DW1000.receivePermanently" [1];
     Call "DW1000.newReceive" [];
     DigitalWrite PPK2_RX_PIN LOW; DigitalWrite PPK2_TX_PIN LOW]
  /\ channel (stopAllTests directIdle) = 1.
Proof.
  split.
  - apply (C2_stop_all_ends_in_ranging_mode booted). vm_compute. reflexivity.
  - assert (E : usingRangingLayer directIdle = false) by (vm_compute; reflexivity).
    pose proof (C2_stop_all_ends_in_ranging_mode directIdle) as H.
    cbv zeta in H. destruct H as (_ & _ & _ & _ & _ & _ & _ & _ & _ & _ & _ & H).
    destruct (H E) as (_ & _ & C). exact C.
Defined.

(** C2 as stated fails: stop-all issued while the radio is under direct
    control (after IDLE_TEST) changes the operating-mode flag. *)
Lemma C2_counterexample :
  usingRangingLayer directIdle = false
  /\ usingRangingLayer (stopAllTests directIdle)
     <> usingRangingLayer directIdle.
Proof. vm_compute. split; [reflexivity | discriminate]. Qed.

(** C6, as the code has it.  In every state in which no test is active,
    stop-all leaves TestMode None and leaves the completion count and both
    pulse counters as they were: it never resets them, so they are 0
    afterwards exactly when they were 0 before (as they are after power-on). *)
Theorem C6_stop_keeps_counters (s : State) :
  currentTestMode s = MODE_NONE ->
  let s' := stopAllTests s in
  currentTestMode s' = MODE_NONE
  /\ rangingTestCurrentCount s' = rangingTestCurrentCount s
  /\ pin25PulseCount s' = pin25PulseCount s
  /\ pin26PulseCount s' = pin26PulseCount s
  /\ (rangingTestCurrentCount s' = 0 /\ pin25PulseCount s' = 0
      /\ pin26PulseCount s' = 0
      <-> rangingTestCurrentCount s = 0 /\ pin25PulseCount s = 0
          /\ pin26PulseCount s = 0).
Proof.
  intros _ s'. subst s'.
  destruct (stopAllTests_counters s) as (C & P25 & P26 & _).
  split; [apply stopAllTests_fields|].
  rewrite C, P25, P26. repeat split; tauto.
Qed.

Lemma C6_stop_keeps_counters_witness :
  rangingTestCurrentCount (stopAllTests booted) = 0
  /\ pin25PulseCount (stopAllTests booted) = 0
  /\ pin26PulseCount (stopAllTests booted) = 0.
Proof.
  assert (M : currentTestMode booted = MODE_NONE) by (vm_compute; reflexivity).
  apply (proj2 (proj2 (proj2 (proj2 (C6_stop_keeps_counters booted M))))).
  vm_compute. repeat split.
Defined.

(** C6 as stated fails: after a completed one-exchange session and STOP_TEST
    no test is active, and stop-all leaves the counters at 1, not 0. *)
Lemma C6_counterexample :
  currentTestMode afterSession = MODE_NONE
  /\ rangingTestCurrentCount (stopAllTests afterSession) = 1
  /\ pin25PulseCount (stopAllTests afterSession) = 1
  /\ pin26PulseCount (stopAllTests afterSession) = 1
  /\ ~ (rangingTestCurrentCount (stopAllTests afterSession) = 0
        /\ pin25PulseCount (stopAllTests afterSession) = 0
        /\ pin26PulseCount (stopAllTests afterSession) = 0).
Proof.
  vm_compute. repeat split; try reflexivity. intros (H & _). discriminate H.
Qed.

(** ** Commands (C4, C3) *)

Lemma fire_keeps_none (cb : Callback) (s : State) :
  currentTestMode s = MODE_NONE -> currentTestMode (fire cb s) = MODE_NONE.
Proof.
  intros M.
  assert (L : rangingLive s = false).
  { apply rangingLive_false. left. congruence. }
  destruct cb as [ | | | | | d | d | d]; cbn.
  - exact M.
  - unfold handleReceivedPowerProfile. rewrite M. exact M.
  - unfold handleReceiveTimeoutPowerProfile. rewrite M. exact M.
  - unfold handleReceiveFailedPowerProfile. rewrite M. exact M.
  - unfold handleTimestampAvailable. rewrite L. exact M.
  - unfold newRange. destruct d; [rewrite L|]; exact M.
  - destruct d; exact M.
  - destruct d; exact M.
Qed.

Lemma DW1000Ranging_loop_keeps_none (cbs : list Callback) (s : State) :
  currentTestMode s = MODE_NONE ->
  currentTestMode (DW1000Ranging_loop cbs s) = MODE_NONE.
Proof.
  intros M. unfold DW1000Ranging_loop.
  assert (M' : currentTestMode (call "DW1000Ranging.loop" [] s) = MODE_NONE)
    by exact M.
  revert M'. generalize (call "DW1000Ranging.loop" [] s).
  induction cbs as [|cb cbs IH]; intros t Mt; simpl; [exact Mt|].
  apply IH, fire_keeps_none, Mt.
Qed.

Lemma updateOledDisplay_mode (s : State) :
  currentTestMode (updateOledDisplay s) = currentTestMode s.
Proof.
  unfold updateOledDisplay. cbn. destruct (currentTestMode s) eqn:E; cbn; exact E.
Qed.

(** The rest of a [loop] iteration once a command left TestMode at None. *)
Lemma loop_after_none (reading : bool) (line : string) (cbs : list Callback)
    (s : State) :
  currentTestMode (parseCommand (trim line) (handleButtonPress reading s))
  = MODE_NONE ->
  currentTestMode (loop reading (Some line) cbs s) = MODE_NONE.
Proof.
  intros M. unfold loop.
  set (t := parseCommand (trim line) (handleButtonPress reading s)) in *.
  rewrite M.
  assert (D : currentTestMode
                (if usingRangingLayer t then DW1000Ranging_loop cbs t else t)
              = MODE_NONE).
  { destruct (usingRangingLayer t);
      [apply DW1000Ranging_loop_keeps_none|]; exact M. }
  revert D.
  generalize (if usingRangingLayer t then DW1000Ranging_loop cbs t else t).
  intros u D.
  destruct (oledInterval <? wrap_ulong (millis u - lastOledUpdate u)).
  - rewrite updateOledDisplay_mode. exact D.
  - exact D.
Qed.

Lemma parseCommand_unknown (cmd : string) (s : State) :
  ~ In (commandName cmd) recognizedCommands ->
  parseCommand cmd s = Serial_println "Unknown command." (stopAllTests s).
Proof.
  intros U. unfold parseCommand.
  repeat match goal with
  | |- context [String.eqb (commandName cmd) ?name] =>
    let E := fresh "E" in
    destruct (String.eqb (commandName cmd) name) eqn:E;
    [apply String.eqb_eq in E; exfalso; apply U; rewrite E; simpl; tauto|]
  end.
  reflexivity.
Qed.

(** C4. A line whose command name is none of the recognized ones is answered
    with the diagnostic [Unknown command.] and nothing else: the resulting
    state is that of stop-all followed by that one message, so no test is
    started, whatever was running is cancelled (every in-flight flag is
    clear) and TestMode is None, also at the end of the loop iteration that
    read the line. *)
Theorem C4_unknown_command_cancels (cmd : string) (s : State) :
  ~ In (commandName cmd) recognizedCommands ->
  let s' := parseCommand cmd s in
  s' = Serial_println "Unknown command." (stopAllTests s)
  /\ emitted (stopAllTests s) s' = [SerialPrintln "Unknown command."]
  /\ currentTestMode s' = MODE_NONE
  /\ currentState s' = STATE_IDLE
  /\ txInProgress s' = false
  /\ inDeepSleep s' = false
  /\ rangingTestActive s' = false
  /\ rangingIdlePeriodActive s' = false
  /\ autoSequenceActive s' = false
  /\ (forall reading line cbs, trim line = cmd ->
      currentTestMode (loop reading (Some line) cbs s) = MODE_NONE).
Proof.
  intros U s'. subst s'.
  assert (F : forall t, currentTestMode (parseCommand cmd t) = MODE_NONE).
  { intros t. rewrite parseCommand_unknown by exact U.
    pose proof (stopAllTests_fields t) as H. cbv zeta in H.
    destruct H as (H & _). revert H. generalize (stopAllTests t).
    intros u H. cbn. exact H. }
  rewrite parseCommand_unknown by exact U.
  pose proof (stopAllTests_fields s) as H. cbv zeta in H.
  destruct H as (H1 & H2 & H3 & H4 & H5 & H6 & H7 & _).
  revert H1 H2 H3 H4 H5 H6 H7. generalize (stopAllTests s).
  intros u H1 H2 H3 H4 H5 H6 H7.
  split; [reflexivity|].
  split; [apply emitted_ext; trace_diff|].
  cbn. repeat (split; [assumption|]).
  intros reading line cbs T. apply loop_after_none. rewrite T. apply F.
Qed.

Lemma C4_unknown_command_cancels_witness :
  currentTestMode (parseCommand "RANGE 5" activeSession) = MODE_NONE
  /\ rangingTestActive (parseCommand "RANGE 5" activeSession) = false
  /\ currentTestMode activeSession = MODE_RANGING_TEST.
Proof.
  assert (U : ~ In (commandName "RANGE 5") recognizedCommands).
  { vm_compute. intros H.
    repeat (destruct H as [H | H]; [discriminate H|]). exact H. }
  pose proof (C4_unknown_command_cancels "RANGE 5" activeSession U) as H.
  cbv zeta in H. destruct H as (_ & _ & M & _ & _ & _ & A & _).
  split; [exact M|]. split; [exact A|]. vm_compute. reflexivity.
Defined.








(** ** Auto sequence (C7) *)

Ltac split_ifs :=
  repeat (cbn; match goal with
               | |- context [if ?c then _ else _] => destruct c eqn:?
               end).

Ltac case_leb :=
  match goal with
  | |- context [?a <=? ?b] => destruct (a <=? b) eqn:?
  end.

Lemma handleAutoSequence_step (s : State) :
  autoSequenceActive s = true ->
  currentSequenceStep (handleAutoSequence s)
  = (if stepDue s then nextStep (currentSequenceStep s) else currentSequenceStep s).
Proof.
  intros A. unfold handleAutoSequence, stepDue, elapsedInStep, elapsedAsleep.
  rewrite A. cbn.
  destruct (currentSequenceStep s) eqn:Q; cbn.
  1, 2, 4, 5, 6: case_leb; cbn; congruence.
  - match goal with
    | |- context [3000 <=? ?b] => destruct (3000 <=? b)
    end; split_ifs; try reflexivity; exact Q.
  - destruct (inDeepSleep s); cbn; [|exact Q].
    case_leb; cbn; [reflexivity | exact Q].
  - exact Q.
Qed.

Arguments channelForConfig : simpl never.
Arguments getAntennaDelayForChannel : simpl never.

(** [millis()] read [k] ms after an earlier reading differs from it by [k],
    also across the wrap of the 32-bit counter. *)
Lemma millis_ahead (c k : Z) :
  0 <= k < 2 ^ 32 ->
  wrap_ulong (wrap_ulong ((c + 1000 * k) / 1000) - wrap_ulong (c / 1000)) = k.
Proof.
  intros Hk. unfold wrap_ulong.
  replace ((c + 1000 * k) / 1000) with (c / 1000 + k)
    by (rewrite (Z.mul_comm 1000 k), Z.div_add; lia).
  rewrite <- Zminus_mod.
  replace (c / 1000 + k - c / 1000) with k by lia.
  apply Z.mod_small. exact Hk.
Qed.

Lemma step_index_nextStep (q : SequenceStep) :
  step_index q <= step_index (nextStep q).
Proof. destruct q; simpl; lia. Qed.

Lemma AutoInv_view (k : Z) (s s' : State) :
  autoView s' = autoView s -> AutoInv k s -> AutoInv k s'.
Proof.
  unfold autoView, AutoInv. intros V. inversion V as [[M A Q D L T W]].
  rewrite M, A, Q, D, L, T, W. tauto.
Qed.


Lemma handleAutoSequence_AutoInv (k : Z) (s : State) :
  AutoInv k s -> AutoInv k (handleAutoSequence s).
Proof.
  intros (K & M & Z3). unfold AutoInv. unfold handleAutoSequence.
  destruct (autoSequenceActive s) eqn:A; cbn; [|rewrite A; tauto].
  destruct (currentSequenceStep s) eqn:Q; simpl in K.
  1, 2, 4, 5:
    case_leb; cbn; rewrite ?A, ?Q; simpl;
    (split; [lia|]); (split; [exact M|]); intros _ E; discriminate E.
  - (* transmit step *)
    match goal with
    | |- context [3000 <=? ?b] => destruct (3000 <=? b)
    end; split_ifs; try congruence; rewrite ?A, ?Q; simpl;
      (split; [lia|]); (split; [first [exact M | reflexivity]|]);
      intros _ E; discriminate E.
  - (* third idle step: entering the sleep step *)
    case_leb; cbn; rewrite ?A, ?Q; simpl.
    + split; [lia|]. split; [exact M|]. intros _ _.
      split; [reflexivity|]. split; [reflexivity|].
      apply (millis_ahead (clock_us s) 100). lia.
    + split; [lia|]. split; [exact M|]. intros _ E. discriminate E.
  - (* sleep step *)
    destruct (inDeepSleep s) eqn:D; cbn.
    + case_leb; cbn; rewrite ?A, ?Q, ?D; simpl.
      * split; [lia|]. split; [exact M|]. intros _ E. discriminate E.
      * split; [lia|]. split; [exact M|]. intros _ _. apply Z3; reflexivity.
    + rewrite A, Q, D. simpl. split; [lia|]. split; [exact M|].
      intros _ _. apply Z3; reflexivity.
  - (* terminal step *)
    cbn. rewrite Q. simpl.
    split; [lia|]. split; [reflexivity|]. intros F. discriminate F.
Qed.



Lemma handleButtonPress_autoView (reading : bool) (s : State) :
  autoView (handleButtonPress reading s) = autoView s.
Proof. unfold handleButtonPress. split_ifs; reflexivity. Qed.

Lemma updateOledDisplay_autoView (s : State) :
  autoView (updateOledDisplay s) = autoView s.
Proof.
  unfold updateOledDisplay. cbn. destruct (currentTestMode s) eqn:E; cbn;
    unfold autoView; cbn; rewrite E; reflexivity.
Qed.



Lemma startAutoSequence_AutoInv (s : State) : AutoInv 0 (startAutoSequence s).
Proof.
  unfold AutoInv, startAutoSequence, initializeDirectMode. cbn.
  destruct (usingRangingLayer s); cbn;
    (split; [lia|]); (split; [reflexivity|]); intros _ E; discriminate E.
Qed.


Lemma handleAutoSequence_fresh_start (s : State) :
  autoSequenceActive s = true ->
  step_index (currentSequenceStep s) < 6 -> stepDue s = true ->
  sequenceStepStartTime (handleAutoSequence s) = millis (handleAutoSequence s).
Proof.
  intros A Q6 D. unfold stepDue, elapsedInStep in D.
  unfold handleAutoSequence. rewrite A. cbn.
  destruct (currentSequenceStep s) eqn:Q; simpl in Q6 |- *; try lia;
    cbn in D; rewrite D; reflexivity.
Qed.

Lemma handleAutoSequence_terminal (s : State) :
  autoSequenceActive s = true -> currentSequenceStep s = SEQ_COMPLETE ->
  autoSequenceActive (handleAutoSequence s) = false
  /\ currentTestMode (handleAutoSequence s) = MODE_NONE.
Proof.
  intros A Q. unfold handleAutoSequence. rewrite A, Q. split; reflexivity.
Qed.


Lemma elapsed_since_step_start (m q p : Z) :
  wrap_ulong (q - p) = 100 ->
  wrap_ulong (m - q) = wrap_ulong (wrap_ulong (m - p) - 100).
Proof.
  unfold wrap_ulong. intros H. rewrite <- H, <- Zminus_mod.
  f_equal. lia.
Qed.

(** ** Ranging session (C1) *)

Lemma sessionView_inv (s s' : State) :
  sessionView s' = sessionView s ->
  currentTestMode s' = currentTestMode s
  /\ rangingTestTargetCount s' = rangingTestTargetCount s
  /\ rangingTestCurrentCount s' = rangingTestCurrentCount s
  /\ summaryCount s' = summaryCount s.
Proof. unfold sessionView. intros V. repeat split; congruence. Qed.

Lemma SessionInv_view (n base : Z) (s s' : State) :
  sessionView s' = sessionView s -> SessionInv n base s -> SessionInv n base s'.
Proof.
  intros V. apply sessionView_inv in V. destruct V as (M & T & C & K).
  unfold SessionInv. rewrite M, T, C, K. tauto.
Qed.

Lemma SessionDone_view (n base : Z) (s s' : State) :
  sessionView s' = sessionView s -> SessionDone n base s -> SessionDone n base s'.
Proof.
  intros V. apply sessionView_inv in V. destruct V as (M & T & C & K).
  unfold SessionDone. rewrite M, C, K. tauto.
Qed.

Lemma wrap_int_small (z : Z) : INT_MIN <= z <= INT_MAX -> wrap_int z = z.
Proof.
  unfold INT_MIN, INT_MAX, wrap_int. intros H.
  rewrite Z.mod_small; lia.
Qed.

Lemma handleButtonPress_sessionView (reading : bool) (s : State) :
  sessionView (handleButtonPress reading s) = sessionView s.
Proof. unfold handleButtonPress. split_ifs; reflexivity. Qed.

Lemma updateOledDisplay_sessionView (s : State) :
  sessionView (updateOledDisplay s) = sessionView s.
Proof.
  unfold updateOledDisplay. cbn. destruct (currentTestMode s) eqn:E; cbn;
    unfold sessionView; cbn; rewrite E; reflexivity.
Qed.

Lemma newRange_sessionView_idle (d : option DW1000Device) (s : State) :
  rangingLive s = false -> newRange d s = s.
Proof. intros L. unfold newRange. destruct d; [rewrite L|]; reflexivity. Qed.

(** Every callback but a range computed in the live phase leaves the
    session's mode, target, count and summaries alone. *)
Lemma fire_sessionView (cb : Callback) (s : State) :
  currentTestMode s <> MODE_RX_TEST ->
  rangingLive s = false \/ (forall d, cb <> OnNewRange (Some d)) ->
  sessionView (fire cb s) = sessionView s.
Proof.
  intros M H.
  assert (R : TestMode_eqb (currentTestMode s) MODE_RX_TEST = false)
    by (destruct (currentTestMode s); try reflexivity; congruence).
  destruct cb as [ | | | | | d | d | d]; cbn.
  - reflexivity.
  - unfold handleReceivedPowerProfile. rewrite R. reflexivity.
  - unfold handleReceiveTimeoutPowerProfile. rewrite R. reflexivity.
  - unfold handleReceiveFailedPowerProfile. rewrite R. reflexivity.
  - unfold handleTimestampAvailable. destruct (rangingLive s); reflexivity.
  - destruct H as [L | H].
    + rewrite newRange_sessionView_idle by exact L. reflexivity.
    + destruct d as [d|]; [destruct (H d); reflexivity | reflexivity].
  - destruct d; reflexivity.
  - destruct d; reflexivity.
Qed.

Lemma rangingLive_true (s : State) :
  rangingLive s = true ->
  currentTestMode s = MODE_RANGING_TEST /\ currentState s = STATE_ACTIVE
  /\ rangingTestActive s = true.
Proof.
  unfold rangingLive. intros L.
  apply andb_prop in L. destruct L as [L A].
  apply andb_prop in L. destruct L as [M S].
  destruct (currentTestMode s); try discriminate M.
  destruct (currentState s); try discriminate S. auto.
Qed.

(** A range computed in the live phase below the target. *)
Lemma newRange_live (d : DW1000Device) (s : State) :
  rangingLive s = true ->
  0 <= rangingTestCurrentCount s < rangingTestTargetCount s ->
  rangingTestTargetCount s <= INT_MAX ->
  let s' := newRange (Some d) s in
  rangingTestTargetCount s' = rangingTestTargetCount s
  /\ rangingTestCurrentCount s' = rangingTestCurrentCount s + 1
  /\ (rangingTestCurrentCount s + 1 < rangingTestTargetCount s ->
      currentTestMode s' = MODE_RANGING_TEST
      /\ summaryCount s' = summaryCount s
      /\ currentState s' = STATE_ACTIVE /\ rangingTestActive s' = true
      /\ rangingIdlePeriodActive s' = rangingIdlePeriodActive s)
  /\ (rangingTestCurrentCount s + 1 = rangingTestTargetCount s ->
      currentTestMode s' = MODE_IDLE_TEST
      /\ summaryCount s' = summaryCount s + 1).
Proof.
  intros L C T.
  destruct (rangingLive_true s L) as (M & S & A).
  assert (W : wrap_int (rangingTestCurrentCount s + 1)
              = rangingTestCurrentCount s + 1).
  { apply wrap_int_small. unfold INT_MIN, INT_MAX in *. lia. }
  unfold newRange. rewrite L. cbn. rewrite W.
  destruct (rangingTestTargetCount s <=? rangingTestCurrentCount s + 1) eqn:E.
  - apply Z.leb_le in E.
    unfold stopRangingTest, initializeDirectMode, summaryCount. cbn.
    destruct (usingRangingLayer s); cbn; rewrite ?W;
      (split; [reflexivity|]); (split; [reflexivity|]);
      (split; [intros K; lia|]); intros _; (split; [reflexivity|]);
      unfold TEST_COMPLETE; simpl; lia.
  - apply Z.leb_gt in E. unfold summaryCount. cbn. rewrite ?W, M, S, A.
    split; [reflexivity|]. split; [reflexivity|].
    split; [intros _; repeat split | intros K; lia].
Qed.

(** Properties of a session that survive every input without a command. *)
Section SilentSteps.

Variable P : State -> Prop.
Hypothesis P_view :
  forall s s', sessionView s' = sessionView s -> P s -> P s'.
Hypothesis P_mode :
  forall s, P s ->
  currentTestMode s = MODE_RANGING_TEST \/ currentTestMode s = MODE_IDLE_TEST.
Hypothesis P_range :
  forall d s, rangingLive s = true -> P s -> P (newRange (Some d) s).

Lemma P_not_rx (s : State) : P s -> currentTestMode s <> MODE_RX_TEST.
Proof. intros H. destruct (P_mode s H) as [M | M]; congruence. Qed.

Lemma fire_keeps (cb : Callback) (s : State) : P s -> P (fire cb s).
Proof.
  intros H. pose proof (P_not_rx s H) as R.
  destruct (rangingLive s) eqn:L.
  - destruct cb as [ | | | | | [d|] | d | d];
      try (apply (P_view s); [|exact H]; apply fire_sessionView;
           [exact R | right; intros d'; discriminate]).
    apply P_range; assumption.
  - apply (P_view s); [|exact H]. apply fire_sessionView; [exact R | left; exact L].
Qed.

Lemma DW1000Ranging_loop_keeps (cbs : list Callback) (s : State) :
  P s -> P (DW1000Ranging_loop cbs s).
Proof.
  intros H. unfold DW1000Ranging_loop.
  assert (H' : P (call "DW1000Ranging.loop" [] s))
    by (apply (P_view s); [reflexivity | exact H]).
  revert H'. generalize (call "DW1000Ranging.loop" [] s).
  induction cbs as [|cb cbs IH]; intros t Ht; simpl; [exact Ht|].
  apply IH, fire_keeps, Ht.
Qed.

Lemma handleRangingTest_keeps (cbs : list Callback) (s : State) :
  P s -> P (handleRangingTest cbs s).
Proof.
  intros H. unfold handleRangingTest.
  destruct (rangingIdlePeriodActive s).
  - destruct (RANGING_IDLE_DURATION
              <=? wrap_ulong (millis s - rangingSequenceStartTime s));
      [|exact H].
    apply (P_view s); [|exact H].
    unfold initializeRangingMode. cbn.
    destruct (usingRangingLayer s); reflexivity.
  - destruct (AnchorState_eqb (currentState s) STATE_ACTIVE
              && rangingTestActive s); [|exact H].
    apply DW1000Ranging_loop_keeps, H.
Qed.

Lemma step_keeps (i : Input) (s : State) : silent i -> P s -> P (step s i).
Proof.
  intros Q H. destruct i as [us | cb | reading [line|] cbs]; simpl in *.
  - apply (P_view s); [reflexivity | exact H].
  - apply fire_keeps, H.
  - contradiction.
  - unfold loop.
    assert (B : P (handleButtonPress reading s)).
    { apply (P_view s); [apply handleButtonPress_sessionView | exact H]. }
    revert B. generalize (handleButtonPress reading s). clear s H.
    intros s H.
    assert (D : P match currentTestMode s with
                  | MODE_NONE =>
                    if usingRangingLayer s then DW1000Ranging_loop cbs s else s
                  | MODE_TX_TEST => handleTxTest s
                  | MODE_RANGING_TEST => handleRangingTest cbs s
                  | MODE_SLEEP_CYCLE => handleSleepTest s
                  | MODE_AUTO_SEQUENCE => handleAutoSequence s
                  | _ => s
                  end).
    { destruct (P_mode s H) as [M | M]; rewrite M;
        [apply handleRangingTest_keeps|]; exact H. }
    revert D.
    generalize (match currentTestMode s with
                | MODE_NONE =>
                  if usingRangingLayer s then DW1000Ranging_loop cbs s else s
                | MODE_TX_TEST => handleTxTest s
                | MODE_RANGING_TEST => handleRangingTest cbs s
                | MODE_SLEEP_CYCLE => handleSleepTest s
                | MODE_AUTO_SEQUENCE => handleAutoSequence s
                | _ => s
                end).
    intros u D.
    destruct (oledInterval <? wrap_ulong (millis u - lastOledUpdate u));
      [|exact D].
    apply (P_view u); [apply updateOledDisplay_sessionView | exact D].
Qed.

Lemma run_keeps (inputs : list Input) (s : State) :
  Forall silent inputs -> P s -> P (run inputs s).
Proof.
  intros Q. revert s. induction Q as [|i inputs Qi _ IH]; intros s H.
  - exact H.
  - simpl. apply IH, step_keeps; assumption.
Qed.

End SilentSteps.

Lemma run_SessionInv (n base : Z) (inputs : list Input) (s : State) :
  n <= INT_MAX -> Forall silent inputs ->
  SessionInv n base s -> SessionInv n base (run inputs s).
Proof.
  intros N Q. apply run_keeps; [apply SessionInv_view | | | exact Q].
  - intros t (_ & [(M & _) | (M & _)]); auto.
  - intros d t L (T & [(M & C & K) | (M & _)]).
    + pose proof (newRange_live d t L) as R. cbv zeta in R.
      rewrite T in R. destruct (R C N) as (T' & C' & Below & At).
      split; [exact T'|].
      destruct (Z.eq_dec (rangingTestCurrentCount t + 1) n) as [E | E].
      * right. destruct (At E) as (M' & K').
        split; [exact M'|]. split; lia.
      * left. assert (B : rangingTestCurrentCount t + 1 < n) by lia.
        destruct (Below B) as (M' & K' & _).
        split; [exact M'|]. split; lia.
    + apply rangingLive_true in L. destruct L as (M' & _). congruence.
Qed.

Lemma run_SessionDone (n base : Z) (inputs : list Input) (s : State) :
  Forall silent inputs -> SessionDone n base s -> SessionDone n base (run inputs s).
Proof.
  intros Q. apply run_keeps; [apply SessionDone_view | | | exact Q].
  - intros t (M & _). right. exact M.
  - intros d t L (M & _).
    apply rangingLive_true in L. destruct L as (M' & _). congruence.
Qed.

Lemma LiveAt_rangingLive (n c : Z) (s : State) :
  LiveAt n c s -> rangingLive s = true.
Proof.
  unfold LiveAt, liveView, rangingLive. intros V.
  assert (M : currentTestMode s = MODE_RANGING_TEST) by congruence.
  assert (S : currentState s = STATE_ACTIVE) by congruence.
  assert (A : rangingTestActive s = true) by congruence.
  rewrite M, S, A. reflexivity.
Qed.

Lemma handleButtonPress_liveView (reading : bool) (s : State) :
  liveView (handleButtonPress reading s) = liveView s.
Proof. unfold handleButtonPress. split_ifs; reflexivity. Qed.

Lemma updateOledDisplay_liveView (s : State) :
  liveView (updateOledDisplay s) = liveView s.
Proof.
  unfold updateOledDisplay. cbn. destruct (currentTestMode s) eqn:E; cbn;
    unfold liveView; cbn; rewrite E; reflexivity.
Qed.

(** While a test runs the button only feeds the debounce state. *)
Lemma handleButtonPress_busy (reading : bool) (s : State) :
  currentTestMode s <> MODE_NONE ->
  clock_us (handleButtonPress reading s) = clock_us s
  /\ rangingSequenceStartTime (handleButtonPress reading s)
     = rangingSequenceStartTime s.
Proof.
  intros M. unfold handleButtonPress.
  assert (N : TestMode_eqb (currentTestMode s) MODE_NONE = false)
    by (destruct (currentTestMode s); try reflexivity; congruence).
  rewrite N. split_ifs; split; reflexivity.
Qed.

Lemma startRangingTest_fields (count : Z) (s : State) :
  rangingTestCurrentCount (startRangingTest count s) = 0
  /\ pin25PulseCount (startRangingTest count s) = 0
  /\ pin26PulseCount (startRangingTest count s) = 0
  /\ rangingTestTargetCount (startRangingTest count s) = count
  /\ rangingSequenceStartTime (startRangingTest count s)
     = millis (startRangingTest count s)
  /\ rangingIdlePeriodActive (startRangingTest count s) = true
  /\ rangingTestActive (startRangingTest count s) = false
  /\ currentTestMode (startRangingTest count s) = MODE_RANGING_TEST
  /\ currentState (startRangingTest count s) = STATE_IDLE
  /\ usingRangingLayer (startRangingTest count s) = false.
Proof.
  unfold startRangingTest, initializeDirectMode.
  cbn. destruct (usingRangingLayer s) eqn:E; cbn; rewrite ?E; repeat split.
Qed.

(** The loop iteration that finds the settle period over starts the active
    phase. *)
Lemma settle_over (reading : bool) (n c : Z) (s : State) :
  currentTestMode s = MODE_RANGING_TEST ->
  rangingIdlePeriodActive s = true ->
  RANGING_IDLE_DURATION <= wrap_ulong (millis s - rangingSequenceStartTime s) ->
  rangingTestTargetCount s = n -> rangingTestCurrentCount s = c ->
  LiveAt n c (loop reading None [] s).
Proof.
  intros M I D T C. unfold loop.
  assert (N : currentTestMode s <> MODE_NONE) by congruence.
  destruct (handleButtonPress_busy reading s N) as (K & St).
  pose proof (handleButtonPress_liveView reading s) as V.
  revert K St V. generalize (handleButtonPress reading s). intros t K St V.
  unfold liveView in V. inversion V as [[Mt St' At It Tt Ct]].
  assert (Hm : millis t = millis s) by (unfold millis; rewrite K; reflexivity).
  assert (L : LiveAt n c (handleRangingTest [] t)).
  { unfold handleRangingTest. rewrite It, I, Hm, St.
    apply Z.leb_le in D. rewrite D.
    unfold LiveAt, liveView, initializeRangingMode. cbn.
    destruct (usingRangingLayer t); cbn; rewrite Mt, Tt, Ct, M, T, C; reflexivity. }
  rewrite Mt, M. cbv iota.
  revert L. generalize (handleRangingTest [] t). intros u L.
  destruct (oledInterval <? wrap_ulong (millis u - lastOledUpdate u)); [|exact L].
  unfold LiveAt. rewrite updateOledDisplay_liveView. exact L.
Qed.

(** One range computed in the live phase, delivered by the library inside a
    loop iteration. *)
Lemma deliver_one (reading : bool) (d : DW1000Device) (n c : Z) (s : State) :
  LiveAt n c s -> 0 <= c < n -> n <= INT_MAX ->
  (c + 1 < n -> LiveAt n (c + 1) (loop reading None [OnNewRange (Some d)] s))
  /\ (c + 1 = n ->
      currentTestMode (loop reading None [OnNewRange (Some d)] s) = MODE_IDLE_TEST
      /\ rangingTestCurrentCount (loop reading None [OnNewRange (Some d)] s) = n).
Proof.
  intros L C N. unfold loop.
  assert (B : LiveAt n c (handleButtonPress reading s))
    by (unfold LiveAt; rewrite handleButtonPress_liveView; exact L).
  revert B. generalize (handleButtonPress reading s). clear s L. intros t L.
  pose proof (LiveAt_rangingLive n c t L) as G.
  unfold LiveAt, liveView in L.
  assert (Mt : currentTestMode t = MODE_RANGING_TEST) by congruence.
  assert (St : currentState t = STATE_ACTIVE) by congruence.
  assert (At : rangingTestActive t = true) by congruence.
  assert (It : rangingIdlePeriodActive t = false) by congruence.
  assert (Tt : rangingTestTargetCount t = n) by congruence.
  assert (Ct : rangingTestCurrentCount t = c) by congruence.
  rewrite Mt. cbv iota.
  assert (E : handleRangingTest [OnNewRange (Some d)] t
              = newRange (Some d) (call "DW1000Ranging.loop" [] t)).
  { unfold handleRangingTest. rewrite It, St, At. reflexivity. }
  rewrite E. clear E.
  assert (G' : rangingLive (call "DW1000Ranging.loop" [] t) = true) by exact G.
  assert (T' : rangingTestTargetCount (call "DW1000Ranging.loop" [] t) = n)
    by exact Tt.
  assert (C' : rangingTestCurrentCount (call "DW1000Ranging.loop" [] t) = c)
    by exact Ct.
  assert (I' : rangingIdlePeriodActive (call "DW1000Ranging.loop" [] t) = false)
    by exact It.
  pose proof (newRange_live d _ G') as R. cbv zeta in R.
  rewrite T', C', I' in R. destruct (R C N) as (Tu & Cu & Below & Done).
  revert Tu Cu Below Done.
  generalize (newRange (Some d) (call "DW1000Ranging.loop" [] t)). clear R.
  intros u Tu Cu Below Done.
  assert (V : liveView (if oledInterval <? wrap_ulong (millis u - lastOledUpdate u)
                        then updateOledDisplay u else u) = liveView u).
  { destruct (oledInterval <? wrap_ulong (millis u - lastOledUpdate u));
      [apply updateOledDisplay_liveView | reflexivity]. }
  revert V.
  generalize (if oledInterval <? wrap_ulong (millis u - lastOledUpdate u)
              then updateOledDisplay u else u).
  intros w V. unfold liveView in V. inversion V as [[Mw Sw Aw Iw Tw Cw]].
  split.
  - intros K. destruct (Below K) as (Mu & _ & Su & Au & Iu).
    unfold LiveAt, liveView. congruence.
  - intros K. destruct (Done K) as (M' & _). split; congruence.
Qed.

Lemma deliveries_silent (reading : bool) (devices : list DW1000Device) :
  Forall silent (deliveries reading devices).
Proof.
  unfold deliveries. induction devices as [|d rest IH]; simpl; constructor;
    [exact I | exact IH].
Qed.

Lemma deliver_all (reading : bool) (n : Z) (devices : list DW1000Device) :
  forall (c : Z) (s : State),
  LiveAt n c s -> 0 <= c -> n <= INT_MAX -> devices <> [] ->
  c + Z.of_nat (List.length devices) = n ->
  currentTestMode (run (deliveries reading devices) s) = MODE_IDLE_TEST
  /\ rangingTestCurrentCount (run (deliveries reading devices) s) = n.
Proof.
  induction devices as [|d rest IH]; intros c s L C N E K; [contradiction|].
  assert (Cn : 0 <= c < n) by (simpl List.length in K; lia).
  destruct (deliver_one reading d n c s L Cn N) as (Below & At).
  simpl. destruct rest as [|d' rest].
  - simpl in *. apply At. lia.
  - apply (IH (c + 1)).
    + apply Below. simpl List.length in K. lia.
    + lia.
    + exact N.
    + discriminate.
    + simpl List.length in *. lia.
Qed.

Lemma startRangingTest_SessionInv (n : Z) (s : State) :
  0 < n ->
  SessionInv n (summaryCount (startRangingTest n s)) (startRangingTest n s).
Proof.
  intros N.
  destruct (startRangingTest_fields n s) as (C & _ & _ & T & _ & _ & _ & M & _).
  split; [exact T|]. left. rewrite C. split; [exact M|]. split; [lia | reflexivity].
Qed.

Lemma run_cons (i : Input) (inputs : list Input) (s : State) :
  run (i :: inputs) s = run inputs (step s i).
Proof. reflexivity. Qed.

(** A session past its settle period: one second after the start, the next
    loop iteration enters the active phase. *)
Lemma settled (reading : bool) (n : Z) (s : State) :
  LiveAt n 0 (run [Elapse 1000000; Iteration reading None []]
                  (startRangingTest n s)).
Proof.
  destruct (startRangingTest_fields n s)
    as (C & _ & _ & T & St & I & _ & M & _).
  revert C T St I M. generalize (startRangingTest n s). intros s1 C T St I M.
  rewrite !run_cons. simpl run. simpl step.
  apply settle_over; try assumption.
  change (RANGING_IDLE_DURATION
          <= wrap_ulong (wrap_ulong ((clock_us s1 + 1000 * 1000) / 1000)
                         - rangingSequenceStartTime s1)).
  rewrite St. unfold millis. rewrite millis_ahead by lia.
  unfold RANGING_IDLE_DURATION. lia.
Qed.

(** C1. A ranging session started with a target [n > 0], under any inputs
    that carry no command: as long as the completion count is below [n] the
    mode is RangingTest and no completion summary has been written; once the
    count is [n] exactly one summary has been written and TestMode is
    IdleTest, and count, mode and the single summary stay so under any
    further inputs.  The count does reach [n]: after the settle second, [n]
    range-computed events end the session with count [n], one summary, and
    TestMode IdleTest. *)
Theorem C1_session_reports_once
    (s0 : State) (n : Z) (inputs more : list Input)
    (devices : list DW1000Device) (reading : bool) :
  0 < n <= INT_MAX ->
  Forall silent inputs -> Forall silent more ->
  Z.of_nat (List.length devices) = n ->
  let s1 := startRangingTest n s0 in
  let reported := fun s => summaryCount s - summaryCount s1 in
  let s := run inputs s1 in
  let finished :=
    run (Elapse 1000000 :: Iteration reading None []
         :: deliveries reading devices) s1 in
  ((0 <= rangingTestCurrentCount s < n
    /\ currentTestMode s = MODE_RANGING_TEST /\ reported s = 0)
   \/ (rangingTestCurrentCount s = n
       /\ currentTestMode s = MODE_IDLE_TEST /\ reported s = 1))
  /\ (rangingTestCurrentCount s = n ->
      rangingTestCurrentCount (run more s) = n
      /\ currentTestMode (run more s) = MODE_IDLE_TEST
      /\ reported (run more s) = 1)
  /\ rangingTestCurrentCount finished = n
  /\ currentTestMode finished = MODE_IDLE_TEST
  /\ reported finished = 1.
Proof.
  intros [Npos Nmax] Qi Qm Len s1 reported s finished.
  pose proof (startRangingTest_SessionInv n s0 Npos) as I1.
  fold s1 in I1.
  assert (Is : SessionInv n (summaryCount s1) s)
    by (apply run_SessionInv; assumption).
  assert (Qf : Forall silent (Elapse 1000000 :: Iteration reading None []
                              :: deliveries reading devices)).
  { constructor; [exact I|]. constructor; [exact I|]. apply deliveries_silent. }
  assert (If : SessionInv n (summaryCount s1) finished)
    by (apply run_SessionInv; assumption).
  assert (Lf : currentTestMode finished = MODE_IDLE_TEST
               /\ rangingTestCurrentCount finished = n).
  { subst finished. rewrite 2 run_cons.
    apply (deliver_all reading n devices 0).
    - apply (settled reading n s0).
    - lia.
    - exact Nmax.
    - intros E. rewrite E in Len. simpl in Len. lia.
    - lia. }
  unfold reported.
  split; [|split].
  - destruct Is as (_ & [(M & C & K) | (M & C & K)]); [left | right];
      repeat split; try assumption; lia.
  - intros Cn. destruct Is as (_ & [(M & C & K) | D]); [lia|].
    destruct (run_SessionDone n (summaryCount s1) more s Qm D) as (M' & C' & K').
    repeat split; try assumption; lia.
  - destruct Lf as (Mf & Cf).
    destruct If as (_ & [(M & C & K) | (M & C & K)]); [lia|].
    repeat split; try assumption; lia.
Qed.

Lemma C1_session_reports_once_witness :
  let s1 := startRangingTest 2 booted in
  let finished :=
    run (Elapse 1000000 :: Iteration HIGH None []
         :: deliveries HIGH [sampleDevice; sampleDevice]) s1 in
  rangingTestCurrentCount finished = 2
  /\ currentTestMode finished = MODE_IDLE_TEST
  /\ summaryCount finished - summaryCount s1 = 1.
Proof.
  assert (N : 0 < 2 <= INT_MAX) by (unfold INT_MAX; lia).
  assert (Q : Forall silent [Elapse 500000; Interrupt OnTimestampAvailable])
    by (repeat constructor).
  assert (Q' : Forall silent []) by constructor.
  assert (L : Z.of_nat (List.length [sampleDevice; sampleDevice]) = 2)
    by reflexivity.
  pose proof (C1_session_reports_once booted 2 _ _ _ HIGH N Q Q' L) as H.
  cbv zeta in H. destruct H as (_ & _ & H). exact H.
Defined.

(** * Whole-program invariants *)

Ltac flags_of H M :=
  unfold phaseFlags, expectedFlags in H; rewrite M in H;
  unfold LOW, HIGH in H; injection H; clear H; intros.

Ltac coherent_goal :=
  unfold Coherent, phaseFlags, expectedFlags, LOW, HIGH.

Lemma stopAllTests_Stopped (s : State) : Coherent s -> Stopped (stopAllTests s).
Proof.
  intros (F & C & Ch & P). unfold Stopped. coherent_goal.
  unfold stopAllTests, initializeRangingMode. cbn.
  destruct (usingRangingLayer s) eqn:U; cbn; rewrite ?U;
    repeat split; assumption || lia.
Qed.

Lemma Stopped_flags (s : State) :
  Stopped s ->
  currentState s = STATE_IDLE /\ rangingTestActive s = false
  /\ rangingIdlePeriodActive s = false /\ autoSequenceActive s = false
  /\ inDeepSleep s = false /\ ppk2_rx_level s = LOW /\ ppk2_tx_level s = LOW
  /\ usingRangingLayer s = true.
Proof.
  intros ((F & _) & M & T). flags_of F M. unfold LOW. repeat split; congruence.
Qed.

(** Each start action applied to a stopped state. *)
Lemma start_Coherent (s : State) (count : Z) :
  Stopped s ->
  Coherent (startIdleTest s) /\ Coherent (startRxTest s)
  /\ Coherent (startTxTest s) /\ Coherent (startRangingTest count s)
  /\ Coherent (startSleepTest s) /\ Coherent (startAutoSequence s).
Proof.
  intros S. destruct (Stopped_flags s S) as (A & B & C & D & E & R & X & U).
  destruct S as ((_ & Cf & Ch & P) & M & T).
  coherent_goal.
  unfold startIdleTest, startRxTest, startTxTest, startRangingTest,
    startSleepTest, startAutoSequence, stopAllTests, initializeDirectMode.
  cbn. rewrite U. cbn. rewrite ?U. cbn. unfold LOW, HIGH in *.
  repeat split; try assumption; try lia; congruence.
Qed.

(** Case analysis on the mode, then on every test of the code. *)
Ltac coherent_auto s F :=
  let M := fresh "M" in
  destruct (currentTestMode s) eqn:M; flags_of F M; coherent_goal;
  repeat (cbn; rewrite ?M;
          match goal with
          | |- context [if ?c then _ else _] => destruct c eqn:?
          end);
  repeat (progress (cbn; rewrite ?M)); unfold LOW, HIGH in *; cbn [negb] in *;
  repeat match goal with
         | H : (_ <? _) = true |- _ => apply Z.ltb_lt in H
         | H : (_ <? _) = false |- _ => apply Z.ltb_ge in H
         end;
  repeat split; try assumption; try lia; try congruence.

Lemma fire_Coherent (cb : Callback) (s : State) :
  Coherent s -> Coherent (fire cb s).
Proof.
  intros (F & Cf & Ch & P).
  destruct cb as [ | | | | | [d|] | [d|] | [d|]]; cbn [fire];
    unfold handleSentPowerProfile, handleReceivedPowerProfile,
      handleReceiveTimeoutPowerProfile, handleReceiveFailedPowerProfile,
      handleTimestampAvailable, newRange, newDevice, inactiveDevice,
      stopRangingTest, initializeDirectMode, rangingLive;
    coherent_auto s F.
Qed.

Lemma DW1000Ranging_loop_Coherent (cbs : list Callback) (s : State) :
  Coherent s -> Coherent (DW1000Ranging_loop cbs s).
Proof.
  intros H. unfold DW1000Ranging_loop.
  assert (H' : Coherent (call "DW1000Ranging.loop" [] s)) by exact H.
  revert H'. generalize (call "DW1000Ranging.loop" [] s).
  induction cbs as [|cb cbs IH]; intros t Ht; simpl; [exact Ht|].
  apply IH, fire_Coherent, Ht.
Qed.

Lemma handleButtonPress_Coherent (reading : bool) (s : State) :
  Coherent s -> Coherent (handleButtonPress reading s).
Proof.
  intros (F & Cf & Ch & P).
  assert (W : wrap_uint8 (configOption s + 1) = configOption s + 1)
    by (unfold wrap_uint8; apply Z.mod_small; lia).
  unfold handleButtonPress, applyChannelConfiguration. rewrite W.
  coherent_auto s F.
Qed.

Lemma updateOledDisplay_Coherent (s : State) :
  Coherent s -> Coherent (updateOledDisplay s).
Proof.
  intros (F & Cf & Ch & P). unfold updateOledDisplay.
  destruct (currentTestMode s) eqn:M; flags_of F M; coherent_goal;
    repeat (progress (cbn; rewrite ?M)); unfold LOW, HIGH in *;
    repeat split; try assumption; try lia; congruence.
Qed.

Lemma parseCommand_Coherent (cmd : string) (s : State) :
  Coherent s -> Coherent (parseCommand cmd s).
Proof.
  intros H. apply stopAllTests_Stopped in H. unfold parseCommand.
  revert H. generalize (stopAllTests s). intros u U.
  assert (Utx : forall v, Stopped (set_txInterval v u)) by (intros v; exact U).
  assert (Usl : forall v, Stopped (set_sleepDuration v u)) by (intros v; exact U).
  assert (Upr : forall l, Coherent (Serial_println l u))
    by (intros l; exact (proj1 U)).
  destruct (start_Coherent u (commandArg cmd) U) as (I & R & _ & G & _ & A).
  assert (Tx : forall v, Coherent (startTxTest (set_txInterval v u))).
  { intros v. destruct (start_Coherent _ 0 (Utx v)) as (_ & _ & X & _). exact X. }
  assert (Sl : forall v, Coherent (startSleepTest (set_sleepDuration v u))).
  { intros v. destruct (start_Coherent _ 0 (Usl v)) as (_ & _ & _ & _ & X & _).
    exact X. }
  destruct (String.eqb (commandName cmd) "IDLE_TEST"); [exact I|].
  destruct (String.eqb (commandName cmd) "RX_TEST"); [exact R|].
  destruct (String.eqb (commandName cmd) "TX_TEST"); [apply Tx|].
  destruct (String.eqb (commandName cmd) "RANGING_TEST").
  { destruct (0 <? commandArg cmd); [exact G | apply Upr]. }
  destruct (String.eqb (commandName cmd) "SLEEP_CYCLE"); [apply Sl|].
  destruct (String.eqb (commandName cmd) "auto"); [exact A|].
  destruct (String.eqb (commandName cmd) "STOP_TEST"); apply Upr.
Qed.

(** The same with the mode known. *)
Ltac coherent_at M F :=
  flags_of F M; coherent_goal;
  repeat (cbn; rewrite ?M;
          match goal with
          | |- context [if ?c then _ else _] => destruct c eqn:?
          end);
  repeat (progress (cbn; rewrite ?M)); unfold LOW, HIGH in *; cbn [negb] in *;
  repeat split; try assumption; try lia; try congruence.

Lemma handleTxTest_Coherent (s : State) :
  currentTestMode s = MODE_TX_TEST -> Coherent s -> Coherent (handleTxTest s).
Proof.
  intros M (F & Cf & Ch & P). unfold handleTxTest. coherent_at M F.
Qed.

Lemma handleSleepTest_Coherent (s : State) :
  currentTestMode s = MODE_SLEEP_CYCLE -> Coherent s ->
  Coherent (handleSleepTest s).
Proof.
  intros M (F & Cf & Ch & P).
  unfold handleSleepTest, applyChannelConfiguration. coherent_at M F.
Qed.

Lemma handleRangingTest_Coherent (cbs : list Callback) (s : State) :
  currentTestMode s = MODE_RANGING_TEST -> Coherent s ->
  Coherent (handleRangingTest cbs s).
Proof.
  intros M H. unfold handleRangingTest.
  destruct (rangingIdlePeriodActive s) eqn:I.
  - destruct (RANGING_IDLE_DURATION
              <=? wrap_ulong (millis s - rangingSequenceStartTime s));
      [|exact H].
    destruct H as (F & Cf & Ch & P).
    unfold initializeRangingMode, applyChannelConfiguration. coherent_at M F.
  - destruct (AnchorState_eqb (currentState s) STATE_ACTIVE
              && rangingTestActive s); [|exact H].
    apply DW1000Ranging_loop_Coherent, H.
Qed.

Lemma handleAutoSequence_Coherent (s : State) :
  currentTestMode s = MODE_AUTO_SEQUENCE -> Coherent s ->
  Coherent (handleAutoSequence s).
Proof.
  intros M (F & Cf & Ch & P).
  unfold handleAutoSequence, applyChannelConfiguration.
  destruct (currentSequenceStep s) eqn:Q; coherent_at M F;
    rewrite ?Q in *; cbn [isSleepStep isRxStep isCompleteStep] in *;
    try assumption; congruence.
Qed.

Lemma loop_Coherent (reading : bool) (line : option string)
    (cbs : list Callback) (s : State) :
  Coherent s -> Coherent (loop reading line cbs s).
Proof.
  intros H. unfold loop.
  apply (handleButtonPress_Coherent reading) in H.
  revert H. generalize (handleButtonPress reading s). clear s. intros s H.
  assert (C : Coherent match line with
                       | Some cmd => parseCommand (trim cmd) s
                       | None => s
                       end)
    by (destruct line; [apply parseCommand_Coherent|]; exact H).
  revert C.
  generalize (match line with
              | Some cmd => parseCommand (trim cmd) s
              | None => s
              end).
  clear s H. intros s H.
  assert (D : Coherent match currentTestMode s with
                       | MODE_NONE =>
                         if usingRangingLayer s then DW1000Ranging_loop cbs s else s
                       | MODE_TX_TEST => handleTxTest s
                       | MODE_RANGING_TEST => handleRangingTest cbs s
                       | MODE_SLEEP_CYCLE => handleSleepTest s
                       | MODE_AUTO_SEQUENCE => handleAutoSequence s
                       | _ => s
                       end).
  { destruct (currentTestMode s) eqn:M; try exact H.
    - destruct (usingRangingLayer s); [|exact H].
      apply DW1000Ranging_loop_Coherent, H.
    - apply handleTxTest_Coherent; assumption.
    - apply handleRangingTest_Coherent; assumption.
    - apply handleSleepTest_Coherent; assumption.
    - apply handleAutoSequence_Coherent; assumption. }
  revert D.
  generalize (match currentTestMode s with
              | MODE_NONE =>
                if usingRangingLayer s then DW1000Ranging_loop cbs s else s
              | MODE_TX_TEST => handleTxTest s
              | MODE_RANGING_TEST => handleRangingTest cbs s
              | MODE_SLEEP_CYCLE => handleSleepTest s
              | MODE_AUTO_SEQUENCE => handleAutoSequence s
              | _ => s
              end).
  intros u D.
  destruct (oledInterval <? wrap_ulong (millis u - lastOledUpdate u));
    [apply updateOledDisplay_Coherent|]; exact D.
Qed.

Lemma step_Coherent (i : Input) (s : State) : Coherent s -> Coherent (step s i).
Proof.
  intros H. destruct i as [us | cb | reading line cbs]; simpl.
  - exact H.
  - apply fire_Coherent, H.
  - apply loop_Coherent, H.
Qed.

Lemma run_Coherent (inputs : list Input) (s : State) :
  Coherent s -> Coherent (run inputs s).
Proof.
  revert s. induction inputs as [|i inputs IH]; intros s H; [exact H|].
  simpl. apply IH, step_Coherent, H.
Qed.

Lemma booted_Coherent : Coherent booted.
Proof.
  unfold Coherent.
  assert (F : phaseFlags booted = expectedFlags booted)
    by (vm_compute; reflexivity).
  assert (C : configOption booted = 1) by (vm_compute; reflexivity).
  assert (Ch : channel booted = fetched (channelForConfig (configOption booted)))
    by (vm_compute; reflexivity).
  assert (P : pin26PulseCount booted = rangingTestCurrentCount booted)
    by (vm_compute; reflexivity).
  rewrite C at 1 2. repeat split; try assumption; lia.
Qed.

Ltac coherent_facts s :=
  let F := fresh "F" in let Cf := fresh "Cf" in let Ch := fresh "Ch" in
  let P := fresh "P" in let M := fresh "M" in
  destruct (run_Coherent s booted booted_Coherent) as (F & Cf & Ch & P);
  destruct (currentTestMode (run s booted)) eqn:M; flags_of F M;
  destruct (currentSequenceStep (run s booted)) eqn:?;
  cbn [isSleepStep isRxStep isCompleteStep negb] in *.

(** X1. At every point of every run from power-on, whatever the commands,
    callbacks and delays: the auto-sequence flag is set exactly in mode
    AutoSequence; the ranging settle and active flags are set only in mode
    RangingTest, where exactly one of them is set; AnchorState is Active
    exactly when the ranging active flag is set; and the deep-sleep flag is
    set exactly in mode SleepCycle and in the sleep step of the auto
    sequence. *)
Theorem X1_mode_governs_flags (inputs : list Input) :
  let s := run inputs booted in
  (autoSequenceActive s = true <-> currentTestMode s = MODE_AUTO_SEQUENCE)
  /\ (rangingTestActive s = true \/ rangingIdlePeriodActive s = true <->
      currentTestMode s = MODE_RANGING_TEST)
  /\ rangingTestActive s && rangingIdlePeriodActive s = false
  /\ (currentState s = STATE_ACTIVE <-> rangingTestActive s = true)
  /\ (inDeepSleep s = true <->
      currentTestMode s = MODE_SLEEP_CYCLE
      \/ (currentTestMode s = MODE_AUTO_SEQUENCE
          /\ currentSequenceStep s = SEQ_SLEEP)).
Proof.
  intros s. subst s. coherent_facts inputs;
    destruct (rangingTestActive (run inputs booted)) eqn:A;
    cbn [negb andb] in *;
    repeat split; intros; try congruence;
    repeat match goal with
           | H : _ \/ _ |- _ => destruct H
           | H : _ /\ _ |- _ => destruct H
           end; try congruence; auto.
Qed.

Ltac settle_cases :=
  repeat split; intros; try congruence;
  repeat match goal with
         | H : _ \/ _ |- _ => destruct H
         | H : _ /\ _ |- _ => destruct H
         end; try congruence; auto.

(** X2. Between any two events of any run from power-on, the RX marker pin is
    high exactly while a receive phase is being measured: in mode RxTest, and
    in the two receive steps of the auto sequence. *)
Theorem X2_rx_marker_tracks_receive (inputs : list Input) :
  let s := run inputs booted in
  ppk2_rx_level s = HIGH <->
  currentTestMode s = MODE_RX_TEST
  \/ (currentTestMode s = MODE_AUTO_SEQUENCE
      /\ (currentSequenceStep s = SEQ_RX_1 \/ currentSequenceStep s = SEQ_RX_2)).
Proof.
  intros s. subst s. unfold HIGH. coherent_facts inputs;
    destruct (rangingTestActive (run inputs booted)) eqn:A;
    settle_cases.
Qed.

(** X3. Between any two events of any run from power-on, the TX marker pin
    is high exactly while a transmission is in progress, and a transmission
    can be in progress only in mode TxTest, in mode AutoSequence, or in mode
    None. *)
Theorem X3_tx_marker_tracks_transmission (inputs : list Input) :
  let s := run inputs booted in
  ppk2_tx_level s = txInProgress s
  /\ (txInProgress s = true ->
      currentTestMode s = MODE_TX_TEST
      \/ currentTestMode s = MODE_AUTO_SEQUENCE
      \/ currentTestMode s = MODE_NONE).
Proof.
  intros s. subst s. coherent_facts inputs; settle_cases.
Qed.

(** [loop] is the dispatch on the mode found after the button handler and
    the command, followed by the display refresh. *)
Lemma loop_at_switch (reading : bool) (line : option string)
    (cbs : list Callback) (s : State) :
  loop reading line cbs s
  = refreshDisplay
      match currentTestMode (atSwitch reading line s) with
      | MODE_NONE =>
        if usingRangingLayer (atSwitch reading line s)
        then DW1000Ranging_loop cbs (atSwitch reading line s)
        else atSwitch reading line s
      | MODE_TX_TEST => handleTxTest (atSwitch reading line s)
      | MODE_RANGING_TEST => handleRangingTest cbs (atSwitch reading line s)
      | MODE_SLEEP_CYCLE => handleSleepTest (atSwitch reading line s)
      | MODE_AUTO_SEQUENCE => handleAutoSequence (atSwitch reading line s)
      | _ => atSwitch reading line s
      end.
Proof. reflexivity. Qed.

(** X4. Between any two events of any run from power-on, the operating mode
    of the radio follows the test mode: the ranging-protocol layer is active
    in mode None, in mode SleepCycle, in the active phase of a ranging test
    and at the terminal step of the auto sequence, and direct control is
    active everywhere else.  So a loop iteration that finds mode None at its
    [switch], after the button handler and the command if there is one,
    always polls the ranging library: the iteration is the poll, with the
    callbacks that are due, followed by the display refresh. *)
Theorem X4_operating_mode_follows_test_mode (inputs : list Input) :
  let s := run inputs booted in
  (usingRangingLayer s = true <->
   currentTestMode s = MODE_NONE
   \/ currentTestMode s = MODE_SLEEP_CYCLE
   \/ (currentTestMode s = MODE_RANGING_TEST /\ rangingTestActive s = true)
   \/ (currentTestMode s = MODE_AUTO_SEQUENCE
       /\ currentSequenceStep s = SEQ_COMPLETE))
  /\ (forall (reading : bool) (line : option string) (cbs : list Callback),
      currentTestMode (atSwitch reading line s) = MODE_NONE ->
      usingRangingLayer (atSwitch reading line s) = true
      /\ loop reading line cbs s
         = refreshDisplay
             (fold_left (fun u cb => fire cb u) cbs
                (call "DW1000Ranging.loop" [] (atSwitch reading line s)))).
Proof.
  intros s. subst s.
  split.
  - coherent_facts inputs;
      destruct (rangingTestActive (run inputs booted)) eqn:A; settle_cases.
  - intros reading line cbs M.
    pose proof (run_Coherent inputs booted booted_Coherent) as C.
    revert M C. generalize (run inputs booted). intros s M C.
    assert (U : usingRangingLayer (atSwitch reading line s) = true).
    { assert (Ct : Coherent (atSwitch reading line s)).
      { unfold atSwitch. apply (handleButtonPress_Coherent reading) in C.
        revert C. generalize (handleButtonPress reading s). intros b C.
        destruct line; [apply parseCommand_Coherent|]; exact C. }
      destruct Ct as (F & _). revert M F.
      generalize (atSwitch reading line s). intros t M F.
      flags_of F M. assumption. }
    split; [exact U|].
    rewrite loop_at_switch. revert M U.
    generalize (atSwitch reading line s). intros t M U.
    rewrite M, U. reflexivity.
Qed.

Lemma X4_operating_mode_follows_test_mode_witness :
  loop HIGH (Some "STOP_TEST") [OnNewDevice (Some sampleDevice)] directIdle
  = refreshDisplay
      (fire (OnNewDevice (Some sampleDevice))
         (call "DW1000Ranging.loop" []
            (atSwitch HIGH (Some "STOP_TEST") directIdle))).
Proof.
  pose proof (X4_operating_mode_follows_test_mode
                [Iteration HIGH (Some "IDLE_TEST") []]) as H.
  cbv zeta in H. destruct H as (_ & H).
  apply (H HIGH (Some "STOP_TEST") [OnNewDevice (Some sampleDevice)]).
  vm_compute. reflexivity.
Defined.

(** X5. Along every run from power-on the configuration index stays within
    1..6 and the channel is the table entry for it, one of 1, 2, 3, 4, 5, 7:
    entry 0 of the channel table and the fallback values of both lookups are
    never used, and the antenna delay applied for the channel is a table
    entry. *)
Theorem X5_channel_configuration_in_table (inputs : list Input) :
  let s := run inputs booted in
  1 <= configOption s <= 6
  /\ channelForConfig (configOption s) = Some (channel s)
  /\ array_read channelMap (configOption s) = Some (channel s)
  /\ In (channel s) [1; 2; 3; 4; 5; 7]
  /\ getAntennaDelayForChannel (channel s)
     = array_read antennaDelays (channel s)
  /\ In (getAntennaDelayForChannel (channel s))
       [Some 16525; Some 16517; Some 16531; Some 16383; Some 16534; Some 16401].
Proof.
  intros s. subst s.
  destruct (run_Coherent inputs booted booted_Coherent) as (_ & Cf & Ch & _).
  revert Cf Ch. generalize (run inputs booted). intros s Cf Ch.
  assert (E : configOption s = 1 \/ configOption s = 2 \/ configOption s = 3
              \/ configOption s = 4 \/ configOption s = 5 \/ configOption s = 6)
    by lia.
  rewrite Ch.
  destruct E as [E | [E | [E | [E | [E | E]]]]]; rewrite E;
    vm_compute; repeat split; try (intros X; discriminate X); tauto.
Qed.

(** X6. Along every run from power-on the count of range-computed pulses
    equals the completion count of the ranging session. *)
Theorem X6_pulse_count_is_completion_count (inputs : list Input) :
  pin26PulseCount (run inputs booted)
  = rangingTestCurrentCount (run inputs booted).
Proof. apply (run_Coherent inputs booted booted_Coherent). Qed.

(** * The button *)

(** X7. With the configuration index within 1..6: the button handler always
    records the level it read; a press that is not accepted (no falling edge,
    or within 300 ms of the last accepted one) and any press while a test is
    running change neither the configuration index nor the channel and send
    nothing to the radio; a press accepted in mode None moves the index to
    the next of 1..6 (6 wraps to 1), applies that entry's channel and restarts
    the debounce interval at the time the handler returns. *)
Theorem X7_button_cycles_channel (reading : bool) (s : State) :
  1 <= configOption s <= 6 ->
  let s' := handleButtonPress reading s in
  lastButtonState s' = reading
  /\ (pressAccepted reading s = false ->
      s' = set_lastButtonState reading s)
  /\ (pressAccepted reading s = true -> currentTestMode s <> MODE_NONE ->
      s' = set_lastButtonState reading (set_lastDebounceTime (millis s) s))
  /\ (pressAccepted reading s = true -> currentTestMode s = MODE_NONE ->
      configOption s' = configOption s mod 6 + 1
      /\ channelForConfig (configOption s') = Some (channel s')
      /\ usingRangingLayer s' = true
      /\ lastDebounceTime s' = millis s'
      /\ currentTestMode s' = MODE_NONE).
Proof.
  intros Cf s'. subst s'.
  assert (W : wrap_uint8 (configOption s + 1) = configOption s + 1)
    by (unfold wrap_uint8; apply Z.mod_small; lia).
  unfold handleButtonPress. fold (pressAccepted reading s).
  split; [|split; [|split]].
  - destruct (pressAccepted reading s);
      [destruct (TestMode_eqb (currentTestMode s) MODE_NONE)|]; reflexivity.
  - intros A. rewrite A. reflexivity.
  - intros A M. rewrite A.
    assert (N : TestMode_eqb (currentTestMode s) MODE_NONE = false)
      by (destruct (currentTestMode s); try reflexivity; congruence).
    rewrite N. reflexivity.
  - intros A M. rewrite A, M. cbn. rewrite W.
    assert (E : configOption s = 1 \/ configOption s = 2 \/ configOption s = 3
                \/ configOption s = 4 \/ configOption s = 5 \/ configOption s = 6)
      by lia.
    destruct E as [E | [E | [E | [E | [E | E]]]]]; rewrite E; cbn; rewrite ?M;
      repeat split.
Qed.

Lemma X7_button_cycles_channel_witness :
  configOption
    (handleButtonPress LOW (set_clock_us 3000000 (set_configOption 6 booted))) = 1
  /\ channel
       (handleButtonPress LOW (set_clock_us 3000000 (set_configOption 6 booted)))
     = 1.
Proof.
  assert (Cf : 1 <= configOption (set_clock_us 3000000 (set_configOption 6 booted))
               <= 6) by (simpl; lia).
  assert (A : pressAccepted LOW (set_clock_us 3000000 (set_configOption 6 booted))
              = true) by (vm_compute; reflexivity).
  assert (M : currentTestMode (set_clock_us 3000000 (set_configOption 6 booted))
              = MODE_NONE) by (vm_compute; reflexivity).
  pose proof (X7_button_cycles_channel LOW _ Cf) as H. cbv zeta in H.
  destruct H as (_ & _ & _ & H). destruct (H A M) as (C & Ch & _).
  split.
  - rewrite C. vm_compute. reflexivity.
  - rewrite C in Ch.
    assert (X : channelForConfig
                  (configOption (set_clock_us 3000000 (set_configOption 6 booted))
                   mod 6 + 1) = Some 1) by (vm_compute; reflexivity).
    rewrite X in Ch. congruence.
Defined.

(** * Command arguments *)

Lemma commandArg_range (cmd : string) : INT_MIN <= commandArg cmd <= INT_MAX.
Proof.
  assert (C : forall z, INT_MIN <= clamp_long z <= INT_MAX)
    by (intros z; unfold clamp_long, INT_MIN, INT_MAX; lia).
  unfold commandArg. destruct (indexOf " " cmd); [|unfold INT_MIN, INT_MAX; lia].
  unfold toInt.
  destruct (skip_spaces (substringFrom (S n) cmd)) as [|c r]; [apply C|].
  destruct (Ascii.eqb c "-") eqn:E1; [apply Ascii.eqb_eq in E1; subst c; apply C|].
  destruct (Ascii.eqb c "+") eqn:E2; [apply Ascii.eqb_eq in E2; subst c; apply C|].
  destruct c as [[] [] [] [] [] [] [] []]; try apply C; discriminate.
Qed.

(** X8. How [parseCommand] treats the argument of a command.  The argument
    always fits a 32-bit [int], and is 0 when the line has no space.  TX_TEST
    starts the transmit test with the given interval, or 50 ms when the
    argument is missing, zero or negative; SLEEP_CYCLE starts the sleep test
    with the given duration, or 5000 ms likewise; RANGING_TEST with a
    positive count starts a session with that target, and with a missing,
    zero or negative count it only prints the usage line after stop-all:
    no session is started and the counters are untouched. *)
Theorem X8_command_arguments (cmd : string) (s : State) :
  let s' := parseCommand cmd s in
  let arg := commandArg cmd in
  INT_MIN <= arg <= INT_MAX
  /\ (indexOf " " cmd = None -> commandName cmd = cmd /\ arg = 0)
  /\ (commandName cmd = "TX_TEST" ->
      currentTestMode s' = MODE_TX_TEST
      /\ txInterval s' = (if 0 <? arg then arg else 50)
      /\ lastTxTime s' = millis s'
      /\ usingRangingLayer s' = false)
  /\ (commandName cmd = "SLEEP_CYCLE" ->
      currentTestMode s' = MODE_SLEEP_CYCLE
      /\ sleepDuration s' = (if 0 <? arg then arg else 5000)
      /\ inDeepSleep s' = true)
  /\ (commandName cmd = "RANGING_TEST" -> 0 < arg ->
      s' = startRangingTest arg (stopAllTests s)
      /\ rangingTestTargetCount s' = arg)
  /\ (commandName cmd = "RANGING_TEST" -> arg <= 0 ->
      s' = Serial_println "Usage: RANGING_TEST <count>" (stopAllTests s)
      /\ currentTestMode s' = MODE_NONE
      /\ rangingIdlePeriodActive s' = false
      /\ rangingTestTargetCount s' = rangingTestTargetCount s
      /\ rangingTestCurrentCount s' = rangingTestCurrentCount s).
Proof.
  intros s' arg. subst s' arg.
  split; [apply commandArg_range|].
  split.
  { intros E. unfold commandName, commandArg. rewrite E. split; reflexivity. }
  pose proof (stopAllTests_fields s) as F. cbv zeta in F.
  destruct F as (M & _ & _ & _ & _ & I & _ & _ & _ & U).
  destruct (stopAllTests_counters s) as (C & _ & _ & T).
  unfold parseCommand.
  revert M I U C T. generalize (stopAllTests s). intros u M I U C T.
  split; [|split; [|split]].
  - intros N. rewrite N. cbn [String.eqb Ascii.eqb Bool.eqb].
    unfold startTxTest, initializeDirectMode. cbn. rewrite U. cbn.
    repeat split.
  - intros N. rewrite N. cbn [String.eqb Ascii.eqb Bool.eqb].
    unfold startSleepTest, stopAllTests, initializeRangingMode. cbn.
    rewrite U. cbn. repeat split.
  - intros N P. rewrite N. cbn [String.eqb Ascii.eqb Bool.eqb].
    apply Z.ltb_lt in P. rewrite P. split; [reflexivity|].
    destruct (startRangingTest_fields (commandArg cmd) u) as (_ & _ & _ & X & _).
    exact X.
  - intros N P. rewrite N. cbn [String.eqb Ascii.eqb Bool.eqb].
    assert (P' : (0 <? commandArg cmd) = false) by (apply Z.ltb_ge; exact P).
    rewrite P'. cbn. rewrite <- C, <- T. repeat split; assumption.
Qed.

Lemma X8_command_arguments_witness :
  txInterval (parseCommand "TX_TEST" booted) = 50
  /\ sleepDuration (parseCommand "SLEEP_CYCLE 250" booted) = 250
  /\ currentTestMode (parseCommand "RANGING_TEST -3" activeSession) = MODE_NONE.
Proof.
  pose proof (X8_command_arguments "TX_TEST" booted) as H1.
  pose proof (X8_command_arguments "SLEEP_CYCLE 250" booted) as H2.
  pose proof (X8_command_arguments "RANGING_TEST -3" activeSession) as H3.
  cbv zeta in H1, H2, H3.
  destruct H1 as (_ & _ & H1 & _).
  destruct H2 as (_ & _ & _ & H2 & _).
  destruct H3 as (_ & _ & _ & _ & _ & H3).
  split; [|split].
  - destruct (H1 eq_refl) as (_ & X & _). rewrite X. reflexivity.
  - destruct (H2 eq_refl) as (_ & X & _). rewrite X. reflexivity.
  - assert (P : commandArg "RANGING_TEST -3" <= 0) by (vm_compute; discriminate).
    destruct (H3 eq_refl P) as (_ & X & _). exact X.
Defined.

(** * Timed handlers *)

(** X9. The transmit step of the auto sequence runs exactly the periodic
    transmit logic of the standalone transmit test: while the step's 3000 ms
    are not over the handler is [handleTxTest], and once they are over it is
    [handleTxTest] followed by the step's exit actions. *)
Theorem X9_transmit_step_is_tx_test (s : State) :
  autoSequenceActive s = true -> currentSequenceStep s = SEQ_TX ->
  handleAutoSequence s
  = (if 3000 <=? elapsedInStep s
     then leaveTransmitStep (handleTxTest s) else handleTxTest s).
Proof.
  intros A Q. unfold handleAutoSequence, elapsedInStep. rewrite A, Q.
  reflexivity.
Qed.

Lemma X9_transmit_step_is_tx_test_witness :
  handleAutoSequence
    (set_currentSequenceStep SEQ_TX (startAutoSequence booted))
  = handleTxTest (set_currentSequenceStep SEQ_TX (startAutoSequence booted)).
Proof.
  rewrite X9_transmit_step_is_tx_test; [reflexivity | reflexivity | reflexivity].
Defined.

Lemma startSleepTest_fields (s : State) :
  exists c0,
    sleepStartTime (startSleepTest s) = wrap_ulong (c0 / 1000)
    /\ clock_us (startSleepTest s) = c0 + 1000 * 100
    /\ sleepDuration (startSleepTest s) = sleepDuration s
    /\ inDeepSleep (startSleepTest s) = true
    /\ currentTestMode (startSleepTest s) = MODE_SLEEP_CYCLE.
Proof.
  unfold startSleepTest, stopAllTests, initializeRangingMode.
  cbn. destruct (usingRangingLayer s) eqn:U; cbn; rewrite ?U; cbn;
    eexists; repeat split.
Qed.

(** X10. The sleep test measures its duration from the timestamp taken before
    the 100 ms flush delay of its start action.  Polled [k] ms after the start
    action returned, the handler leaves the state alone while [k + 100] is
    below the duration, and from then on ends the test: the radio is fully
    reconfigured in ranging-protocol mode, the deep-sleep flag is cleared and
    TestMode is None. *)
Theorem X10_sleep_test_duration (s : State) (k : N) :
  Z.of_N k + 100 < 2 ^ 32 ->
  let s1 := startSleepTest s in
  let s2 := run [Elapse (1000 * k)] s1 in
  currentTestMode s1 = MODE_SLEEP_CYCLE /\ inDeepSleep s1 = true
  /\ (Z.of_N k + 100 < sleepDuration s -> handleSleepTest s2 = s2)
  /\ (sleepDuration s <= Z.of_N k + 100 ->
      currentTestMode (handleSleepTest s2) = MODE_NONE
      /\ inDeepSleep (handleSleepTest s2) = false
      /\ usingRangingLayer (handleSleepTest s2) = true
      /\ channel (handleSleepTest s2) = fetched (channelForConfig (configOption s))).
Proof.
  intros K s1 s2. subst s1 s2.
  destruct (startSleepTest_fields s) as (c0 & St & Cl & D & I & M).
  assert (Cf : configOption (startSleepTest s) = configOption s).
  { unfold startSleepTest, stopAllTests, initializeRangingMode. cbn.
    destruct (usingRangingLayer s); reflexivity. }
  revert St Cl D I M Cf. generalize (startSleepTest s). intros s1 St Cl D I M Cf.
  split; [exact M|]. split; [exact I|].
  rewrite run_cons. change (run [] ?x) with x.
  change (step s1 (Elapse (1000 * k)))
    with (set_clock_us (clock_us s1 + Z.of_N (1000 * k)) s1).
  rewrite N2Z.inj_mul. change (Z.of_N 1000) with 1000.
  assert (E : wrap_ulong
                (millis (set_clock_us (clock_us s1 + 1000 * Z.of_N k) s1)
                 - sleepStartTime s1) = Z.of_N k + 100).
  { change (millis (set_clock_us (clock_us s1 + 1000 * Z.of_N k) s1))
      with (wrap_ulong ((clock_us s1 + 1000 * Z.of_N k) / 1000)).
    rewrite St, Cl.
    replace (c0 + 1000 * 100 + 1000 * Z.of_N k)
      with (c0 + 1000 * (Z.of_N k + 100)) by lia.
    apply millis_ahead. lia. }
  revert E.
  assert (I' : inDeepSleep (set_clock_us (clock_us s1 + 1000 * Z.of_N k) s1) = true)
    by exact I.
  assert (D' : sleepDuration (set_clock_us (clock_us s1 + 1000 * Z.of_N k) s1)
               = sleepDuration s) by exact D.
  assert (Cf' : configOption (set_clock_us (clock_us s1 + 1000 * Z.of_N k) s1)
                = configOption s) by exact Cf.
  change (sleepStartTime s1)
    with (sleepStartTime (set_clock_us (clock_us s1 + 1000 * Z.of_N k) s1)).
  revert I' D' Cf'.
  generalize (set_clock_us (clock_us s1 + 1000 * Z.of_N k) s1).
  intros s2 I' D' Cf' E.
  unfold handleSleepTest. rewrite I', E, D'.
  split.
  - intros L. apply Z.leb_gt in L. rewrite L. reflexivity.
  - intros L. apply Z.leb_le in L. rewrite L. cbn. rewrite Cf'. repeat split.
Qed.

Lemma X10_sleep_test_duration_witness :
  currentTestMode
    (handleSleepTest
       (run [Elapse (1000 * 150)] (startSleepTest (set_sleepDuration 250 booted))))
  = MODE_NONE.
Proof.
  assert (K : Z.of_N 150 + 100 < 2 ^ 32) by (simpl; lia).
  pose proof (X10_sleep_test_duration (set_sleepDuration 250 booted) 150 K) as H.
  cbv zeta in H. destruct H as (_ & _ & _ & H).
  apply H. simpl. lia.
Defined.

(** X11. The settle phase of a ranging session.  While fewer than 1000 ms
    have passed since the session start the ranging handler changes nothing,
    and the ranging library is not polled, so no callback can reach the
    counters.  The first call at or after 1000 ms switches to
    ranging-protocol mode, emits the 20 ms dual-pin boundary marker followed
    by the START_TEST record with the target, and enters the active phase;
    the callbacks due in that call are not polled either, and the counters
    are left as they were. *)
Theorem X11_settle_phase (cbs : list Callback) (s : State) :
  rangingIdlePeriodActive s = true ->
  let waited := wrap_ulong (millis s - rangingSequenceStartTime s) in
  let s' := handleRangingTest cbs s in
  s' = handleRangingTest [] s
  /\ (waited < RANGING_IDLE_DURATION -> s' = s)
  /\ (RANGING_IDLE_DURATION <= waited ->
      rangingIdlePeriodActive s' = false
      /\ rangingTestActive s' = true
      /\ currentState s' = STATE_ACTIVE
      /\ usingRangingLayer s' = true
      /\ ppk2_tx_level s' = LOW /\ ppk2_rx_level s' = LOW
      /\ rangingTestCurrentCount s' = rangingTestCurrentCount s
      /\ pin25PulseCount s' = pin25PulseCount s
      /\ pin26PulseCount s' = pin26PulseCount s
      /\ (exists before,
            emitted s s'
            = (startRecords s (millis s') ++ rev boundaryPulse ++ before)%list)).
Proof.
  intros I waited s'. subst waited s'. unfold handleRangingTest. rewrite I.
  split; [reflexivity|]. split.
  - intros L. apply Z.leb_gt in L. rewrite L. reflexivity.
  - intros L. apply Z.leb_le in L. rewrite L.
    unfold initializeRangingMode, startRecords. cbn.
    destruct (usingRangingLayer s) eqn:U; cbn; rewrite ?U;
      repeat (split; [reflexivity|]).
    + eexists. erewrite emitted_ext by trace_diff.
      unfold millis. cbn. reflexivity.
    + eexists. erewrite emitted_ext by trace_diff.
      unfold millis. cbn. reflexivity.
Qed.

Lemma X11_settle_phase_witness :
  let s := run [Elapse 1000000] (startRangingTest 2 booted) in
  rangingTestActive (handleRangingTest [OnNewRange (Some sampleDevice)] s) = true
  /\ rangingTestCurrentCount
       (handleRangingTest [OnNewRange (Some sampleDevice)] s) = 0.
Proof.
  assert (I : rangingIdlePeriodActive
                (run [Elapse 1000000] (startRangingTest 2 booted)) = true)
    by (vm_compute; reflexivity).
  pose proof (X11_settle_phase [OnNewRange (Some sampleDevice)] _ I) as H.
  cbv zeta in H. destruct H as (_ & _ & H).
  assert (L : RANGING_IDLE_DURATION
              <= wrap_ulong
                   (millis (run [Elapse 1000000] (startRangingTest 2 booted))
                    - rangingSequenceStartTime
                        (run [Elapse 1000000] (startRangingTest 2 booted))))
    by (vm_compute; discriminate).
  destruct (H L) as (_ & A & _ & _ & _ & _ & C & _).
  split; [exact A|]. rewrite C. vm_compute. reflexivity.
Defined.

(** * The auto sequence runs to its end *)

Lemma timedView_inv (s t : State) :
  timedView t = timedView s ->
  autoView t = autoView s /\ clock_us t = clock_us s
  /\ autoSequenceActive t = autoSequenceActive s
  /\ currentSequenceStep t = currentSequenceStep s
  /\ sequenceStepStartTime t = sequenceStepStartTime s
  /\ currentTestMode t = currentTestMode s.
Proof. unfold timedView, autoView. intros V. repeat split; congruence. Qed.

Lemma Ready_view (q : SequenceStep) (s t : State) :
  timedView t = timedView s -> Ready q s -> Ready q t.
Proof.
  intros V (A & Q & I & c & g & G & St & Cl).
  destruct (timedView_inv s t V) as (Va & Vc & At & Qt & Stt & _).
  split; [congruence|]. split; [congruence|].
  split; [apply (AutoInv_view 0 s); assumption|].
  exists c, g. repeat split; try lia; congruence.
Qed.

Lemma handleButtonPress_timedView (reading : bool) (s : State) :
  currentTestMode s <> MODE_NONE ->
  timedView (handleButtonPress reading s) = timedView s.
Proof.
  intros M. unfold timedView.
  rewrite handleButtonPress_autoView.
  destruct (handleButtonPress_busy reading s M) as (K & _). rewrite K.
  reflexivity.
Qed.

Lemma updateOledDisplay_timedView (s : State) :
  timedView (updateOledDisplay s) = timedView s.
Proof.
  unfold timedView. rewrite updateOledDisplay_autoView.
  unfold updateOledDisplay. cbn. destruct (currentTestMode s); reflexivity.
Qed.

(** A loop iteration without a command in mode AutoSequence is the auto
    sequence handler, as far as the sequence and the clock are concerned. *)
Lemma loop_auto (reading : bool) (cbs : list Callback) (s : State) :
  currentTestMode s = MODE_AUTO_SEQUENCE ->
  exists t, timedView t = timedView s
            /\ timedView (loop reading None cbs s)
               = timedView (handleAutoSequence t).
Proof.
  intros M. exists (handleButtonPress reading s).
  assert (N : currentTestMode s <> MODE_NONE) by congruence.
  pose proof (handleButtonPress_timedView reading s N) as V.
  split; [exact V|]. unfold loop.
  destruct (timedView_inv s _ V) as (_ & _ & _ & _ & _ & Mt).
  revert Mt. generalize (handleButtonPress reading s). intros t Mt.
  rewrite Mt, M. cbv iota.
  generalize (handleAutoSequence t). intros u.
  destruct (oledInterval <? wrap_ulong (millis u - lastOledUpdate u));
    [apply updateOledDisplay_timedView | reflexivity].
Qed.

Lemma handleAutoSequence_stays_active (s : State) :
  autoSequenceActive s = true -> currentSequenceStep s <> SEQ_COMPLETE ->
  autoSequenceActive (handleAutoSequence s) = true.
Proof.
  intros A Q. unfold handleAutoSequence. rewrite A. cbn.
  destruct (currentSequenceStep s); try congruence; split_ifs; assumption.
Qed.

Lemma timedView_due (s t : State) :
  timedView t = timedView s ->
  elapsedInStep t = elapsedInStep s /\ elapsedAsleep t = elapsedAsleep s
  /\ stepDue t = stepDue s.
Proof.
  unfold timedView, autoView. intros V.
  assert (C : clock_us t = clock_us s) by congruence.
  assert (Q : currentSequenceStep t = currentSequenceStep s) by congruence.
  assert (D : inDeepSleep t = inDeepSleep s) by congruence.
  assert (L : sleepDuration t = sleepDuration s) by congruence.
  assert (T : sequenceStepStartTime t = sequenceStepStartTime s) by congruence.
  assert (W : sleepStartTime t = sleepStartTime s) by congruence.
  unfold stepDue, elapsedInStep, elapsedAsleep, millis.
  rewrite C, Q, D, L, T, W. repeat split.
Qed.

(** The state [k] ms later. *)
Lemma Ready_elapsed (q : SequenceStep) (s : State) (k : N) :
  Ready q s -> Z.of_N k <= INT_MAX ->
  autoSequenceActive (step s (Elapse (1000 * k))) = true
  /\ currentSequenceStep (step s (Elapse (1000 * k))) = q
  /\ AutoInv 0 (step s (Elapse (1000 * k)))
  /\ Z.of_N k <= elapsedInStep (step s (Elapse (1000 * k))) <= Z.of_N k + 100.
Proof.
  intros (A & Q & I & c & g & G & St & Cl) K.
  change (step s (Elapse (1000 * k)))
    with (set_clock_us (clock_us s + Z.of_N (1000 * k)) s).
  rewrite N2Z.inj_mul. change (Z.of_N 1000) with 1000.
  split; [exact A|]. split; [exact Q|]. split; [exact I|].
  unfold elapsedInStep.
  change (millis (set_clock_us (clock_us s + 1000 * Z.of_N k) s))
    with (wrap_ulong ((clock_us s + 1000 * Z.of_N k) / 1000)).
  change (sequenceStepStartTime (set_clock_us (clock_us s + 1000 * Z.of_N k) s))
    with (sequenceStepStartTime s).
  rewrite St, Cl.
  replace (c + 1000 * g + 1000 * Z.of_N k)
    with (c + 1000 * (g + Z.of_N k)) by lia.
  rewrite millis_ahead; unfold INT_MAX in K; lia.
Qed.

Lemma AutoInv_active_mode (s : State) :
  AutoInv 0 s -> autoSequenceActive s = true ->
  currentTestMode s = MODE_AUTO_SEQUENCE.
Proof. intros (_ & M & _) A. rewrite A in M. exact M. Qed.

(** The facts a loop iteration of an active sequence starts from. *)
Lemma iteration_auto (reading : bool) (cbs : list Callback) (e : State) :
  autoSequenceActive e = true -> AutoInv 0 e ->
  exists t,
    timedView (loop reading None cbs e) = timedView (handleAutoSequence t)
    /\ autoSequenceActive t = true
    /\ currentSequenceStep t = currentSequenceStep e
    /\ AutoInv 0 t
    /\ elapsedInStep t = elapsedInStep e
    /\ elapsedAsleep t = elapsedAsleep e.
Proof.
  intros A I.
  destruct (loop_auto reading cbs e (AutoInv_active_mode e I A)) as (t & V & L).
  exists t.
  destruct (timedView_inv e t V) as (Va & _ & At & Qt & _ & _).
  destruct (timedView_due e t V) as (Et & Es & _).
  split; [exact L|]. split; [congruence|]. split; [exact Qt|].
  split; [apply (AutoInv_view 0 e); assumption|]. split; assumption.
Qed.

(** One of the six timed steps, waited out. *)
Lemma tick_advances (reading : bool) (cbs : list Callback) (k : N)
    (q : SequenceStep) (s : State) :
  Ready q s -> step_index q < 6 -> stepDuration q <= Z.of_N k <= INT_MAX ->
  Ready (nextStep q) (run (tick reading cbs k) s).
Proof.
  intros R Q6 (Kd & K). unfold tick. rewrite 2 run_cons. change (run [] ?x) with x.
  destruct (Ready_elapsed q s k R K) as (A & Q & I & E1 & E2).
  revert A Q I E1 E2. generalize (step s (Elapse (1000 * k))). clear s R.
  intros e A Q I E1 E2.
  change (step e (Iteration reading None cbs)) with (loop reading None cbs e).
  destruct (iteration_auto reading cbs e A I) as (t & L & At & Qt & It & Et & _).
  apply (Ready_view _ (handleAutoSequence t)); [exact L|].
  rewrite Q in Qt. rewrite <- Et in E1, E2.
  assert (D : stepDue t = true).
  { unfold stepDue. rewrite Qt.
    destruct q; simpl in Q6, Kd |- *; try lia; apply Z.leb_le; lia. }
  split.
  { apply handleAutoSequence_stays_active; [exact At|].
    rewrite Qt. destruct q; simpl in Q6; try discriminate; lia. }
  split; [rewrite handleAutoSequence_step, D, Qt by exact At; reflexivity|].
  split; [apply handleAutoSequence_AutoInv, It|].
  exists (clock_us (handleAutoSequence t)), 0.
  split; [lia|]. split; [|lia].
  apply handleAutoSequence_fresh_start; [exact At | rewrite Qt; exact Q6 | exact D].
Qed.

Lemma wrap_ulong_range (z : Z) : 0 <= wrap_ulong z < 2 ^ 32.
Proof. unfold wrap_ulong. apply Z.mod_pos_bound. lia. Qed.

Lemma wrap_ulong_below (z : Z) :
  - 2 ^ 32 <= z < 0 -> wrap_ulong z = z + 2 ^ 32.
Proof.
  intros H. unfold wrap_ulong.
  rewrite <- (Z_mod_plus_full z 1 (2 ^ 32)).
  rewrite Z.mod_small; lia.
Qed.

(** The sleep step, waited out: 2900 ms after it began are enough. *)
Lemma sleep_tick (reading : bool) (cbs : list Callback) (k : N) (s : State) :
  Ready SEQ_SLEEP s -> 2900 <= Z.of_N k <= INT_MAX ->
  autoSequenceActive (run (tick reading cbs k) s) = true
  /\ currentSequenceStep (run (tick reading cbs k) s) = SEQ_COMPLETE
  /\ AutoInv 0 (run (tick reading cbs k) s).
Proof.
  intros R (Kd & K). unfold tick. rewrite 2 run_cons. change (run [] ?x) with x.
  destruct (Ready_elapsed SEQ_SLEEP s k R K) as (A & Q & I & E1 & E2).
  revert A Q I E1 E2. generalize (step s (Elapse (1000 * k))). clear s R.
  intros e A Q I E1 E2.
  change (step e (Iteration reading None cbs)) with (loop reading None cbs e).
  destruct (iteration_auto reading cbs e A I) as (t & L & At & Qt & It & Et & _).
  rewrite Q in Qt. rewrite <- Et in E1, E2.
  destruct It as (I0 & I1 & I2). destruct (I2 At Qt) as (D & Du & Lag).
  assert (It : AutoInv 0 t) by (split; [exact I0 | split; assumption]).
  assert (S : 3000 <= elapsedAsleep t).
  { pose proof (elapsed_since_step_start (millis t) _ _ Lag) as X.
    fold (elapsedInStep t) in X. fold (elapsedAsleep t) in X.
    pose proof (wrap_ulong_range (millis t - sleepStartTime t)) as B.
    fold (elapsedAsleep t) in B. unfold INT_MAX in K.
    destruct (Z_lt_le_dec (elapsedAsleep t) 100) as [Lo | Hi].
    - rewrite wrap_ulong_below in X by lia. lia.
    - unfold wrap_ulong in X. rewrite Z.mod_small in X by lia. lia. }
  assert (Due : stepDue t = true).
  { unfold stepDue. rewrite Qt, D, Du. apply Z.leb_le in S. rewrite S. reflexivity. }
  assert (U : autoSequenceActive (handleAutoSequence t) = true
              /\ currentSequenceStep (handleAutoSequence t) = SEQ_COMPLETE
              /\ AutoInv 0 (handleAutoSequence t)).
  { split; [apply handleAutoSequence_stays_active; [exact At | congruence]|].
    split; [rewrite handleAutoSequence_step, Due, Qt by exact At; reflexivity|].
    apply handleAutoSequence_AutoInv, It. }
  revert L U. generalize (handleAutoSequence t), (loop reading None cbs e).
  intros u w L (Au & Qu & Iu).
  destruct (timedView_inv u w L) as (Va & _ & Aw & Qw & _ & _).
  split; [congruence|]. split; [congruence|].
  apply (AutoInv_view 0 u); assumption.
Qed.

(** The iteration that finds the terminal step ends the sequence. *)
Lemma final_iteration (reading : bool) (cbs : list Callback) (s : State) :
  autoSequenceActive s = true -> currentSequenceStep s = SEQ_COMPLETE ->
  AutoInv 0 s ->
  currentTestMode (loop reading None cbs s) = MODE_NONE
  /\ autoSequenceActive (loop reading None cbs s) = false
  /\ currentSequenceStep (loop reading None cbs s) = SEQ_COMPLETE.
Proof.
  intros A Q I.
  destruct (iteration_auto reading cbs s A I) as (t & L & At & Qt & It & _).
  rewrite Q in Qt.
  destruct (handleAutoSequence_terminal t At Qt) as (Au & Mu).
  assert (Qu : currentSequenceStep (handleAutoSequence t) = SEQ_COMPLETE).
  { rewrite handleAutoSequence_step by exact At.
    unfold stepDue. rewrite Qt. reflexivity. }
  revert L Au Mu Qu. generalize (handleAutoSequence t), (loop reading None cbs s).
  intros u w L Au Mu Qu.
  destruct (timedView_inv u w L) as (_ & _ & Aw & Qw & _ & Mw).
  repeat split; congruence.
Qed.

Lemma startAutoSequence_Ready (s : State) : Ready SEQ_RX_1 (startAutoSequence s).
Proof.
  split; [|split; [|split; [apply startAutoSequence_AutoInv|]]].
  - unfold startAutoSequence, initializeDirectMode. cbn.
    destruct (usingRangingLayer s); reflexivity.
  - unfold startAutoSequence, initializeDirectMode. cbn.
    destruct (usingRangingLayer s); reflexivity.
  - unfold startAutoSequence, initializeDirectMode. cbn.
    destruct (usingRangingLayer s).
    + exists (clock_us s), 5. cbn. repeat split; lia.
    + exists (clock_us s), 0. cbn. repeat split; lia.
Qed.

(** X12. The auto sequence runs to its end.  Started in any state and
    polled once after each wait, with waits of at least 2000, 4000, 3000,
    2000, 4000, 2000 and 2900 ms (each below 2^31 ms), it visits idle-1,
    transmit, idle-2, receive-2, idle-3, sleep and complete in this order,
    one step per poll, staying active in mode AutoSequence; the next poll
    clears the active flag and leaves TestMode None. *)
Theorem X12_auto_sequence_completes
    (s0 : State) (reading : bool) (cbs : list Callback)
    (k1 k2 k3 k4 k5 k6 k7 : N) :
  2000 <= Z.of_N k1 <= INT_MAX -> 4000 <= Z.of_N k2 <= INT_MAX ->
  3000 <= Z.of_N k3 <= INT_MAX -> 2000 <= Z.of_N k4 <= INT_MAX ->
  4000 <= Z.of_N k5 <= INT_MAX -> 2000 <= Z.of_N k6 <= INT_MAX ->
  2900 <= Z.of_N k7 <= INT_MAX ->
  let s1 := run (tick reading cbs k1) (startAutoSequence s0) in
  let s2 := run (tick reading cbs k2) s1 in
  let s3 := run (tick reading cbs k3) s2 in
  let s4 := run (tick reading cbs k4) s3 in
  let s5 := run (tick reading cbs k5) s4 in
  let s6 := run (tick reading cbs k6) s5 in
  let s7 := run (tick reading cbs k7) s6 in
  let s8 := run [Iteration reading None cbs] s7 in
  map currentSequenceStep [s1; s2; s3; s4; s5; s6; s7]
  = [SEQ_IDLE_1; SEQ_TX; SEQ_IDLE_2; SEQ_RX_2; SEQ_IDLE_3; SEQ_SLEEP;
     SEQ_COMPLETE]
  /\ map autoSequenceActive [s1; s2; s3; s4; s5; s6; s7]
     = [true; true; true; true; true; true; true]
  /\ map currentTestMode [s1; s2; s3; s4; s5; s6; s7]
     = [MODE_AUTO_SEQUENCE; MODE_AUTO_SEQUENCE; MODE_AUTO_SEQUENCE;
        MODE_AUTO_SEQUENCE; MODE_AUTO_SEQUENCE; MODE_AUTO_SEQUENCE;
        MODE_AUTO_SEQUENCE]
  /\ currentTestMode s8 = MODE_NONE
  /\ autoSequenceActive s8 = false
  /\ currentSequenceStep s8 = SEQ_COMPLETE.
Proof.
  intros K1 K2 K3 K4 K5 K6 K7 s1 s2 s3 s4 s5 s6 s7 s8.
  pose proof (startAutoSequence_Ready s0) as R0.
  assert (R1 : Ready SEQ_IDLE_1 s1)
    by (apply (tick_advances _ _ _ SEQ_RX_1); [exact R0 | simpl; lia | exact K1]).
  assert (R2 : Ready SEQ_TX s2)
    by (apply (tick_advances _ _ _ SEQ_IDLE_1); [exact R1 | simpl; lia | exact K2]).
  assert (R3 : Ready SEQ_IDLE_2 s3)
    by (apply (tick_advances _ _ _ SEQ_TX); [exact R2 | simpl; lia | exact K3]).
  assert (R4 : Ready SEQ_RX_2 s4)
    by (apply (tick_advances _ _ _ SEQ_IDLE_2); [exact R3 | simpl; lia | exact K4]).
  assert (R5 : Ready SEQ_IDLE_3 s5)
    by (apply (tick_advances _ _ _ SEQ_RX_2); [exact R4 | simpl; lia | exact K5]).
  assert (R6 : Ready SEQ_SLEEP s6)
    by (apply (tick_advances _ _ _ SEQ_IDLE_3); [exact R5 | simpl; lia | exact K6]).
  destruct (sleep_tick reading cbs k7 s6 R6 K7) as (A7 & Q7 & I7).
  fold s7 in A7, Q7, I7.
  destruct (final_iteration reading cbs s7 A7 Q7 I7) as (M8 & A8 & Q8).
  change (loop reading None cbs s7) with s8 in M8, A8, Q8.
  destruct R1 as (A1 & Q1 & I1 & _). destruct R2 as (A2 & Q2 & I2 & _).
  destruct R3 as (A3 & Q3 & I3 & _). destruct R4 as (A4 & Q4 & I4 & _).
  destruct R5 as (A5 & Q5 & I5 & _). destruct R6 as (A6 & Q6 & I6 & _).
  clearbody s1 s2 s3 s4 s5 s6 s7 s8.
  cbn [map].
  rewrite Q1, Q2, Q3, Q4, Q5, Q6, Q7, A1, A2, A3, A4, A5, A6, A7.
  rewrite (AutoInv_active_mode s1 I1 A1), (AutoInv_active_mode s2 I2 A2),
    (AutoInv_active_mode s3 I3 A3), (AutoInv_active_mode s4 I4 A4),
    (AutoInv_active_mode s5 I5 A5), (AutoInv_active_mode s6 I6 A6),
    (AutoInv_active_mode s7 I7 A7).
  repeat split; assumption.
Qed.

Lemma X12_auto_sequence_completes_witness :
  currentTestMode
    (run [Iteration HIGH None []]
       (run (tick HIGH [] 2900)
          (run (tick HIGH [] 2000)
             (run (tick HIGH [] 4000)
                (run (tick HIGH [] 2000)
                   (run (tick HIGH [] 3000)
                      (run (tick HIGH [] 4000)
                         (run (tick HIGH [] 2000)
                            (startAutoSequence booted)))))))))
  = MODE_NONE.
Proof.
  assert (P2000 : 2000 <= Z.of_N 2000 <= INT_MAX) by (unfold INT_MAX; simpl; lia).
  assert (P4000 : 4000 <= Z.of_N 4000 <= INT_MAX) by (unfold INT_MAX; simpl; lia).
  assert (P3000 : 3000 <= Z.of_N 3000 <= INT_MAX) by (unfold INT_MAX; simpl; lia).
  assert (P2900 : 2900 <= Z.of_N 2900 <= INT_MAX) by (unfold INT_MAX; simpl; lia).
  pose proof (X12_auto_sequence_completes booted HIGH [] 2000 4000 3000 2000
                4000 2000 2900 P2000 P4000 P3000 P2000 P4000 P2000 P2900) as H.
  cbv zeta in H. destruct H as (_ & _ & _ & H & _). exact H.
Defined.

(** * The step timestamp of the auto sequence (C7) *)














(** * Mode changes without a command *)

Lemma quietMove_refl (a : TestMode) : quietMove a a = true.
Proof. destruct a; reflexivity. Qed.

Lemma quietMove_trans (a b c : TestMode) :
  quietMove a b = true -> quietMove b c = true -> quietMove a c = true.
Proof. destruct a, b; try discriminate; destruct c; trivial. Qed.

Ltac mode_auto s :=
  let M := fresh "M" in
  destruct (currentTestMode s) eqn:M;
  repeat (cbn; rewrite ?M;
          match goal with
          | |- context [if ?c then _ else _] => destruct c eqn:?
          end);
  repeat (progress (cbn; rewrite ?M)); try reflexivity; try discriminate.

Lemma fire_quietMove (cb : Callback) (s : State) :
  quietMove (currentTestMode s) (currentTestMode (fire cb s)) = true.
Proof.
  destruct cb as [ | | | | | [d|] | [d|] | [d|]]; cbn [fire];
    unfold handleSentPowerProfile, handleReceivedPowerProfile,
      handleReceiveTimeoutPowerProfile, handleReceiveFailedPowerProfile,
      handleTimestampAvailable, newRange, newDevice, inactiveDevice,
      stopRangingTest, initializeDirectMode, rangingLive;
    mode_auto s.
Qed.

Lemma DW1000Ranging_loop_quietMove (cbs : list Callback) (s : State) :
  quietMove (currentTestMode s) (currentTestMode (DW1000Ranging_loop cbs s))
  = true.
Proof.
  unfold DW1000Ranging_loop.
  change (currentTestMode s)
    with (currentTestMode (call "DW1000Ranging.loop" [] s)) at 1.
  generalize (call "DW1000Ranging.loop" [] s).
  induction cbs as [|cb cbs IH]; intros t; simpl; [apply quietMove_refl|].
  apply (quietMove_trans _ (currentTestMode (fire cb t)));
    [apply fire_quietMove | apply IH].
Qed.

Lemma handler_quietMove (s : State) :
  currentTestMode (handleTxTest s) = currentTestMode s
  /\ (currentTestMode s = MODE_SLEEP_CYCLE ->
      quietMove (currentTestMode s) (currentTestMode (handleSleepTest s)) = true)
  /\ (currentTestMode s = MODE_AUTO_SEQUENCE ->
      quietMove (currentTestMode s) (currentTestMode (handleAutoSequence s))
      = true).
Proof.
  split; [|split].
  - unfold handleTxTest. split_ifs; reflexivity.
  - intros M. rewrite M. unfold handleSleepTest, applyChannelConfiguration.
    split_ifs; cbn; rewrite ?M; reflexivity.
  - intros M. rewrite M. unfold handleAutoSequence, applyChannelConfiguration.
    destruct (currentSequenceStep s); split_ifs; cbn; rewrite ?M; reflexivity.
Qed.

Lemma handleRangingTest_quietMove (cbs : list Callback) (s : State) :
  quietMove (currentTestMode s) (currentTestMode (handleRangingTest cbs s))
  = true.
Proof.
  unfold handleRangingTest.
  destruct (rangingIdlePeriodActive s).
  - destruct (RANGING_IDLE_DURATION
              <=? wrap_ulong (millis s - rangingSequenceStartTime s));
      [|apply quietMove_refl].
    unfold initializeRangingMode, applyChannelConfiguration. cbn.
    destruct (usingRangingLayer s); cbn; apply quietMove_refl.
  - destruct (AnchorState_eqb (currentState s) STATE_ACTIVE
              && rangingTestActive s);
      [apply DW1000Ranging_loop_quietMove | apply quietMove_refl].
Qed.

Lemma handleButtonPress_mode (reading : bool) (s : State) :
  currentTestMode (handleButtonPress reading s) = currentTestMode s.
Proof. unfold handleButtonPress. split_ifs; reflexivity. Qed.

Lemma step_quietMove (i : Input) (s : State) :
  silent i -> quietMove (currentTestMode s) (currentTestMode (step s i)) = true.
Proof.
  intros Q. destruct i as [us | cb | reading [line|] cbs]; simpl in *.
  - apply quietMove_refl.
  - apply fire_quietMove.
  - contradiction.
  - unfold loop. rewrite <- (handleButtonPress_mode reading s) at 1.
    generalize (handleButtonPress reading s). clear s. intros s.
    assert (D : quietMove (currentTestMode s)
                  (currentTestMode
                     match currentTestMode s with
                     | MODE_NONE =>
                       if usingRangingLayer s then DW1000Ranging_loop cbs s else s
                     | MODE_TX_TEST => handleTxTest s
                     | MODE_RANGING_TEST => handleRangingTest cbs s
                     | MODE_SLEEP_CYCLE => handleSleepTest s
                     | MODE_AUTO_SEQUENCE => handleAutoSequence s
                     | _ => s
                     end) = true).
    { destruct (handler_quietMove s) as (Tx & Sl & Au).
      destruct (currentTestMode s) eqn:M.
      - destruct (usingRangingLayer s); [|rewrite M; reflexivity].
        rewrite <- M. apply DW1000Ranging_loop_quietMove.
      - rewrite ?M. reflexivity.
      - rewrite ?M. reflexivity.
      - rewrite Tx. reflexivity.
      - rewrite <- M. apply handleRangingTest_quietMove.
      - apply Sl. reflexivity.
      - apply Au. reflexivity. }
    revert D.
    generalize (match currentTestMode s with
                | MODE_NONE =>
                  if usingRangingLayer s then DW1000Ranging_loop cbs s else s
                | MODE_TX_TEST => handleTxTest s
                | MODE_RANGING_TEST => handleRangingTest cbs s
                | MODE_SLEEP_CYCLE => handleSleepTest s
                | MODE_AUTO_SEQUENCE => handleAutoSequence s
                | _ => s
                end).
    intros u D.
    destruct (oledInterval <? wrap_ulong (millis u - lastOledUpdate u));
      [rewrite updateOledDisplay_mode|]; exact D.
Qed.

(** X13. Without a command the test mode changes only where a test ends by
    itself: under any sequence of delays, callbacks and loop iterations
    without a command line, modes None, IdleTest, RxTest and TxTest are kept,
    a ranging test can only become IdleTest, and a sleep test and the auto
    sequence can only become None.  No test is ever started without a
    command. *)
Theorem X13_modes_change_only_by_ending (inputs : list Input) (s : State) :
  Forall silent inputs ->
  quietMove (currentTestMode s) (currentTestMode (run inputs s)) = true
  /\ (currentTestMode s = MODE_NONE \/ currentTestMode s = MODE_IDLE_TEST
      \/ currentTestMode s = MODE_RX_TEST \/ currentTestMode s = MODE_TX_TEST ->
      currentTestMode (run inputs s) = currentTestMode s)
  /\ (currentTestMode s = MODE_RANGING_TEST ->
      currentTestMode (run inputs s) = MODE_RANGING_TEST
      \/ currentTestMode (run inputs s) = MODE_IDLE_TEST)
  /\ (currentTestMode s = MODE_SLEEP_CYCLE \/ currentTestMode s = MODE_AUTO_SEQUENCE ->
      currentTestMode (run inputs s) = currentTestMode s
      \/ currentTestMode (run inputs s) = MODE_NONE).
Proof.
  intros Q.
  assert (R : quietMove (currentTestMode s) (currentTestMode (run inputs s)) = true).
  { revert s. induction Q as [|i inputs Qi _ IH]; intros s.
    - apply quietMove_refl.
    - simpl. apply (quietMove_trans _ (currentTestMode (step s i)));
        [apply step_quietMove, Qi | apply IH]. }
  split; [exact R|].
  revert R. generalize (currentTestMode (run inputs s)). intros b R.
  repeat split; intros H;
    repeat match goal with
           | H : _ \/ _ |- _ => destruct H as [H | H]
           end;
    rewrite H in *; destruct b; try discriminate R; auto.
Qed.

Lemma X13_modes_change_only_by_ending_witness :
  currentTestMode
    (run [Elapse 5000000; Interrupt (OnNewRange (Some sampleDevice));
          Iteration LOW None [OnTimestampAvailable]] directIdle)
  = MODE_IDLE_TEST.
Proof.
  assert (Q : Forall silent
                [Elapse 5000000; Interrupt (OnNewRange (Some sampleDevice));
                 Iteration LOW None [OnTimestampAvailable]])
    by (repeat constructor).
  destruct (X13_modes_change_only_by_ending _ directIdle Q) as (_ & H & _).
  rewrite H; [vm_compute; reflexivity | right; left; vm_compute; reflexivity].
Defined.

(** * The transmit test *)

Lemma txView_inv (s t : State) :
  txView t = txView s ->
  currentTestMode t = currentTestMode s /\ txInProgress t = txInProgress s
  /\ transmitCount t = transmitCount s /\ lastTxTime t = lastTxTime s
  /\ txInterval t = txInterval s /\ clock_us t = clock_us s
  /\ ppk2_tx_level t = ppk2_tx_level s.
Proof. unfold txView. intros V. repeat split; congruence. Qed.

Lemma txView_due (s t : State) :
  txView t = txView s -> transmitDue t = transmitDue s /\ millis t = millis s.
Proof.
  intros V. destruct (txView_inv s t V) as (_ & P & _ & L & I & C & _).
  unfold transmitDue, millis. rewrite P, L, I, C. split; reflexivity.
Qed.

Lemma handleButtonPress_txView (reading : bool) (s : State) :
  currentTestMode s <> MODE_NONE ->
  txView (handleButtonPress reading s) = txView s.
Proof.
  intros M. unfold handleButtonPress.
  assert (N : TestMode_eqb (currentTestMode s) MODE_NONE = false)
    by (destruct (currentTestMode s); try reflexivity; congruence).
  rewrite N. split_ifs; reflexivity.
Qed.

Lemma updateOledDisplay_txView (s : State) :
  txView (updateOledDisplay s) = txView s.
Proof.
  unfold updateOledDisplay. cbn. destruct (currentTestMode s); reflexivity.
Qed.

(** The transmit handler, as far as the pacing is concerned. *)
Lemma handleTxTest_txView (s : State) :
  txView (handleTxTest s)
  = if transmitDue s
    then (currentTestMode s, true, Z.succ (transmitCount s), millis s,
          txInterval s, clock_us s, HIGH)
    else txView s.
Proof.
  unfold handleTxTest, transmitDue.
  destruct ((txInterval s <=? wrap_ulong (millis s - lastTxTime s))
            && negb (txInProgress s)).
  - cbn. reflexivity.
  - destruct (negb (txInProgress s) && (10 <? wrap_ulong (millis s - lastTxTime s)));
      reflexivity.
Qed.

(** A loop iteration without a command in mode TxTest is the transmit handler,
    as far as the pacing is concerned. *)
Lemma loop_tx (reading : bool) (cbs : list Callback) (s : State) :
  currentTestMode s = MODE_TX_TEST ->
  exists t, txView t = txView s
            /\ txView (loop reading None cbs s) = txView (handleTxTest t).
Proof.
  intros M. exists (handleButtonPress reading s).
  assert (N : currentTestMode s <> MODE_NONE) by congruence.
  pose proof (handleButtonPress_txView reading s N) as V.
  split; [exact V|]. unfold loop.
  destruct (txView_inv s _ V) as (Mt & _).
  revert Mt. generalize (handleButtonPress reading s). intros t Mt.
  rewrite Mt, M. cbv iota.
  generalize (handleTxTest t). intros u.
  destruct (oledInterval <? wrap_ulong (millis u - lastOledUpdate u));
    [apply updateOledDisplay_txView | reflexivity].
Qed.

Lemma fire_txView (cb : Callback) (s : State) :
  currentTestMode s = MODE_TX_TEST -> cb <> OnSent ->
  txView (fire cb s) = txView s.
Proof.
  intros M Q.
  destruct cb as [| | | | | [d|] | [d|] | [d|]]; try congruence;
    unfold fire, handleReceivedPowerProfile, handleReceiveTimeoutPowerProfile,
      handleReceiveFailedPowerProfile, handleTimestampAvailable, newRange,
      newDevice, inactiveDevice, rangingLive;
    rewrite ?M; reflexivity.
Qed.

(** One input that is neither a command nor a sent interrupt, in mode
    TxTest. *)
Lemma step_tx (i : Input) (s : State) :
  currentTestMode s = MODE_TX_TEST -> unacknowledged i ->
  currentTestMode (step s i) = MODE_TX_TEST
  /\ ((txInProgress (step s i) = txInProgress s
       /\ transmitCount (step s i) = transmitCount s)
      \/ (txInProgress s = false /\ txInProgress (step s i) = true
          /\ transmitCount (step s i) = Z.succ (transmitCount s))).
Proof.
  intros M Q. destruct i as [us | cb | reading [line|] cbs]; simpl in Q.
  - split; [exact M | left; split; reflexivity].
  - assert (N : cb <> OnSent) by (intros ->; exact Q).
    destruct (txView_inv s _ (fire_txView cb s M N)) as (A & B & C & _).
    change (step s (Interrupt cb)) with (fire cb s).
    split; [congruence | left; split; assumption].
  - contradiction.
  - change (step s (Iteration reading None cbs)) with (loop reading None cbs s).
    destruct (loop_tx reading cbs s M) as (t & V & L).
    rewrite handleTxTest_txView in L.
    destruct (txView_inv s t V) as (Mt & Pt & Ct & _).
    revert L. generalize (loop reading None cbs s). intros u L.
    destruct (transmitDue t) eqn:D.
    + assert (A : currentTestMode u = currentTestMode t)
        by (unfold txView in L; congruence).
      assert (B : txInProgress u = true) by (unfold txView in L; congruence).
      assert (C : transmitCount u = Z.succ (transmitCount t))
        by (unfold txView in L; congruence).
      split; [congruence|]. right.
      unfold transmitDue in D. apply andb_prop in D. destruct D as (_ & D).
      apply negb_true_iff in D.
      split; [congruence|]. split; [exact B | congruence].
    + destruct (txView_inv t u L) as (A & B & C & _).
      split; [congruence | left; split; congruence].
Qed.

(** X14. In the transmit test at most one transmission is in flight: under
    any inputs without a command and without the radio's sent interrupt the
    mode stays TxTest and at most one transmission is started, none at all
    when one was already in flight; once one is started the in-flight flag
    stays set until the sent interrupt. *)
Theorem X14_one_transmission_in_flight (inputs : list Input) (s : State) :
  currentTestMode s = MODE_TX_TEST -> Forall unacknowledged inputs ->
  currentTestMode (run inputs s) = MODE_TX_TEST
  /\ transmitCount s <= transmitCount (run inputs s)
     <= transmitCount s + (if txInProgress s then 0 else 1)
  /\ (txInProgress s = true -> txInProgress (run inputs s) = true)
  /\ (transmitCount s < transmitCount (run inputs s) ->
      txInProgress (run inputs s) = true).
Proof.
  intros M Q. revert s M.
  induction Q as [|i inputs Qi _ IH]; intros s M.
  - change (run [] s) with s. split; [exact M|].
    destruct (txInProgress s); repeat split; try lia; auto.
  - rewrite run_cons.
    destruct (step_tx i s M Qi) as (M1 & S1).
    destruct (IH (step s i) M1) as (M2 & C2 & P2 & G2).
    revert M2 C2 P2 G2. generalize (run inputs (step s i)). intros r M2 C2 P2 G2.
    revert S1 C2 P2 G2.
    generalize (transmitCount (step s i)) (txInProgress (step s i)).
    intros c1 p1 S1 C2 P2 G2.
    split; [exact M2|].
    destruct S1 as [(P1 & C1) | (P0 & P1 & C1)]; subst.
    + repeat split; try lia; auto.
    + rewrite P0. cbn iota in C2.
      repeat split; try lia; auto.
Qed.

Lemma X14_one_transmission_in_flight_witness :
  transmitCount
    (run [Elapse 60000; Iteration HIGH None []; Elapse 60000;
          Iteration HIGH None []; Interrupt (OnNewDevice (Some sampleDevice));
          Elapse 60000; Iteration LOW None []]
       (parseCommand "TX_TEST" booted))
  <= transmitCount (parseCommand "TX_TEST" booted) + 1.
Proof.
  assert (M : currentTestMode (parseCommand "TX_TEST" booted) = MODE_TX_TEST)
    by (vm_compute; reflexivity).
  assert (Q : Forall unacknowledged
                [Elapse 60000; Iteration HIGH None []; Elapse 60000;
                 Iteration HIGH None [];
                 Interrupt (OnNewDevice (Some sampleDevice));
                 Elapse 60000; Iteration LOW None []])
    by (repeat constructor).
  destruct (X14_one_transmission_in_flight _ _ M Q) as (_ & (_ & H) & _).
  assert (P : txInProgress (parseCommand "TX_TEST" booted) = false)
    by (vm_compute; reflexivity).
  rewrite P in H. exact H.
Defined.

Lemma handleSentPowerProfile_txView (s : State) :
  txView (handleSentPowerProfile s)
  = (currentTestMode s, false, transmitCount s, lastTxTime s, txInterval s,
     clock_us s, LOW).
Proof. reflexivity. Qed.

(** The pacing test [k] ms after a state whose last transmission time is the
    current time. *)
Lemma transmitDue_elapsed (s : State) (k : N) :
  lastTxTime s = millis s -> Z.of_N k < 2 ^ 32 ->
  transmitDue (step s (Elapse (1000 * k)))
  = (txInterval s <=? Z.of_N k) && negb (txInProgress s).
Proof.
  intros L K.
  change (step s (Elapse (1000 * k)))
    with (set_clock_us (clock_us s + Z.of_N (1000 * k)) s).
  rewrite N2Z.inj_mul. change (Z.of_N 1000) with 1000.
  unfold transmitDue.
  change (millis (set_clock_us (clock_us s + 1000 * Z.of_N k) s))
    with (wrap_ulong ((clock_us s + 1000 * Z.of_N k) / 1000)).
  change (lastTxTime (set_clock_us (clock_us s + 1000 * Z.of_N k) s))
    with (lastTxTime s).
  change (txInterval (set_clock_us (clock_us s + 1000 * Z.of_N k) s))
    with (txInterval s).
  change (txInProgress (set_clock_us (clock_us s + 1000 * Z.of_N k) s))
    with (txInProgress s).
  rewrite L. unfold millis. rewrite millis_ahead by lia. reflexivity.
Qed.

Lemma elapsed_txView (s : State) (k : N) :
  txView (step s (Elapse (1000 * k)))
  = (currentTestMode s, txInProgress s, transmitCount s, lastTxTime s,
     txInterval s, clock_us s + Z.of_N (1000 * k), ppk2_tx_level s).
Proof. reflexivity. Qed.

(** X15. The pacing of the transmit test.  In mode TxTest with no
    transmission in flight and the last transmission time equal to the current
    time (as TX_TEST and every started transmission leave it), a loop
    iteration [k] ms later starts no transmission while [k] is below the
    interval, and from the interval on starts exactly one: the TX marker goes
    high, the in-flight flag is set and the transmission time is the current
    time.  The sent interrupt then drives the marker low and clears the flag,
    which gives the state the next interval is counted from. *)
Theorem X15_transmit_pacing (reading : bool) (cbs : list Callback) (k : N)
    (s : State) :
  currentTestMode s = MODE_TX_TEST -> txInProgress s = false ->
  lastTxTime s = millis s -> Z.of_N k < 2 ^ 32 ->
  let s2 := run (tick reading cbs k) s in
  let s3 := step s2 (Interrupt OnSent) in
  (Z.of_N k < txInterval s ->
   transmitCount s2 = transmitCount s /\ txInProgress s2 = false
   /\ ppk2_tx_level s2 = ppk2_tx_level s /\ lastTxTime s2 = lastTxTime s)
  /\ (txInterval s <= Z.of_N k ->
      transmitCount s2 = Z.succ (transmitCount s) /\ txInProgress s2 = true
      /\ ppk2_tx_level s2 = HIGH /\ lastTxTime s2 = millis s2
      /\ currentTestMode s3 = MODE_TX_TEST /\ txInProgress s3 = false
      /\ ppk2_tx_level s3 = LOW /\ lastTxTime s3 = millis s3
      /\ transmitCount s3 = transmitCount s2).
Proof.
  intros M P L K s2 s3. subst s3 s2.
  unfold tick. rewrite 2 run_cons. change (run [] ?x) with x.
  pose proof (transmitDue_elapsed s k L K) as D. rewrite P in D.
  pose proof (elapsed_txView s k) as E.
  revert D E. generalize (step s (Elapse (1000 * k))). intros e D E.
  assert (Me : currentTestMode e = MODE_TX_TEST)
    by (unfold txView in E; congruence).
  change (step e (Iteration reading None cbs)) with (loop reading None cbs e).
  destruct (loop_tx reading cbs e Me) as (t & V & W).
  rewrite handleTxTest_txView in W.
  destruct (txView_due e t V) as (Dt & Mt). rewrite Dt, D in W.
  destruct (txView_inv e t V) as (T1 & T2 & T3 & T4 & T5 & T6 & T7).
  rewrite T1, T3, T5, T6, Mt, V in W. clear V T1 T2 T3 T4 T5 T6 T7 Dt Mt t D.
  assert (E1 : currentTestMode e = currentTestMode s)
    by (unfold txView in E; congruence).
  assert (E2 : transmitCount e = transmitCount s)
    by (unfold txView in E; congruence).
  assert (E3 : txInterval e = txInterval s)
    by (unfold txView in E; congruence).
  rewrite E1, E2, E3, E in W. clear E1 E2 E3 E.
  change (step (loop reading None cbs e) (Interrupt OnSent))
    with (handleSentPowerProfile (loop reading None cbs e)).
  pose proof (handleSentPowerProfile_txView (loop reading None cbs e)) as S.
  assert (Ms : millis (handleSentPowerProfile (loop reading None cbs e))
               = millis (loop reading None cbs e))
    by reflexivity.
  revert S Ms. generalize (handleSentPowerProfile (loop reading None cbs e)).
  revert W. generalize (loop reading None cbs e). intros u W v S Ms.
  unfold txView in W, S.
  split; intros I.
  - apply Z.leb_gt in I. rewrite I in W. cbn in W.
    repeat split; congruence.
  - apply Z.leb_le in I. rewrite I in W. cbn in W.
    assert (X1 : transmitCount u = Z.succ (transmitCount s)) by congruence.
    assert (X2 : txInProgress u = true) by congruence.
    assert (X3 : ppk2_tx_level u = HIGH) by congruence.
    assert (X5 : currentTestMode u = MODE_TX_TEST) by congruence.
    assert (X6 : clock_us u = clock_us e) by congruence.
    assert (X4 : lastTxTime u = millis u).
    { assert (X : lastTxTime u = millis e) by congruence.
      unfold millis in *. rewrite X6. exact X. }
    repeat split; congruence.
Qed.

Lemma X15_transmit_pacing_witness :
  transmitCount (run (tick HIGH [] 50) (parseCommand "TX_TEST" booted))
  = Z.succ (transmitCount (parseCommand "TX_TEST" booted)).
Proof.
  assert (M : currentTestMode (parseCommand "TX_TEST" booted) = MODE_TX_TEST)
    by (vm_compute; reflexivity).
  assert (P : txInProgress (parseCommand "TX_TEST" booted) = false)
    by (vm_compute; reflexivity).
  assert (L : lastTxTime (parseCommand "TX_TEST" booted)
              = millis (parseCommand "TX_TEST" booted))
    by (vm_compute; reflexivity).
  assert (K : Z.of_N 50 < 2 ^ 32) by (simpl; lia).
  pose proof (X15_transmit_pacing HIGH [] 50 _ M P L K) as H.
  cbv zeta in H. destruct H as (_ & H).
  assert (I : txInterval (parseCommand "TX_TEST" booted) <= Z.of_N 50)
    by (vm_compute; discriminate).
  destruct (H I) as (X & _). exact X.
Defined.

(** * The range records *)

(** Every test of the code decided, the new events checked one by one. *)
Ltac records_auto H :=
  unfold RecordsOk in *;
  repeat (cbn; match goal with
               | |- context [if ?c then _ else _] => destruct c eqn:?
               end);
  cbn; repeat (apply Forall_cons; [reflexivity|]); exact H.

Lemma stopAllTests_RecordsOk (s : State) :
  RecordsOk s -> RecordsOk (stopAllTests s).
Proof.
  intros H. unfold stopAllTests, initializeRangingMode, applyChannelConfiguration.
  records_auto H.
Qed.

Lemma start_RecordsOk (s : State) (n : Z) :
  RecordsOk s ->
  RecordsOk (startIdleTest s) /\ RecordsOk (startRxTest s)
  /\ RecordsOk (startTxTest s) /\ RecordsOk (startRangingTest n s)
  /\ RecordsOk (startSleepTest s) /\ RecordsOk (startAutoSequence s).
Proof.
  intros H.
  repeat split;
    unfold startIdleTest, startRxTest, startTxTest, startRangingTest,
      startSleepTest, startAutoSequence, stopAllTests, initializeDirectMode,
      initializeRangingMode, applyChannelConfiguration;
    records_auto H.
Qed.

Lemma parseCommand_RecordsOk (cmd : string) (s : State) :
  RecordsOk s -> RecordsOk (parseCommand cmd s).
Proof.
  intros H. apply stopAllTests_RecordsOk in H. unfold parseCommand.
  revert H. generalize (stopAllTests s). intros u U.
  assert (Utx : forall v, RecordsOk (set_txInterval v u)) by (intros v; exact U).
  assert (Usl : forall v, RecordsOk (set_sleepDuration v u))
    by (intros v; exact U).
  assert (Upr : forall l, RecordsOk (Serial_println l u))
    by (intros l; apply Forall_cons; [reflexivity | exact U]).
  destruct (start_RecordsOk u (commandArg cmd) U) as (I & R & _ & G & _ & A).
  assert (Tx : forall v, RecordsOk (startTxTest (set_txInterval v u))).
  { intros v. destruct (start_RecordsOk _ 0 (Utx v)) as (_ & _ & X & _).
    exact X. }
  assert (Sl : forall v, RecordsOk (startSleepTest (set_sleepDuration v u))).
  { intros v. destruct (start_RecordsOk _ 0 (Usl v)) as (_ & _ & _ & _ & X & _).
    exact X. }
  destruct (String.eqb (commandName cmd) "IDLE_TEST"); [exact I|].
  destruct (String.eqb (commandName cmd) "RX_TEST"); [exact R|].
  destruct (String.eqb (commandName cmd) "TX_TEST"); [apply Tx|].
  destruct (String.eqb (commandName cmd) "RANGING_TEST").
  { destruct (0 <? commandArg cmd); [exact G | apply Upr]. }
  destruct (String.eqb (commandName cmd) "SLEEP_CYCLE"); [apply Sl|].
  destruct (String.eqb (commandName cmd) "auto"); [exact A|].
  destruct (String.eqb (commandName cmd) "STOP_TEST"); apply Upr.
Qed.

(** The one place a range record is written: the two counters have just been
    incremented together. *)
Lemma newRange_RecordsOk (d : option DW1000Device) (s : State) :
  pin26PulseCount s = rangingTestCurrentCount s ->
  RecordsOk s -> RecordsOk (newRange d s).
Proof.
  intros P H. destruct d as [d|]; [|exact H].
  unfold newRange, stopRangingTest, initializeDirectMode,
    applyChannelConfiguration.
  unfold RecordsOk in *.
  repeat (cbn; match goal with
               | |- context [if ?c then _ else _] => destruct c eqn:?
               end);
    cbn; rewrite ?P;
    repeat (apply Forall_cons; [first [reflexivity | apply Z.eqb_refl]|]);
    exact H.
Qed.

Lemma fire_RecordsOk (cb : Callback) (s : State) :
  Coherent s -> RecordsOk s -> RecordsOk (fire cb s).
Proof.
  intros (_ & _ & _ & P) H.
  destruct cb as [ | | | | | d | [d|] | [d|]]; cbn [fire];
    try (apply newRange_RecordsOk; assumption);
    unfold handleSentPowerProfile, handleReceivedPowerProfile,
      handleReceiveTimeoutPowerProfile, handleReceiveFailedPowerProfile,
      handleTimestampAvailable, newDevice, inactiveDevice;
    records_auto H.
Qed.

Lemma DW1000Ranging_loop_RecordsOk (cbs : list Callback) (s : State) :
  Coherent s -> RecordsOk s -> RecordsOk (DW1000Ranging_loop cbs s).
Proof.
  intros C H. unfold DW1000Ranging_loop.
  assert (C' : Coherent (call "DW1000Ranging.loop" [] s)) by exact C.
  assert (H' : RecordsOk (call "DW1000Ranging.loop" [] s))
    by (apply Forall_cons; [reflexivity | exact H]).
  revert C' H'. generalize (call "DW1000Ranging.loop" [] s).
  induction cbs as [|cb cbs IH]; intros t Ct Ht; simpl; [exact Ht|].
  apply IH; [apply fire_Coherent, Ct | apply fire_RecordsOk; assumption].
Qed.

Lemma handlers_RecordsOk (reading : bool) (s : State) :
  RecordsOk s ->
  RecordsOk (handleButtonPress reading s) /\ RecordsOk (updateOledDisplay s)
  /\ RecordsOk (handleTxTest s) /\ RecordsOk (handleSleepTest s).
Proof.
  intros H. repeat split.
  - unfold handleButtonPress, applyChannelConfiguration. records_auto H.
  - unfold updateOledDisplay, RecordsOk in *. cbn.
    destruct (currentTestMode s); apply Forall_cons; try reflexivity; exact H.
  - unfold handleTxTest. records_auto H.
  - unfold handleSleepTest, applyChannelConfiguration. records_auto H.
Qed.

Lemma handleAutoSequence_RecordsOk (s : State) :
  RecordsOk s -> RecordsOk (handleAutoSequence s).
Proof.
  intros H. unfold handleAutoSequence, applyChannelConfiguration.
  destruct (currentSequenceStep s); records_auto H.
Qed.

Lemma handleRangingTest_RecordsOk (cbs : list Callback) (s : State) :
  Coherent s -> RecordsOk s -> RecordsOk (handleRangingTest cbs s).
Proof.
  intros C H. unfold handleRangingTest.
  destruct (rangingIdlePeriodActive s).
  - destruct (RANGING_IDLE_DURATION
              <=? wrap_ulong (millis s - rangingSequenceStartTime s));
      [|exact H].
    unfold initializeRangingMode, applyChannelConfiguration. records_auto H.
  - destruct (AnchorState_eqb (currentState s) STATE_ACTIVE
              && rangingTestActive s); [|exact H].
    apply DW1000Ranging_loop_RecordsOk; assumption.
Qed.

Lemma loop_RecordsOk (reading : bool) (line : option string)
    (cbs : list Callback) (s : State) :
  Coherent s -> RecordsOk s -> RecordsOk (loop reading line cbs s).
Proof.
  intros C H. unfold loop.
  apply (handleButtonPress_Coherent reading) in C.
  destruct (handlers_RecordsOk reading s H) as (B & _). clear H.
  revert C B. generalize (handleButtonPress reading s). clear s. intros s C H.
  assert (C1 : Coherent match line with
                        | Some cmd => parseCommand (trim cmd) s
                        | None => s
                        end)
    by (destruct line; [apply parseCommand_Coherent|]; exact C).
  assert (H1 : RecordsOk match line with
                         | Some cmd => parseCommand (trim cmd) s
                         | None => s
                         end)
    by (destruct line; [apply parseCommand_RecordsOk|]; exact H).
  revert C1 H1.
  generalize (match line with
              | Some cmd => parseCommand (trim cmd) s
              | None => s
              end).
  clear s C H. intros s C H.
  assert (D : RecordsOk match currentTestMode s with
                        | MODE_NONE =>
                          if usingRangingLayer s then DW1000Ranging_loop cbs s
                          else s
                        | MODE_TX_TEST => handleTxTest s
                        | MODE_RANGING_TEST => handleRangingTest cbs s
                        | MODE_SLEEP_CYCLE => handleSleepTest s
                        | MODE_AUTO_SEQUENCE => handleAutoSequence s
                        | _ => s
                        end).
  { destruct (handlers_RecordsOk reading s H) as (_ & _ & Tx & Sl).
    destruct (currentTestMode s); try assumption.
    - destruct (usingRangingLayer s); [|exact H].
      apply DW1000Ranging_loop_RecordsOk; assumption.
    - apply handleRangingTest_RecordsOk; assumption.
    - apply handleAutoSequence_RecordsOk, H. }
  revert D.
  generalize (match currentTestMode s with
              | MODE_NONE =>
                if usingRangingLayer s then DW1000Ranging_loop cbs s else s
              | MODE_TX_TEST => handleTxTest s
              | MODE_RANGING_TEST => handleRangingTest cbs s
              | MODE_SLEEP_CYCLE => handleSleepTest s
              | MODE_AUTO_SEQUENCE => handleAutoSequence s
              | _ => s
              end).
  intros u D.
  destruct (oledInterval <? wrap_ulong (millis u - lastOledUpdate u));
    [|exact D].
  destruct (handlers_RecordsOk reading u D) as (_ & O & _). exact O.
Qed.

Lemma step_RecordsOk (i : Input) (s : State) :
  Coherent s -> RecordsOk s -> RecordsOk (step s i).
Proof.
  intros C H. destruct i as [us | cb | reading line cbs]; simpl.
  - exact H.
  - apply fire_RecordsOk; assumption.
  - apply loop_RecordsOk; assumption.
Qed.

Lemma run_RecordsOk (inputs : list Input) (s : State) :
  Coherent s -> RecordsOk s -> RecordsOk (run inputs s).
Proof.
  revert s. induction inputs as [|i inputs IH]; intros s C H; [exact H|].
  simpl. apply IH; [apply step_Coherent, C | apply step_RecordsOk; assumption].
Qed.

(** X16. In every range record the firmware ever writes, the record's index
    and its pin-26 pulse count are the same number: whatever the inputs since
    power-on, each [#index:range|P25:..|P26:..] line in the serial output has
    its first field equal to its fourth. *)
Theorem X16_record_index_is_pulse_count (inputs : list Input) (fmt : string)
    (args : list Z) :
  In (SerialPrintf fmt args) (trace (run inputs booted)) ->
  fmt = RANGE_RECORD ->
  nth 0 args 0 = nth 3 args 0.
Proof.
  intros I F.
  assert (B : RecordsOk booted)
    by (unfold RecordsOk; apply Forall_forall; intros e;
        vm_compute; intuition (subst; reflexivity)).
  pose proof (run_RecordsOk inputs booted booted_Coherent B) as R.
  unfold RecordsOk in R. rewrite Forall_forall in R.
  specialize (R _ I). unfold recordOk in R. rewrite F in R.
  rewrite String.eqb_refl in R. apply Z.eqb_eq, R.
Qed.

Lemma X16_record_index_is_pulse_count_witness :
  nth 0 [1; 1065353216; 1; 1; 3057; 10; 20; 30; 40; 50; 60] 0
  = nth 3 [1; 1065353216; 1; 1; 3057; 10; 20; 30; 40; 50; 60] 0.
Proof.
  apply (X16_record_index_is_pulse_count
           [Iteration HIGH (Some "RANGING_TEST 2") []; Elapse 1000000;
            Iteration HIGH None [];
            Iteration HIGH None
              [OnTimestampAvailable; OnNewRange (Some sampleDevice)]]
           RANGE_RECORD).
  - vm_compute. left. reflexivity.
  - reflexivity.
Defined.
